(** * ts-lib maps: a shallow embedding of [Data/HashMap.ts],
      [Data/Map/HashMap.ts], [Data/Map/DefaultMap.ts] and
      [Data/Map/MissingKeyError.ts]

    The classes wrap a native ES6 [Map].  A class instance is a handle
    whose fields are all [readonly]; the only mutable object behind it is
    the native [Map] it points to.  The development therefore keeps a
    store of native [Map] objects, addressed by location, and models each
    method as a computation over that store which may throw and which logs
    the calls made to a default-value generator.

    Iterators are modelled by the whole sequence they yield.  The functions
    a caller passes in (hashing and serializing functions, predicates,
    mappers, default-value generators) are functions of their arguments;
    predicates, mappers and generators may also read the store. *)

From Stdlib Require Import ZArith.
From stdpp Require Import base option list strings pretty gmap.

Set Default Proof Using "Type".

(** ** JavaScript truthiness, as used by [if (!value)] *)

Class Truthy (V : Type) := truthy : V → bool.

(** Integer-valued [number]s: only [0] is falsy. *)
#[global] Instance Truthy_Z : Truthy Z := λ n, negb (n =? 0)%Z.
(** [string]: only the empty string is falsy. *)
#[global] Instance Truthy_string : Truthy string :=
  λ s, match s with EmptyString => false | String _ _ => true end.
#[global] Instance Truthy_bool : Truthy bool := λ b, b.

(** ** The native ES6 [Map]: entries in insertion order, keys unique

    Keys are compared by a decidable equality, which is what SameValueZero
    is on the strings and numbers the maps are keyed by. *)

Module JsMap.
Section JsMap.
Context {K V : Type} `{EqDecision K}.

(** [Map.prototype.get]: [undefined] is [None]. *)
Fixpoint get (es : list (K * V)) (k : K) : option V :=
  match es with
  | [] => None
  | (k', v) :: r => if decide (k' = k) then Some v else get r k
  end.

(** [Map.prototype.has]. *)
Fixpoint has (es : list (K * V)) (k : K) : bool :=
  match es with
  | [] => false
  | (k', _) :: r => if decide (k' = k) then true else has r k
  end.

(** [Map.prototype.set]: an existing key keeps its position, a new key
    goes to the end. *)
Fixpoint set (es : list (K * V)) (k : K) (v : V) : list (K * V) :=
  match es with
  | [] => [(k, v)]
  | (k', v') :: r =>
      if decide (k' = k) then (k', v) :: r else (k', v') :: set r k v
  end.

(** [Map.prototype.delete]: the entry under [k] goes (keys are unique, so
    there is at most one), the others stay in order. *)
Definition delete (es : list (K * V)) (k : K) : list (K * V) :=
  filter (λ e, e.1 ≠ k) es.

(** [new Map(iterable)]: the pairs are [set] one after the other. *)
Definition of_entries (l : list (K * V)) : list (K * V) :=
  fold_left (λ es e, set es e.1 e.2) l [].

(** The representation invariant of a native [Map]. *)
Definition wf (es : list (K * V)) : Prop := NoDup es.*1.

End JsMap.
End JsMap.

(** ** Computations over the store of native [Map] objects *)

Inductive Res (E A : Type) : Type :=
  | Ok (a : A)
  | Throw (e : E).
Arguments Ok {E A} a.
Arguments Throw {E A} e.

(** What running a method leaves behind: its result (a value or a thrown
    error), the store, and the keys the default-value generator was called
    with, in call order. *)
Record Outcome (St Ev E A : Type) : Type := MkOutcome {
  result : Res E A;
  store : St;
  calls : list Ev;
}.
Arguments MkOutcome {St Ev E A} result store calls.
Arguments result {St Ev E A} o.
Arguments store {St Ev E A} o.
Arguments calls {St Ev E A} o.

Definition Eff (St Ev E A : Type) : Type := St → Outcome St Ev E A.

#[global] Instance Eff_ret {St Ev E} : MRet (Eff St Ev E) :=
  λ A a s, MkOutcome (Ok a) s [].

#[global] Instance Eff_bind {St Ev E} : MBind (Eff St Ev E) :=
  λ A B f m s,
    let o := m s in
    match result o with
    | Ok a =>
        let o' := f a (store o) in
        MkOutcome (result o') (store o') (calls o ++ calls o')
    | Throw e => MkOutcome (Throw e) (store o) (calls o)
    end.

Definition throw {St Ev E A} (e : E) : Eff St Ev E A :=
  λ s, MkOutcome (Throw e) s [].

(** Reading the store without changing it. *)
Definition reads {St Ev E A} (f : St → A) : Eff St Ev E A :=
  λ s, MkOutcome (Ok (f s)) s [].

(** Recording one call of the default-value generator. *)
Definition emit {St Ev E} (ev : Ev) : Eff St Ev E () :=
  λ s, MkOutcome (Ok ()) s [ev].

Abbreviation loc := nat (only parsing).

(** The store: the native [Map] objects allocated so far. *)
Abbreviation Store HK V := (gmap nat (list (HK * V))) (only parsing).

Section NativeMap.
Context {HK V Ev E : Type} `{EqDecision HK}.
Abbreviation M := (Eff (Store HK V) Ev E).

(** The entries of the [Map] at [l]. *)
Definition contents (h : Store HK V) (l : loc) : list (HK * V) :=
  default [] (h !! l).

(** [new Map(entries)]: a fresh object. *)
Definition Map_new (es : list (HK * V)) : M loc :=
  λ h, let l := fresh (dom h) in
       MkOutcome (Ok l) (<[l := JsMap.of_entries es]> h) [].

Definition Map_get (l : loc) (k : HK) : M (option V) :=
  reads (λ h, JsMap.get (contents h l) k).

Definition Map_has (l : loc) (k : HK) : M bool :=
  reads (λ h, JsMap.has (contents h l) k).

Definition Map_set (l : loc) (k : HK) (v : V) : M () :=
  λ h, MkOutcome (Ok ()) (<[l := JsMap.set (contents h l) k v]> h) [].

Definition Map_delete (l : loc) (k : HK) : M () :=
  λ h, MkOutcome (Ok ()) (<[l := JsMap.delete (contents h l) k]> h) [].

Definition Map_clear (l : loc) : M () :=
  λ h, MkOutcome (Ok ()) (<[l := []]> h) [].

(** The iterators, drained: the whole sequence they yield. *)
Definition Map_entries (l : loc) : M (list (HK * V)) :=
  reads (λ h, contents h l).

Definition Map_keys (l : loc) : M (list HK) :=
  reads (λ h, (contents h l).*1).

Definition Map_values (l : loc) : M (list V) :=
  reads (λ h, (contents h l).*2).

(** The invariant of the store: every native map has unique keys. *)
Definition store_wf (h : Store HK V) : Prop :=
  ∀ l es, h !! l = Some es → JsMap.wf es.

End NativeMap.

(** Modelled from the spec: [identity] of [identity.ts], which is not among
    the sources; the spec calls it the identity transform. *)
Definition identity {A} (x : A) : A := x.

(** ** [Data/HashMap.ts]: the map with a hashing function *)

Module Data_HashMap.

Record HashMap (K V HK : Type) : Type := new_HashMap {
  hash : K → HK;
  _map : loc;
  name : string;
}.
Arguments new_HashMap {K V HK} hash _map name.
Arguments hash {K V HK} _ _.
Arguments _map {K V HK} _.
Arguments name {K V HK} _.

(** [HashMapMissingKeyError]; its message is presentation only. *)
Record HashMapMissingKeyError (K V HK : Type) : Type :=
  new_HashMapMissingKeyError {
    MissingKeyError_map : HashMap K V HK;
    MissingKeyError_key : K;
  }.
Arguments new_HashMapMissingKeyError {K V HK} _ _.
Arguments MissingKeyError_map {K V HK} _.
Arguments MissingKeyError_key {K V HK} _.

(** The parameter default [name = "unknown"]. *)
Definition name_or_unknown (name : option string) : string :=
  default "unknown" name.

Section HashMap.
Context {K V HK Ev : Type} `{EqDecision HK} `{Truthy V}.
Abbreviation M := (Eff (Store HK V) Ev (HashMapMissingKeyError K V HK)).
Abbreviation HashMap := (HashMap K V HK).

(** Callbacks receive the value, the key, an index and the map being
    traversed.  They may read the store (through the map they are
    handed) but are taken not to write to it. *)
Definition Callback (R : Type) : Type :=
  V → HK → nat → HashMap → Store HK V → R.

Definition emptyWithCustomHash (onHash : K → HK) (name : option string)
  : M HashMap :=
  l ← Map_new [];
  mret (new_HashMap onHash l (name_or_unknown name)).

Definition fromCustomEntries (entries : list (K * V)) (onHash : K → HK)
    (name : option string) : M HashMap :=
  l ← Map_new ((λ '(k, v), (onHash k, v)) <$> entries);
  mret (new_HashMap onHash l (name_or_unknown name)).

Definition hashKey (this : HashMap) (key : K) : HK := hash this key.

Definition clear (this : HashMap) : M () := Map_clear (_map this).

Definition has (this : HashMap) (key : K) : M bool :=
  Map_has (_map this) (hashKey this key).

Definition delete (this : HashMap) (key : K) : M () :=
  b ← has this key;
  if negb b then throw (new_HashMapMissingKeyError this key)
  else Map_delete (_map this) (hash this key).

Definition deleteIfExists (this : HashMap) (key : K) : M bool :=
  b ← has this key;
  if negb b then mret false
  else delete this key;; mret true.

Definition entries (this : HashMap) : M (list (HK * V)) :=
  Map_entries (_map this).

(** The loop of [filter]: [acc] is the local array [entries]. *)
Definition filter_loop (fn : Callback bool) (this : HashMap)
    (h : Store HK V) (es : list (HK * V)) : list (HK * V) :=
  fold_left
    (λ acc '(key, value),
       if fn value key (length acc) this h then acc ++ [(key, value)]
       else acc)
    es [].

Definition filter (this : HashMap) (fn : Callback bool) : M HashMap :=
  es ← entries this;
  h ← reads id;
  l ← Map_new (filter_loop fn this h es);
  mret (new_HashMap (hash this) l (name this)).

(** [if (!value) throw ...; return value]: [!value] holds when the
    lookup gave [undefined] and also when it gave a falsy value. *)
Definition get (this : HashMap) (key : K) : M V :=
  value ← Map_get (_map this) (hashKey this key);
  match value with
  | Some v =>
      if negb (truthy v) then throw (new_HashMapMissingKeyError this key)
      else mret v
  | None => throw (new_HashMapMissingKeyError this key)
  end.

(** The result type [TDefaultValue | TValue] is a sum. *)
Definition getOr {D} (this : HashMap) (key : K) (defaultValue : D)
  : M (V + D) :=
  value ← Map_get (_map this) (hashKey this key);
  match value with
  | Some v => if negb (truthy v) then mret (inr defaultValue) else mret (inl v)
  | None => mret (inr defaultValue)
  end.

Definition keys (this : HashMap) : M (list HK) := Map_keys (_map this).

(** The loop of [map]. *)
Definition map_loop (fn : Callback (HK * V)) (this : HashMap)
    (h : Store HK V) (es : list (HK * V)) : list (HK * V) :=
  fold_left
    (λ acc '(key, value), acc ++ [fn value key (length acc) this h])
    es [].

Definition map (this : HashMap) (fn : Callback (HK * V)) : M HashMap :=
  es ← entries this;
  h ← reads id;
  l ← Map_new (map_loop fn this h es);
  mret (new_HashMap (hash this) l (name this)).

(** [fn] of [mapKeys] takes the key first. *)
Definition mapKeys (this : HashMap)
    (fn : HK → V → nat → HashMap → Store HK V → HK) : M HashMap :=
  map this (λ value key index original h,
              (fn key value index original h, value)).

Definition mapValues (this : HashMap) (fn : Callback V) : M HashMap :=
  map this (λ value key index original h,
              (key, fn value key index original h)).

Definition set (this : HashMap) (key : K) (value : V) : M () :=
  Map_set (_map this) (hashKey this key) value.

(** [[Symbol.iterator]()]. *)
Definition iterator (this : HashMap) : M (list (HK * V)) := entries this.

Definition values (this : HashMap) : M (list V) := Map_values (_map this).
End HashMap.

(** The value the native map holds under the hashed key, if any. *)
Definition stored {K V HK} `{EqDecision HK}
    (this : HashMap K V HK) (key : K) (h : Store HK V) : option V :=
  JsMap.get (contents h (_map this)) (hash this key).

Section Identity.
Context {K V Ev : Type} `{EqDecision K}.
Abbreviation M := (Eff (Store K V) Ev (HashMapMissingKeyError K V K)).

Definition empty (name : option string) : M (HashMap K V K) :=
  l ← Map_new [];
  mret (new_HashMap identity l (name_or_unknown name)).

Definition fromEntries (entries : list (K * V)) (name : option string)
  : M (HashMap K V K) :=
  l ← Map_new ((λ '(key, value), (key, value)) <$> entries);
  mret (new_HashMap identity l (name_or_unknown name)).
End Identity.

End Data_HashMap.

(** ** [Data/Map/MissingKeyError.ts]

    [map] is typed by the interface [BaseMap]; the type of the map is a
    parameter here.  The message is presentation only. *)

Record MissingKeyError (BaseMap K : Type) : Type := new_MissingKeyError {
  MissingKeyError_map : BaseMap;
  MissingKeyError_key : K;
}.
Arguments new_MissingKeyError {BaseMap K} _ _.
Arguments MissingKeyError_map {BaseMap K} _.
Arguments MissingKeyError_key {BaseMap K} _.

(** ** [Data/Map/HashMap.ts]: the map with serialized keys *)

Module Data_Map_HashMap.

Record HashMap (K V : Type) : Type := new_HashMap {
  internalMap : loc;
  deserializeKey : string → K;
  serializeKey : K → string;
}.
Arguments new_HashMap {K V} _ _ _.
Arguments internalMap {K V} _.
Arguments deserializeKey {K V} _ _.
Arguments serializeKey {K V} _ _.

Definition typename : string := "HashMap".

Section HashMap.
Context {K V Ev : Type} `{Truthy V}.
(** [JSON.parse] and [JSON.stringify], the defaults of the two options. *)
Context (JSON_parse : string → K) (JSON_stringify : K → string).
Abbreviation M := (Eff (Store string V) Ev (MissingKeyError (HashMap K V) K)).
Abbreviation HashMap := (HashMap K V).

(** Callbacks: see [Data_HashMap.Callback]; the key is the deserialized
    one. *)
Definition Callback (R : Type) : Type :=
  V → K → nat → HashMap → Store string V → R.

Definition empty (deserializeKey : option (string → K))
    (serializeKey : option (K → string)) : M HashMap :=
  l ← Map_new [];
  mret (new_HashMap l (default JSON_parse deserializeKey)
          (default JSON_stringify serializeKey)).

Definition fromEntries (entries : list (K * V))
    (deserializeKey : option (string → K))
    (serializeKey : option (K → string)) : M HashMap :=
  let deserializeKey := default JSON_parse deserializeKey in
  let serializeKey := default JSON_stringify serializeKey in
  l ← Map_new ((λ '(key, value), (serializeKey key, value)) <$> entries);
  mret (new_HashMap l deserializeKey serializeKey).

Definition clear (this : HashMap) : M () := Map_clear (internalMap this).

Definition has (this : HashMap) (key : K) : M bool :=
  Map_has (internalMap this) (serializeKey this key).

Definition delete (this : HashMap) (key : K) : M () :=
  b ← has this key;
  if negb b then throw (new_MissingKeyError this key)
  else Map_delete (internalMap this) (serializeKey this key).

Definition deleteIfExists (this : HashMap) (key : K) : M bool :=
  b ← has this key;
  if negb b then mret false
  else delete this key;; mret true.

Definition entries (this : HashMap) : M (list (K * V)) :=
  es ← Map_entries (internalMap this);
  mret ((λ '(key, value), (deserializeKey this key, value)) <$> es).

Definition filter_loop (fn : Callback bool) (this : HashMap)
    (h : Store string V) (es : list (K * V)) : list (K * V) :=
  fold_left
    (λ acc '(key, value),
       if fn value key (length acc) this h then acc ++ [(key, value)]
       else acc)
    es [].

Definition filter (this : HashMap) (fn : Callback bool) : M HashMap :=
  es ← entries this;
  h ← reads id;
  fromEntries (filter_loop fn this h es)
    (Some (deserializeKey this)) (Some (serializeKey this)).

(** [if (!value) throw ...; return value]: [!value] holds when the
    lookup gave [undefined] and also when it gave a falsy value. *)
Definition get (this : HashMap) (key : K) : M V :=
  value ← Map_get (internalMap this) (serializeKey this key);
  match value with
  | Some v =>
      if negb (truthy v) then throw (new_MissingKeyError this key)
      else mret v
  | None => throw (new_MissingKeyError this key)
  end.

Definition getOr {D} (this : HashMap) (key : K) (defaultValue : D)
  : M (V + D) :=
  value ← Map_get (internalMap this) (serializeKey this key);
  match value with
  | Some v => if negb (truthy v) then mret (inr defaultValue) else mret (inl v)
  | None => mret (inr defaultValue)
  end.

Definition keys (this : HashMap) : M (list K) :=
  ks ← Map_keys (internalMap this);
  mret (deserializeKey this <$> ks).

Definition map_loop (fn : Callback (K * V)) (this : HashMap)
    (h : Store string V) (es : list (K * V)) : list (K * V) :=
  fold_left
    (λ acc '(key, value), acc ++ [fn value key (length acc) this h])
    es [].

Definition map (this : HashMap) (fn : Callback (K * V)) : M HashMap :=
  es ← entries this;
  h ← reads id;
  fromEntries (map_loop fn this h es)
    (Some (deserializeKey this)) (Some (serializeKey this)).

Definition mapKeys (this : HashMap)
    (fn : K → V → nat → HashMap → Store string V → K) : M HashMap :=
  map this (λ value key index original h,
              (fn key value index original h, value)).

Definition mapValues (this : HashMap) (fn : Callback V) : M HashMap :=
  map this (λ value key index original h,
              (key, fn value key index original h)).

Definition serializedKeys (this : HashMap) : M (list string) :=
  Map_keys (internalMap this).

Definition set (this : HashMap) (key : K) (value : V) : M () :=
  Map_set (internalMap this) (serializeKey this key) value.

(** [[Symbol.iterator]()]. *)
Definition iterator (this : HashMap) : M (list (K * V)) := entries this.

Definition values (this : HashMap) : M (list V) :=
  Map_values (internalMap this).
End HashMap.

(** The value the native map holds under the serialized key, if any. *)
Definition stored {K V} (this : HashMap K V) (key : K) (h : Store string V)
  : option V :=
  JsMap.get (contents h (internalMap this)) (serializeKey this key).

End Data_Map_HashMap.

(** ** [Data/Map/DefaultMap.ts]: defaults materialized on a missing key *)

Module Data_Map_DefaultMap.
Import Data_Map_HashMap.

(** [defaultValue] is called as [defaultValue(key, self)].  All fields of
    [self] are [readonly]; what it can observe of [self] beyond them is
    the internal map, so the generator is handed that map and the store
    it may read. *)
Record DefaultMap (K V : Type) : Type := new_DefaultMap {
  internalMap : Data_Map_HashMap.HashMap K V;
  defaultValue : K → Data_Map_HashMap.HashMap K V → Store string V → V;
  name : option string;
}.
Arguments new_DefaultMap {K V} _ _ _.
Arguments internalMap {K V} _.
Arguments defaultValue {K V} _ _ _ _.
Arguments name {K V} _.

Definition typename : string := "DefaultMap".

Section DefaultMap.
Context {K V : Type} `{Truthy V}.
Context (JSON_parse : string → K) (JSON_stringify : K → string).
(** The log holds the keys the generator was called with. *)
Abbreviation M :=
  (Eff (Store string V) K (MissingKeyError (Data_Map_HashMap.HashMap K V) K)).
Abbreviation DefaultMap := (DefaultMap K V).
Abbreviation Generator :=
  (K → Data_Map_HashMap.HashMap K V → Store string V → V).

Definition Callback (R : Type) : Type :=
  V → K → nat → DefaultMap → Store string V → R.

Definition fromEntries (entries : list (K * V)) (defaultValue : Generator)
    (deserializeKey : option (string → K))
    (serializeKey : option (K → string)) : M DefaultMap :=
  let deserializeKey := default JSON_parse deserializeKey in
  let serializeKey := default JSON_stringify serializeKey in
  l ← Map_new ((λ '(key, value), (serializeKey key, value)) <$> entries);
  mret (new_DefaultMap
          (Data_Map_HashMap.new_HashMap l deserializeKey serializeKey)
          defaultValue None).

Definition empty (defaultValue : Generator)
    (deserializeKey : option (string → K))
    (serializeKey : option (K → string)) : M DefaultMap :=
  fromEntries [] defaultValue deserializeKey serializeKey.

Definition clear (this : DefaultMap) : M () :=
  Data_Map_HashMap.clear (internalMap this).

Definition delete (this : DefaultMap) (key : K) : M () :=
  Data_Map_HashMap.delete (internalMap this) key.

Definition deleteIfExists (this : DefaultMap) (key : K) : M bool :=
  Data_Map_HashMap.deleteIfExists (internalMap this) key.

Definition deserializeKey (this : DefaultMap) (key : string) : K :=
  Data_Map_HashMap.deserializeKey (internalMap this) key.

Definition entries (this : DefaultMap) : M (list (K * V)) :=
  Data_Map_HashMap.entries (internalMap this).

(** The loop of [filter]: the array [entries] and the counter [index],
    which advances on every entry. *)
Definition filter_loop (fn : Callback bool) (this : DefaultMap)
    (h : Store string V) (es : list (K * V)) : list (K * V) :=
  (fold_left
     (λ '(acc, index) '(key, value),
        (if fn value key index this h then acc ++ [(key, value)] else acc,
         S index))
     es ([], 0)).1.

Definition filter (this : DefaultMap) (fn : Callback bool) : M DefaultMap :=
  es ← Data_Map_HashMap.entries (internalMap this);
  h ← reads id;
  fromEntries (filter_loop fn this h es) (defaultValue this)
    (Some (Data_Map_HashMap.deserializeKey (internalMap this)))
    (Some (Data_Map_HashMap.serializeKey (internalMap this))).

Definition has (this : DefaultMap) (key : K) : M bool :=
  Data_Map_HashMap.has (internalMap this) key.

Definition set (this : DefaultMap) (key : K) (value : V) : M () :=
  Data_Map_HashMap.set (internalMap this) key value.

(** [this.defaultValue(key, this)], logged. *)
Definition call_defaultValue (this : DefaultMap) (key : K) : M V :=
  h ← reads id;
  emit key;;
  mret (defaultValue this key (internalMap this) h).

Definition get (this : DefaultMap) (key : K) : M V :=
  b ← has this key;
  if negb b then
    defaultValue ← call_defaultValue this key;
    set this key defaultValue;;
    mret defaultValue
  else Data_Map_HashMap.get (internalMap this) key.

Definition getOr {D} (this : DefaultMap) (key : K) (defaultValue : D)
  : M (V + D) :=
  Data_Map_HashMap.getOr (internalMap this) key defaultValue.

Definition keys (this : DefaultMap) : M (list K) :=
  Data_Map_HashMap.keys (internalMap this).

(** The three loops below share the shape of [filter]'s: [index] is the
    position of the entry. *)
Definition map_loop {R} (f : V → K → nat → R) (es : list (K * V)) : list R :=
  (fold_left
     (λ '(acc, index) '(key, value), (acc ++ [f value key index], S index))
     es ([], 0)).1.

Definition map (this : DefaultMap) (fn : Callback (K * V)) : M DefaultMap :=
  es ← Data_Map_HashMap.entries (internalMap this);
  h ← reads id;
  fromEntries (map_loop (λ value key index, fn value key index this h) es)
    (defaultValue this)
    (Some (Data_Map_HashMap.deserializeKey (internalMap this)))
    (Some (Data_Map_HashMap.serializeKey (internalMap this))).

Definition mapKeys (this : DefaultMap)
    (fn : K → V → nat → DefaultMap → Store string V → K) : M DefaultMap :=
  es ← Data_Map_HashMap.entries (internalMap this);
  h ← reads id;
  fromEntries
    (map_loop (λ value key index, (fn key value index this h, value)) es)
    (defaultValue this)
    (Some (Data_Map_HashMap.deserializeKey (internalMap this)))
    (Some (Data_Map_HashMap.serializeKey (internalMap this))).

Definition mapValues (this : DefaultMap) (fn : Callback V) : M DefaultMap :=
  es ← Data_Map_HashMap.entries (internalMap this);
  h ← reads id;
  fromEntries
    (map_loop (λ value key index, (key, fn value key index this h)) es)
    (defaultValue this)
    (Some (Data_Map_HashMap.deserializeKey (internalMap this)))
    (Some (Data_Map_HashMap.serializeKey (internalMap this))).

Definition serializedKeys (this : DefaultMap) : M (list string) :=
  Data_Map_HashMap.serializedKeys (internalMap this).

Definition serializeKey (this : DefaultMap) (key : K) : string :=
  Data_Map_HashMap.serializeKey (internalMap this) key.

(** [[Symbol.iterator]()]. *)
Definition iterator (this : DefaultMap) : M (list (K * V)) := entries this.

Definition values (this : DefaultMap) : M (list V) :=
  Data_Map_HashMap.values (internalMap this).
End DefaultMap.

(** The value the internal map holds under the serialized key, if any. *)
Definition stored {K V} (this : DefaultMap K V) (key : K) (h : Store string V)
  : option V :=
  Data_Map_HashMap.stored (internalMap this) key h.

(** The store once [value] has been written under the serialized key. *)
Definition store_set {K V} (this : DefaultMap K V) (key : K) (value : V)
    (h : Store string V) : Store string V :=
  <[Data_Map_HashMap.internalMap (internalMap this) :=
      JsMap.set (contents h (Data_Map_HashMap.internalMap (internalMap this)))
        (serializeKey this key) value]> h.

End Data_Map_DefaultMap.

(** ** [Data/Map/BaseMap.ts] and the message of [MissingKeyError]

    What the constructor of [MissingKeyError] reads of the map it is
    given: [serializeKey], [typename] and the optional [name].
    [Data/Map/HashMap.ts] declares no [name], so it reads as
    [undefined]. *)

Class BaseMap (M K : Type) : Type := {
  BaseMap_serializeKey : M → K → string;
  BaseMap_typename : M → string;
  BaseMap_name : M → option string;
}.

#[global] Instance BaseMap_HashMap {K V}
  : BaseMap (Data_Map_HashMap.HashMap K V) K := {|
  BaseMap_serializeKey := Data_Map_HashMap.serializeKey;
  BaseMap_typename := λ _, Data_Map_HashMap.typename;
  BaseMap_name := λ _, None;
|}.

#[global] Instance BaseMap_DefaultMap {K V}
  : BaseMap (Data_Map_DefaultMap.DefaultMap K V) K := {|
  BaseMap_serializeKey := Data_Map_DefaultMap.serializeKey;
  BaseMap_typename := λ _, Data_Map_DefaultMap.typename;
  BaseMap_name := Data_Map_DefaultMap.name;
|}.

(** The message passed to [super]: [map.name ?? "unknown"] is the name or
    ["unknown"]. *)
Definition MissingKeyError_message {M K} `{BaseMap M K}
    (e : MissingKeyError M K) : string :=
  "Could not find key '"
  +:+ BaseMap_serializeKey (MissingKeyError_map e) (MissingKeyError_key e)
  +:+ "' (serialized) in "
  +:+ BaseMap_typename (MissingKeyError_map e)
  +:+ " "
  +:+ default "unknown" (BaseMap_name (MissingKeyError_map e)).

(** ** [Data/DefaultMap.ts]: the earlier default map over [Data/HashMap.ts] *)

Module Data_DefaultMap.

(** [{ type: "generator"; value } | { type: "value"; value }]. *)
Inductive DefaultValue (K D : Type) : Type :=
  | type_generator (value : K → D)
  | type_value (value : D).
Arguments type_generator {K D} _.
Arguments type_value {K D} _.

Record DefaultMap (K V HK D : Type) : Type := Build_DefaultMap {
  onHash : K → HK;
  defaultValue : DefaultValue K D;
  name : string;
  _map : Data_HashMap.HashMap K V HK;
}.
Arguments Build_DefaultMap {K V HK D} _ _ _ _.
Arguments onHash {K V HK D} _ _.
Arguments defaultValue {K V HK D} _.
Arguments name {K V HK D} _.
Arguments _map {K V HK D} _.

Section DefaultMap.
Context {K V HK D : Type} `{EqDecision HK} `{Truthy V}.
Abbreviation M :=
  (Eff (Store HK V) K (Data_HashMap.HashMapMissingKeyError K V HK)).

(** The constructor replaces the map it is given by a new empty one. *)
Definition new_DefaultMap (onHash : K → HK)
    (defaultValue : DefaultValue K D) (name : option string)
  : M (DefaultMap K V HK D) :=
  let name := Data_HashMap.name_or_unknown name in
  _map ← Data_HashMap.emptyWithCustomHash onHash (Some name);
  mret (Build_DefaultMap onHash defaultValue name _map).

(** The fallback is an argument of [getOr]: it is computed, and the
    generator called, before the lookup. *)
Definition get (this : DefaultMap K V HK D) (key : K) : M (V + D) :=
  fallback ← match defaultValue this with
             | type_generator value => emit key;; mret (value key)
             | type_value value => mret value
             end;
  Data_HashMap.getOr (_map this) key fallback.
End DefaultMap.

End Data_DefaultMap.

(** ** Vocabulary of the statements about [filter], [map], [mapKeys] and
    [mapValues] *)

Section HashDerived.
Import Data_HashMap.
Context {K V HK Ev : Type} `{EqDecision HK}.
Abbreviation Out1 :=
  (Outcome (Store HK V) Ev (HashMapMissingKeyError K V HK) (HashMap K V HK)).

(** The outcome of building a map over a new native map made of [es]. *)
Definition hashmap_built (this : HashMap K V HK) (h : Store HK V)
    (es : list (HK * V)) : Out1 :=
  MkOutcome (Ok (new_HashMap (hash this) (fresh (dom h)) (name this)))
    (<[fresh (dom h) := JsMap.of_entries es]> h) [].

(** [o] is the outcome, from the store [h], of deriving a map from [this]
    without touching it: a map is returned and no generator called; the map
    has the hashing function and the name of [this]; its native map is a
    new object, not that of [this]; every object of [h] is as it was, and
    so [this] yields the entries it yielded. *)
Definition hashmap_derived (this : HashMap K V HK) (h : Store HK V)
    (o : Out1) : Prop :=
  ∃ m', result o = Ok m' ∧ calls o = []
        ∧ hash m' = hash this ∧ name m' = name this
        ∧ h !! _map m' = None ∧ _map m' ≠ _map this
        ∧ (∀ l, l ≠ _map m' → store o !! l = h !! l)
        ∧ result (entries (Ev:=Ev) this (store o))
          = result (entries (Ev:=Ev) this h).
End HashDerived.

Section SerialDerived.
Import Data_Map_HashMap.
Context {K V Ev : Type}.
Abbreviation Out2 :=
  (Outcome (Store string V) Ev (MissingKeyError (HashMap K V) K) (HashMap K V)).

(** The entries [entries()] yields from the store [h]. *)
Definition serialmap_entries (this : HashMap K V) (h : Store string V)
  : list (K * V) :=
  (λ '(key, value), (deserializeKey this key, value))
    <$> contents h (internalMap this).

(** The outcome of [fromEntries] on [es] with the functions of [this]. *)
Definition serialmap_built (this : HashMap K V) (h : Store string V)
    (es : list (K * V)) : Out2 :=
  MkOutcome
    (Ok (new_HashMap (fresh (dom h)) (deserializeKey this) (serializeKey this)))
    (<[fresh (dom h) :=
         JsMap.of_entries
           ((λ '(key, value), (serializeKey this key, value)) <$> es)]> h)
    [].

(** As [hashmap_derived]; the functions shared are [deserializeKey] and
    [serializeKey].  The class has no name. *)
Definition serialmap_derived (this : HashMap K V) (h : Store string V)
    (o : Out2) : Prop :=
  ∃ m', result o = Ok m' ∧ calls o = []
        ∧ deserializeKey m' = deserializeKey this
        ∧ serializeKey m' = serializeKey this
        ∧ h !! internalMap m' = None ∧ internalMap m' ≠ internalMap this
        ∧ (∀ l, l ≠ internalMap m' → store o !! l = h !! l)
        ∧ result (entries (Ev:=Ev) this (store o))
          = result (entries (Ev:=Ev) this h).
End SerialDerived.

Section DefaultDerived.
Import Data_Map_DefaultMap.
Context {K V : Type}.
Abbreviation Out3 :=
  (Outcome (Store string V) K
     (MissingKeyError (Data_Map_HashMap.HashMap K V) K) (DefaultMap K V)).

(** The outcome of [fromEntries] on [es] with the generator of [this] and
    the functions of its internal map: the new map has no name. *)
Definition defaultmap_built (this : DefaultMap K V) (h : Store string V)
    (es : list (K * V)) : Out3 :=
  MkOutcome
    (Ok (new_DefaultMap
           (Data_Map_HashMap.new_HashMap (fresh (dom h))
              (Data_Map_HashMap.deserializeKey (internalMap this))
              (Data_Map_HashMap.serializeKey (internalMap this)))
           (defaultValue this) None))
    (<[fresh (dom h) :=
         JsMap.of_entries
           ((λ '(key, value), (serializeKey this key, value)) <$> es)]> h)
    [].

(** As [serialmap_derived], through the internal maps; the generator is
    shared too.  Nothing is said of the name. *)
Definition defaultmap_derived (this : DefaultMap K V) (h : Store string V)
    (o : Out3) : Prop :=
  ∃ m', result o = Ok m' ∧ calls o = []
        ∧ defaultValue m' = defaultValue this
        ∧ Data_Map_HashMap.deserializeKey (internalMap m')
          = Data_Map_HashMap.deserializeKey (internalMap this)
        ∧ Data_Map_HashMap.serializeKey (internalMap m')
          = Data_Map_HashMap.serializeKey (internalMap this)
        ∧ h !! Data_Map_HashMap.internalMap (internalMap m') = None
        ∧ Data_Map_HashMap.internalMap (internalMap m')
          ≠ Data_Map_HashMap.internalMap (internalMap this)
        ∧ (∀ l, l ≠ Data_Map_HashMap.internalMap (internalMap m') →
                store o !! l = h !! l)
        ∧ result (entries this (store o)) = result (entries this h).
End DefaultDerived.

(** ** Vocabulary of the statements about what a method writes *)

(** [h'] is [h] everywhere but at the native map [l]. *)
Definition same_elsewhere {HK V} (l : loc) (h h' : Store HK V) : Prop :=
  ∀ l', l' ≠ l → h' !! l' = h !! l'.

(** The value of the last pair of [l] under the key [k], if any: what a
    sequence of writes leaves under [k]. *)
Definition last_written {K V} `{EqDecision K} (l : list (K * V)) (k : K)
  : option V :=
  JsMap.get (reverse l) k.

(** ** What [filter] is said to compute

    Written after the description of [filter], not after its code: the
    entries a predicate accepts, in traversal order, when the index it is
    called with is the number of entries accepted so far, and when it is
    the position of the entry. *)

Module Spec.

Fixpoint accepted_by_count {K V} (p : V → K → nat → bool) (accepted : nat)
    (es : list (K * V)) : list (K * V) :=
  match es with
  | [] => []
  | (key, value) :: r =>
      if p value key accepted
      then (key, value) :: accepted_by_count p (S accepted) r
      else accepted_by_count p accepted r
  end.

Fixpoint accepted_by_position {K V} (p : V → K → nat → bool) (position : nat)
    (es : list (K * V)) : list (K * V) :=
  match es with
  | [] => []
  | (key, value) :: r =>
      if p value key position
      then (key, value) :: accepted_by_position p (S position) r
      else accepted_by_position p (S position) r
  end.

End Spec.

(** ** Scenarios

    Small programs over the three classes, run from the empty store. *)

Module Scenarios.
Open Scope Z_scope.

(** A [Date] object: its identity and its time value. *)
Record Date : Type := new_Date {
  Date_ref : nat;
  Date_getTime : Z;
}.

(** Stands in for [toISOString]: a rendering that depends on the time
    value only. *)
Definition Date_toISOString (d : Date) : string := pretty (Date_getTime d).

(** A serializer and its inverse for [string] keys. *)
Definition tag (key : string) : string := "id:" +:+ key.
Definition untag (key : string) : string :=
  String.substring 3 (String.length key - 3) key.

(** [JSON.parse] and [JSON.stringify] on keys that are strings without
    characters to escape, leaving the quotes out. *)
Definition JSON_parse (key : string) : string := key.
Definition JSON_stringify (key : string) : string := key.

(** [const m = HashMap.empty(); m.set(1, 0)] and then [m.get(1)],
    [m.getOr(1, 7)] or [m.has(1)]. *)
Definition hash_set_zero
  : Eff (Store Z Z) () _ (Data_HashMap.HashMap Z Z Z) :=
  m ← Data_HashMap.empty None;
  Data_HashMap.set m 1 0;;
  mret m.

Definition hash_set_zero_get : Eff (Store Z Z) () _ Z :=
  m ← hash_set_zero; Data_HashMap.get m 1.

Definition hash_set_zero_has : Eff (Store Z Z) () _ bool :=
  m ← hash_set_zero; Data_HashMap.has m 1.

(** The same with [Data/Map/HashMap.ts] and the key ["x"]. *)
Definition serial_set_zero
  : Eff (Store string Z) () _ (Data_Map_HashMap.HashMap string Z) :=
  m ← Data_Map_HashMap.empty JSON_parse JSON_stringify (Some untag) (Some tag);
  Data_Map_HashMap.set m "x" 0;;
  mret m.

Definition serial_set_zero_get : Eff (Store string Z) () _ Z :=
  m ← serial_set_zero; Data_Map_HashMap.get m "x".

Definition serial_set_zero_has : Eff (Store string Z) () _ bool :=
  m ← serial_set_zero; Data_Map_HashMap.has m "x".

(** [const m = DefaultMap.empty(() => 5); m.set("x", 0)]. *)
Definition default_set_zero
  : Eff (Store string Z) string _ (Data_Map_DefaultMap.DefaultMap string Z) :=
  m ← Data_Map_DefaultMap.empty JSON_parse JSON_stringify
         (λ _ _ _, 5) None None;
  Data_Map_DefaultMap.set m "x" 0;;
  mret m.

Definition default_set_zero_get : Eff (Store string Z) string _ Z :=
  m ← default_set_zero; Data_Map_DefaultMap.get m "x".

Definition default_set_zero_has : Eff (Store string Z) string _ bool :=
  m ← default_set_zero; Data_Map_DefaultMap.has m "x".

(** [const m = DefaultMap.empty(() => 0)], then [m.get("x")] once and
    twice. *)
Definition default_zero
  : Eff (Store string Z) string _ (Data_Map_DefaultMap.DefaultMap string Z) :=
  Data_Map_DefaultMap.empty JSON_parse JSON_stringify (λ _ _ _, 0) None None.

Definition default_zero_get_once : Eff (Store string Z) string _ (Z * bool) :=
  m ← default_zero;
  v ← Data_Map_DefaultMap.get m "x";
  b ← Data_Map_DefaultMap.has m "x";
  mret (v, b).

Definition default_zero_get_twice : Eff (Store string Z) string _ Z :=
  m ← default_zero;
  Data_Map_DefaultMap.get m "x";;
  Data_Map_DefaultMap.get m "x".

(** Two [Date] objects for the same instant under [toISOString]:
    [m.set(d1, 0)] and then [m.get(d2)] or [m.has(d2)]; the same with the
    value [1]. *)
Definition d1 : Date := new_Date 1 1577836800000.
Definition d2 : Date := new_Date 2 1577836800000.

Definition dates_set (v : Z)
  : Eff (Store string Z) () _ (Data_HashMap.HashMap Date Z string) :=
  m ← Data_HashMap.emptyWithCustomHash Date_toISOString None;
  Data_HashMap.set m d1 v;;
  mret m.

Definition dates_set_get (v : Z) : Eff (Store string Z) () _ Z :=
  m ← dates_set v; Data_HashMap.get m d2.

Definition dates_set_has (v : Z) : Eff (Store string Z) () _ bool :=
  m ← dates_set v; Data_HashMap.has m d2.

(** From [HashMap.test.ts]: [fromEntries] of three entries, then [set(4,
    "four")], and then [delete(2)]; the entries are read back each time. *)
Definition test_fromEntries_set_delete
  : Eff (Store Z string) () _
      (list (Z * string) * list (Z * string) * list (Z * string)) :=
  m ← Data_HashMap.fromEntries [(1, "one"); (2, "two"); (3, "three")] None;
  es0 ← Data_HashMap.iterator m;
  Data_HashMap.set m 4 "four";;
  es1 ← Data_HashMap.iterator m;
  Data_HashMap.delete m 2;;
  es2 ← Data_HashMap.iterator m;
  mret (es0, es1, es2).

(** A [DefaultMap] with the constant default [0]: [get("x")], then
    [set("x", 5)], then [get("x")]. *)
Definition default_zero_get_set_get : Eff (Store string Z) string _ (Z * Z) :=
  m ← default_zero;
  v0 ← Data_Map_DefaultMap.get m "x";
  Data_Map_DefaultMap.set m "x" 5;;
  v1 ← Data_Map_DefaultMap.get m "x";
  mret (v0, v1).

End Scenarios.

(** * Properties *)

(** ** The native [Map] *)

Module JsMapFacts.
Import JsMap.
Section JsMapFacts.
Context {K V : Type} `{EqDecision K}.
Implicit Types (es : list (K * V)) (k : K) (v : V).

Lemma has_get es k : has es k = bool_decide (is_Some (get es k)).
Proof.
induction es as [|[k' v] r IH]; simpl; [done|].
by destruct (decide (k' = k)).
Qed.

Lemma has_false_get es k : has es k = false ↔ get es k = None.
Proof.
rewrite has_get, bool_decide_eq_false, <-eq_None_not_Some. done.
Qed.

Lemma has_true_get es k : has es k = true ↔ is_Some (get es k).
Proof. by rewrite has_get, bool_decide_eq_true. Qed.

Lemma has_elem_of es k : has es k = true ↔ k ∈ es.*1.
Proof.
induction es as [|[k' v] r IH]; csimpl.
- split; [done | by intros ?%elem_of_nil].
- rewrite elem_of_cons. destruct (decide (k' = k)) as [->|Hne].
  + split; auto.
  + rewrite IH. split; [auto | intros [?|?]; [congruence | done]].
Qed.

Lemma has_false_not_elem_of es k : has es k = false ↔ k ∉ es.*1.
Proof.
rewrite <-has_elem_of. destruct (has es k); naive_solver.
Qed.

Lemma get_set_eq es k v : get (set es k v) k = Some v.
Proof.
induction es as [|[k' v'] r IH]; simpl.
- by rewrite decide_True.
- destruct (decide (k' = k)) as [->|Hne]; simpl.
  + by rewrite decide_True.
  + by rewrite decide_False.
Qed.

Lemma get_set_ne es k k2 v : k ≠ k2 → get (set es k v) k2 = get es k2.
Proof.
intros Hne. induction es as [|[k' v'] r IH]; simpl.
- by rewrite decide_False.
- destruct (decide (k' = k)) as [->|Hne']; simpl.
  + by rewrite !decide_False.
  + by rewrite IH.
Qed.

Lemma has_set_eq es k v : has (set es k v) k = true.
Proof. apply has_true_get. rewrite get_set_eq. by eexists. Qed.

Lemma has_set_ne es k k2 v : k ≠ k2 → has (set es k v) k2 = has es k2.
Proof. intros. by rewrite !has_get, get_set_ne. Qed.

(** A key that is not yet present is appended: insertion order. *)
Lemma set_fresh es k v : has es k = false → set es k v = es ++ [(k, v)].
Proof.
induction es as [|[k' v'] r IH]; simpl; [done|].
destruct (decide (k' = k)); [done|]. intros. by rewrite IH.
Qed.

(** Overwriting keeps every key where it is. *)
Lemma set_keys_present es k v : has es k = true → (set es k v).*1 = es.*1.
Proof.
induction es as [|[k' v'] r IH]; csimpl; [done|].
destruct (decide (k' = k)); csimpl; [done|]. intros. f_equal. auto.
Qed.

Lemma set_wf es k v : wf es → wf (set es k v).
Proof.
unfold wf. intros Hwf. destruct (has es k) eqn:Hk.
- by rewrite set_keys_present.
- rewrite set_fresh, fmap_app by done. simpl.
  apply NoDup_app. split_and!; [done| |apply NoDup_singleton].
  intros x Hx ->%list_elem_of_singleton.
  by apply has_false_not_elem_of in Hk.
Qed.

Lemma get_delete_eq es k : get (delete es k) k = None.
Proof.
unfold delete. induction es as [|[k' v'] r IH]; simpl; [done|].
rewrite filter_cons. simpl. destruct (decide (k' ≠ k)) as [Hne|Heq]; simpl.
- by rewrite decide_False.
- done.
Qed.

Lemma get_delete_ne es k k2 : k ≠ k2 → get (delete es k) k2 = get es k2.
Proof.
intros Hne. unfold delete.
induction es as [|[k' v'] r IH]; simpl; [done|].
rewrite filter_cons. simpl. destruct (decide (k' ≠ k)) as [Hne'|Heq]; simpl.
- by rewrite IH.
- apply dec_stable in Heq as ->. by rewrite decide_False.
Qed.

Lemma has_delete_eq es k : has (delete es k) k = false.
Proof. apply has_false_get, get_delete_eq. Qed.

Lemma delete_absent es k : has es k = false → delete es k = es.
Proof.
unfold delete. induction es as [|[k' v'] r IH]; simpl; [done|].
destruct (decide (k' = k)); [done|]. intros.
rewrite filter_cons_True by done. by rewrite IH.
Qed.

Lemma delete_wf es k : wf es → wf (delete es k).
Proof.
unfold wf, delete. intros Hwf.
eapply sublist_NoDup; [exact Hwf|]. apply fmap_sublist, sublist_filter.
Qed.

Lemma of_entries_snoc (l : list (K * V)) k v :
of_entries (l ++ [(k, v)]) = set (of_entries l) k v.
Proof. unfold of_entries. by rewrite fold_left_app. Qed.

Lemma of_entries_wf (l : list (K * V)) : wf (of_entries l).
Proof.
induction l as [|[k v] l IH] using rev_ind.
- apply NoDup_nil_2.
- rewrite of_entries_snoc. by apply set_wf.
Qed.

(** Building a [Map] from pairs whose keys are distinct keeps them all,
  in order. *)
Lemma of_entries_NoDup (l : list (K * V)) : NoDup l.*1 → of_entries l = l.
Proof.
induction l as [|[k v] l IH] using rev_ind; [done|].
rewrite fmap_app. simpl. intros [Hl [Hk _]]%NoDup_app.
rewrite of_entries_snoc, IH by done.
apply set_fresh, has_false_not_elem_of.
intros Hin. apply (Hk k Hin). by apply list_elem_of_singleton.
Qed.

End JsMapFacts.
End JsMapFacts.

(** ** The store *)

Section StoreFacts.
Context {HK V : Type} `{EqDecision HK}.

Lemma contents_insert_eq (h : Store HK V) l es :
contents (<[l := es]> h) l = es.
Proof. unfold contents. by rewrite lookup_insert_eq. Qed.

Lemma contents_insert_ne (h : Store HK V) l l' es :
l ≠ l' → contents (<[l := es]> h) l' = contents h l'.
Proof. intros. unfold contents. by rewrite lookup_insert_ne. Qed.

Lemma fresh_not_allocated (h : Store HK V) l :
is_Some (h !! l) → l ≠ fresh (dom h).
Proof.
intros Hl%elem_of_dom ->. by apply (is_fresh (dom h)).
Qed.

(** The primitives that write keep the invariant of the store; every
    method is made of them and of reads. *)
Lemma store_wf_empty : store_wf (∅ : Store HK V).
Proof. intros l es Hl. by rewrite lookup_empty in Hl. Qed.

Lemma store_wf_insert (h : Store HK V) l es :
  store_wf h → JsMap.wf es → store_wf (<[l := es]> h).
Proof.
  intros Hh Hes l' es'. rewrite lookup_insert.
  case_decide; [by intros [= <-] | apply Hh].
Qed.

Lemma store_wf_contents (h : Store HK V) l :
  store_wf h → JsMap.wf (contents h l).
Proof.
  intros Hh. unfold contents. destruct (h !! l) as [es|] eqn:Hl; simpl.
  - by apply (Hh l).
  - apply NoDup_nil_2.
Qed.

Lemma Map_new_wf {Ev E} (h : Store HK V) es :
  store_wf h → store_wf (store (Map_new (Ev:=Ev) (E:=E) es h)).
Proof.
  intros. apply store_wf_insert; [done|]. apply JsMapFacts.of_entries_wf.
Qed.

Lemma Map_set_wf {Ev E} (h : Store HK V) l k v :
  store_wf h → store_wf (store (Map_set (Ev:=Ev) (E:=E) l k v h)).
Proof.
  intros. apply store_wf_insert; [done|].
  by apply JsMapFacts.set_wf, store_wf_contents.
Qed.

Lemma Map_delete_wf {Ev E} (h : Store HK V) l k :
  store_wf h → store_wf (store (Map_delete (Ev:=Ev) (E:=E) l k h)).
Proof.
  intros. apply store_wf_insert; [done|].
  by apply JsMapFacts.delete_wf, store_wf_contents.
Qed.

Lemma Map_clear_wf {Ev E} (h : Store HK V) l :
  store_wf h → store_wf (store (Map_clear (Ev:=Ev) (E:=E) l h)).
Proof. intros. apply store_wf_insert; [done|]. apply NoDup_nil_2. Qed.

End StoreFacts.

(** Unfolding the plumbing of a method. *)
Ltac run_eff :=
  unfold Map_new, Map_get, Map_has, Map_set, Map_delete, Map_clear,
    Map_entries, Map_keys, Map_values in *;
  unfold mbind, Eff_bind, mret, Eff_ret, throw, reads, emit in *;
  simpl in *.

(** Replacing the [let]-bound names of a statement by their bodies. *)
Ltac unfold_lets :=
  repeat match goal with x := _ |- _ => subst x end.

(** ** [Data/HashMap.ts]: what each method computes *)

Module Data_HashMap_Facts.
Import Data_HashMap.
Section Facts.
Context {K V HK Ev : Type} `{EqDecision HK} `{Truthy V}.
Implicit Types (this : HashMap K V HK) (key : K) (h : Store HK V).
Abbreviation Out A :=
  (Outcome (Store HK V) Ev (HashMapMissingKeyError K V HK) A).

Lemma hashmap_has_run this key h :
  has this key h
  = MkOutcome (Ok (bool_decide (is_Some (stored this key h)))) h [] :> Out _.
Proof.
  unfold has, stored, hashKey. run_eff. by rewrite JsMapFacts.has_get.
Qed.

Lemma hashmap_get_run this key h :
  get this key h
  = MkOutcome
      match stored this key h with
      | Some v =>
          if truthy v then Ok v
          else Throw (new_HashMapMissingKeyError this key)
      | None => Throw (new_HashMapMissingKeyError this key)
      end h [] :> Out _.
Proof.
  unfold get, stored, hashKey. run_eff.
  destruct (JsMap.get _ _) as [v|]; [|done]. by destruct (truthy v).
Qed.

Lemma hashmap_getOr_run {D} this key (d : D) h :
  getOr this key d h
  = MkOutcome
      match stored this key h with
      | Some v => if truthy v then Ok (inl v) else Ok (inr d)
      | None => Ok (inr d)
      end h [] :> Out _.
Proof.
  unfold getOr, stored, hashKey. run_eff.
  destruct (JsMap.get _ _) as [v|]; [|done]. by destruct (truthy v).
Qed.

Lemma hashmap_set_run this key v h :
  set this key v h
  = MkOutcome (Ok ())
      (<[_map this := JsMap.set (contents h (_map this)) (hash this key) v]> h)
      [] :> Out _.
Proof. done. Qed.

Lemma hashmap_stored_set this key key' v h :
  stored this key' (store (set (Ev:=Ev) this key v h))
  = if decide (hash this key = hash this key') then Some v
    else stored this key' h.
Proof.
  rewrite hashmap_set_run. unfold stored. simpl. rewrite contents_insert_eq.
  destruct (decide _) as [<-|Hne].
  - apply JsMapFacts.get_set_eq.
  - by apply JsMapFacts.get_set_ne.
Qed.

Lemma hashmap_delete_run this key h :
  delete this key h
  = (if bool_decide (is_Some (stored this key h)) then
       MkOutcome (Ok ())
         (<[_map this := JsMap.delete (contents h (_map this)) (hash this key)]> h)
         []
     else MkOutcome (Throw (new_HashMapMissingKeyError this key)) h [])
    :> Out _.
Proof.
  unfold delete. unfold mbind at 1, Eff_bind. rewrite hashmap_has_run. simpl.
  by destruct (bool_decide _).
Qed.

Lemma hashmap_deleteIfExists_run this key h :
  deleteIfExists this key h
  = (if bool_decide (is_Some (stored this key h)) then
       MkOutcome (Ok true)
         (<[_map this := JsMap.delete (contents h (_map this)) (hash this key)]> h)
         []
     else MkOutcome (Ok false) h []) :> Out _.
Proof.
  unfold deleteIfExists. unfold mbind at 1, Eff_bind. rewrite hashmap_has_run. simpl.
  destruct (bool_decide _) eqn:Hb; simpl; [|done].
  unfold mbind, Eff_bind. rewrite hashmap_delete_run, Hb. done.
Qed.

Lemma hashmap_stored_delete this key key' h :
  stored this key'
    (<[_map this := JsMap.delete (contents h (_map this)) (hash this key)]> h)
  = if decide (hash this key = hash this key') then None
    else stored this key' h.
Proof.
  unfold stored. rewrite contents_insert_eq.
  destruct (decide _) as [<-|Hne].
  - apply JsMapFacts.get_delete_eq.
  - by apply JsMapFacts.get_delete_ne.
Qed.

End Facts.
End Data_HashMap_Facts.

(** ** [Data/Map/HashMap.ts]: what each method computes *)

Module Data_Map_HashMap_Facts.
Import Data_Map_HashMap.
Section Facts.
Context {K V Ev : Type} `{Truthy V}.
Implicit Types (this : HashMap K V) (key : K) (h : Store string V).
Abbreviation Out A :=
  (Outcome (Store string V) Ev (MissingKeyError (HashMap K V) K) A).

Lemma serialmap_has_run this key h :
  has this key h
  = MkOutcome (Ok (bool_decide (is_Some (stored this key h)))) h [] :> Out _.
Proof. unfold has, stored. run_eff. by rewrite JsMapFacts.has_get. Qed.

Lemma serialmap_get_run this key h :
  get this key h
  = MkOutcome
      match stored this key h with
      | Some v =>
          if truthy v then Ok v else Throw (new_MissingKeyError this key)
      | None => Throw (new_MissingKeyError this key)
      end h [] :> Out _.
Proof.
  unfold get, stored. run_eff.
  destruct (JsMap.get _ _) as [v|]; [|done]. by destruct (truthy v).
Qed.

Lemma serialmap_getOr_run {D} this key (d : D) h :
  getOr this key d h
  = MkOutcome
      match stored this key h with
      | Some v => if truthy v then Ok (inl v) else Ok (inr d)
      | None => Ok (inr d)
      end h [] :> Out _.
Proof.
  unfold getOr, stored. run_eff.
  destruct (JsMap.get _ _) as [v|]; [|done]. by destruct (truthy v).
Qed.

Lemma serialmap_set_run this key v h :
  set this key v h
  = MkOutcome (Ok ())
      (<[internalMap this :=
           JsMap.set (contents h (internalMap this)) (serializeKey this key) v]> h)
      [] :> Out _.
Proof. done. Qed.

Lemma serialmap_stored_set this key key' v h :
  stored this key' (store (set (Ev:=Ev) this key v h))
  = if decide (serializeKey this key = serializeKey this key') then Some v
    else stored this key' h.
Proof.
  rewrite serialmap_set_run. unfold stored. simpl. rewrite contents_insert_eq.
  destruct (decide _) as [<-|Hne].
  - apply JsMapFacts.get_set_eq.
  - by apply JsMapFacts.get_set_ne.
Qed.

Lemma serialmap_delete_run this key h :
  delete this key h
  = (if bool_decide (is_Some (stored this key h)) then
       MkOutcome (Ok ())
         (<[internalMap this :=
              JsMap.delete (contents h (internalMap this))
                (serializeKey this key)]> h)
         []
     else MkOutcome (Throw (new_MissingKeyError this key)) h []) :> Out _.
Proof.
  unfold delete. unfold mbind at 1, Eff_bind. rewrite serialmap_has_run. simpl.
  by destruct (bool_decide _).
Qed.

Lemma serialmap_deleteIfExists_run this key h :
  deleteIfExists this key h
  = (if bool_decide (is_Some (stored this key h)) then
       MkOutcome (Ok true)
         (<[internalMap this :=
              JsMap.delete (contents h (internalMap this))
                (serializeKey this key)]> h)
         []
     else MkOutcome (Ok false) h []) :> Out _.
Proof.
  unfold deleteIfExists. unfold mbind at 1, Eff_bind. rewrite serialmap_has_run. simpl.
  destruct (bool_decide _) eqn:Hb; simpl; [|done].
  unfold mbind, Eff_bind. rewrite serialmap_delete_run, Hb. done.
Qed.

Lemma serialmap_stored_delete this key key' h :
  stored this key'
    (<[internalMap this :=
         JsMap.delete (contents h (internalMap this)) (serializeKey this key)]> h)
  = if decide (serializeKey this key = serializeKey this key') then None
    else stored this key' h.
Proof.
  unfold stored. rewrite contents_insert_eq.
  destruct (decide _) as [<-|Hne].
  - apply JsMapFacts.get_delete_eq.
  - by apply JsMapFacts.get_delete_ne.
Qed.

End Facts.
End Data_Map_HashMap_Facts.

(** ** [Data/Map/DefaultMap.ts]: what each method computes *)

Module Data_Map_DefaultMap_Facts.
Import Data_Map_DefaultMap.
Section Facts.
Context {K V : Type} `{Truthy V}.
Implicit Types (this : DefaultMap K V) (key : K) (h : Store string V).
Abbreviation HM := (Data_Map_HashMap.HashMap K V).
Abbreviation Out A :=
  (Outcome (Store string V) K (MissingKeyError HM K) A).

Lemma defaultmap_has_run this key h :
  has this key h
  = MkOutcome (Ok (bool_decide (is_Some (stored this key h)))) h [] :> Out _.
Proof. apply Data_Map_HashMap_Facts.serialmap_has_run. Qed.

Lemma defaultmap_set_run this key v h :
  set this key v h = MkOutcome (Ok ()) (store_set this key v h) [] :> Out _.
Proof. done. Qed.

Lemma defaultmap_stored_set this key key' v h :
  stored this key' (store_set this key v h)
  = if decide (serializeKey this key = serializeKey this key') then Some v
    else stored this key' h.
Proof. apply (Data_Map_HashMap_Facts.serialmap_stored_set (Ev:=K)). Qed.

Lemma defaultmap_getOr_run {D} this key (d : D) h :
  getOr this key d h
  = MkOutcome
      match stored this key h with
      | Some v => if truthy v then Ok (inl v) else Ok (inr d)
      | None => Ok (inr d)
      end h [] :> Out _.
Proof. apply Data_Map_HashMap_Facts.serialmap_getOr_run. Qed.

(** [get] on a key that is present is the internal map's [get]; on an
    absent key the generator is called once and its value stored. *)
Lemma defaultmap_get_run this key h :
  get this key h
  = match stored this key h with
    | Some v =>
        MkOutcome
          (if truthy v then Ok v
           else Throw (new_MissingKeyError (internalMap this) key)) h []
    | None =>
        let d := defaultValue this key (internalMap this) h in
        MkOutcome (Ok d) (store_set this key d h) [key]
    end :> Out _.
Proof.
  unfold get. unfold mbind at 1, Eff_bind. rewrite defaultmap_has_run.
  cbn [result store calls]. unfold stored.
  destruct (Data_Map_HashMap.stored _ _ _) as [v|] eqn:Hs.
  - cbn. rewrite Data_Map_HashMap_Facts.serialmap_get_run, Hs. done.
  - done.
Qed.

Lemma defaultmap_delete_run this key h :
  delete this key h
  = (if bool_decide (is_Some (stored this key h)) then
       MkOutcome (Ok ())
         (<[Data_Map_HashMap.internalMap (internalMap this) :=
              JsMap.delete
                (contents h (Data_Map_HashMap.internalMap (internalMap this)))
                (serializeKey this key)]> h)
         []
     else MkOutcome (Throw (new_MissingKeyError (internalMap this) key)) h [])
    :> Out _.
Proof. apply Data_Map_HashMap_Facts.serialmap_delete_run. Qed.

Lemma defaultmap_deleteIfExists_run this key h :
  deleteIfExists this key h
  = (if bool_decide (is_Some (stored this key h)) then
       MkOutcome (Ok true)
         (<[Data_Map_HashMap.internalMap (internalMap this) :=
              JsMap.delete
                (contents h (Data_Map_HashMap.internalMap (internalMap this)))
                (serializeKey this key)]> h)
         []
     else MkOutcome (Ok false) h []) :> Out _.
Proof. apply Data_Map_HashMap_Facts.serialmap_deleteIfExists_run. Qed.

End Facts.
End Data_Map_DefaultMap_Facts.

(** * Statements about the three classes *)

Import Scenarios.


(** ** The model against the tests *)

Example test_fromEntries_set_delete_run :
  result (test_fromEntries_set_delete ∅)
  = Ok ([(1, "one"); (2, "two"); (3, "three")],
        [(1, "one"); (2, "two"); (3, "three"); (4, "four")],
        [(1, "one"); (3, "three"); (4, "four")]).
Proof. by vm_compute. Qed.

Example default_zero_get_set_get_run :
  default_zero_get_set_get ∅
  = MkOutcome (Ok (0, 5)) {[ 0%nat := [("x", 5)] ]} ["x"].
Proof. by vm_compute. Qed.

(** C2 — A key whose stored value is falsy is read as missing: [get]
    throws the missing-key error and [getOr] returns the fallback, although
    [has] answers [true].  This holds for [Data/HashMap.ts], for
    [Data/Map/HashMap.ts] and for [DefaultMap], whose [get] hands a present
    key to the internal map. *)
Theorem C2_falsy_value_read_as_missing :
  (∀ (K V HK Ev : Type) (EqHK : EqDecision HK) (TV : Truthy V)
     (this : Data_HashMap.HashMap K V HK) (key : K) (v : V)
     (D : Type) (d : D) (h : Store HK V),
     Data_HashMap.stored this key h = Some v →
     truthy v = false →
     Data_HashMap.get (Ev:=Ev) this key h
     = MkOutcome
         (Throw (Data_HashMap.new_HashMapMissingKeyError this key)) h []
     ∧ Data_HashMap.getOr (Ev:=Ev) this key d h = MkOutcome (Ok (inr d)) h []
     ∧ Data_HashMap.has (Ev:=Ev) this key h = MkOutcome (Ok true) h [])
  ∧ (∀ (K V Ev : Type) (TV : Truthy V)
       (this : Data_Map_HashMap.HashMap K V) (key : K) (v : V)
       (D : Type) (d : D) (h : Store string V),
       Data_Map_HashMap.stored this key h = Some v →
       truthy v = false →
       Data_Map_HashMap.get (Ev:=Ev) this key h
       = MkOutcome (Throw (new_MissingKeyError this key)) h []
       ∧ Data_Map_HashMap.getOr (Ev:=Ev) this key d h
         = MkOutcome (Ok (inr d)) h []
       ∧ Data_Map_HashMap.has (Ev:=Ev) this key h = MkOutcome (Ok true) h [])
  ∧ (∀ (K V : Type) (TV : Truthy V)
       (this : Data_Map_DefaultMap.DefaultMap K V) (key : K) (v : V)
       (D : Type) (d : D) (h : Store string V),
       Data_Map_DefaultMap.stored this key h = Some v →
       truthy v = false →
       Data_Map_DefaultMap.get this key h
       = MkOutcome
           (Throw (new_MissingKeyError
                     (Data_Map_DefaultMap.internalMap this) key)) h []
       ∧ Data_Map_DefaultMap.getOr this key d h = MkOutcome (Ok (inr d)) h []
       ∧ Data_Map_DefaultMap.has this key h = MkOutcome (Ok true) h []).
Proof.
  split_and!.
  - intros * Hs Hf.
    rewrite Data_HashMap_Facts.hashmap_get_run, Data_HashMap_Facts.hashmap_getOr_run,
      Data_HashMap_Facts.hashmap_has_run, Hs, Hf. done.
  - intros * Hs Hf.
    rewrite Data_Map_HashMap_Facts.serialmap_get_run, Data_Map_HashMap_Facts.serialmap_getOr_run,
      Data_Map_HashMap_Facts.serialmap_has_run, Hs, Hf. done.
  - intros * Hs Hf.
    rewrite Data_Map_DefaultMap_Facts.defaultmap_get_run,
      Data_Map_DefaultMap_Facts.defaultmap_getOr_run,
      Data_Map_DefaultMap_Facts.defaultmap_has_run, Hs, Hf. done.
Qed.

(** The three maps after [set(.., 0)]: the value [0] is stored and falsy,
    so C2 applies to each. *)
Lemma C2_witness :
  let m1 := Data_HashMap.new_HashMap (V:=Z) identity 0%nat "unknown" in
  let h1 : Store Z Z := {[ 0%nat := [(1, 0)] ]} in
  let m2 := Data_Map_HashMap.new_HashMap (V:=Z) 0%nat untag tag in
  let h2 : Store string Z := {[ 0%nat := [("id:x", 0)] ]} in
  let m3 := Data_Map_DefaultMap.new_DefaultMap m2 (λ _ _ _, 5) None in
  (Data_HashMap.get (Ev:=()) m1 1 h1
   = MkOutcome (Throw (Data_HashMap.new_HashMapMissingKeyError m1 1)) h1 []
   ∧ Data_HashMap.getOr (Ev:=()) m1 1 "none" h1
     = MkOutcome (Ok (inr "none")) h1 []
   ∧ Data_HashMap.has (Ev:=()) m1 1 h1 = MkOutcome (Ok true) h1 [])
  ∧ (Data_Map_HashMap.get (Ev:=()) m2 "x" h2
     = MkOutcome (Throw (new_MissingKeyError m2 "x")) h2 []
     ∧ Data_Map_HashMap.getOr (Ev:=()) m2 "x" "none" h2
       = MkOutcome (Ok (inr "none")) h2 []
     ∧ Data_Map_HashMap.has (Ev:=()) m2 "x" h2 = MkOutcome (Ok true) h2 [])
  ∧ (Data_Map_DefaultMap.get m3 "x" h2
     = MkOutcome (Throw (new_MissingKeyError m2 "x")) h2 []
     ∧ Data_Map_DefaultMap.getOr m3 "x" "none" h2
       = MkOutcome (Ok (inr "none")) h2 []
     ∧ Data_Map_DefaultMap.has m3 "x" h2 = MkOutcome (Ok true) h2 []).
Proof.
  intros m1 h1 m2 h2 m3.
  destruct C2_falsy_value_read_as_missing as (H1 & H2 & H3).
  split_and!.
  - apply (H1 Z Z Z unit _ _ m1 1 0 string "none" h1); reflexivity.
  - apply (H1 Z Z Z unit _ _ m1 1 0 string "none" h1); reflexivity.
  - apply (H1 Z Z Z unit _ _ m1 1 0 string "none" h1); reflexivity.
  - apply (H2 string Z unit _ m2 "x" 0 string "none" h2); reflexivity.
  - apply (H2 string Z unit _ m2 "x" 0 string "none" h2); reflexivity.
  - apply (H2 string Z unit _ m2 "x" 0 string "none" h2); reflexivity.
  - apply (H3 string Z _ m3 "x" 0 string "none" h2); reflexivity.
  - apply (H3 string Z _ m3 "x" 0 string "none" h2); reflexivity.
  - apply (H3 string Z _ m3 "x" 0 string "none" h2); reflexivity.
Defined.

(** C4 — On a key with no entry under its hashed (resp. serialized) form,
    [get] of either [HashMap] throws the missing-key error whose [key] is
    the key asked for and whose [map] is the map asked, and leaves the store
    as it was; [getOr] returns the fallback and [has] returns [false].
    [DefaultMap] passes [getOr] and [has] on to its internal map, so they
    answer the same; its [get] is the materializing one of C3. *)
Theorem C4_absent_key :
  (∀ (K V HK Ev : Type) (EqHK : EqDecision HK) (TV : Truthy V)
     (this : Data_HashMap.HashMap K V HK) (key : K)
     (D : Type) (d : D) (h : Store HK V),
     Data_HashMap.stored this key h = None →
     (∃ e, Data_HashMap.get (Ev:=Ev) this key h = MkOutcome (Throw e) h []
           ∧ Data_HashMap.MissingKeyError_key e = key
           ∧ Data_HashMap.MissingKeyError_map e = this)
     ∧ Data_HashMap.getOr (Ev:=Ev) this key d h = MkOutcome (Ok (inr d)) h []
     ∧ Data_HashMap.has (Ev:=Ev) this key h = MkOutcome (Ok false) h [])
  ∧ (∀ (K V Ev : Type) (TV : Truthy V)
       (this : Data_Map_HashMap.HashMap K V) (key : K)
       (D : Type) (d : D) (h : Store string V),
       Data_Map_HashMap.stored this key h = None →
       (∃ e, Data_Map_HashMap.get (Ev:=Ev) this key h
             = MkOutcome (Throw e) h []
             ∧ MissingKeyError_key e = key
             ∧ MissingKeyError_map e = this)
       ∧ Data_Map_HashMap.getOr (Ev:=Ev) this key d h
         = MkOutcome (Ok (inr d)) h []
       ∧ Data_Map_HashMap.has (Ev:=Ev) this key h
         = MkOutcome (Ok false) h [])
  ∧ (∀ (K V : Type) (TV : Truthy V)
       (this : Data_Map_DefaultMap.DefaultMap K V) (key : K)
       (D : Type) (d : D) (h : Store string V),
       Data_Map_DefaultMap.stored this key h = None →
       Data_Map_DefaultMap.getOr this key d h = MkOutcome (Ok (inr d)) h []
       ∧ Data_Map_DefaultMap.has this key h = MkOutcome (Ok false) h []).
Proof.
  split_and!.
  - intros * Hs.
    rewrite Data_HashMap_Facts.hashmap_get_run, Data_HashMap_Facts.hashmap_getOr_run,
      Data_HashMap_Facts.hashmap_has_run, Hs.
    split_and!; [|done..]. by eexists.
  - intros * Hs.
    rewrite Data_Map_HashMap_Facts.serialmap_get_run, Data_Map_HashMap_Facts.serialmap_getOr_run,
      Data_Map_HashMap_Facts.serialmap_has_run, Hs.
    split_and!; [|done..]. by eexists.
  - intros * Hs.
    rewrite Data_Map_DefaultMap_Facts.defaultmap_getOr_run,
      Data_Map_DefaultMap_Facts.defaultmap_has_run, Hs. done.
Qed.

(** Empty maps and the keys [5] and ["x"]. *)
Lemma C4_witness :
  let m1 := Data_HashMap.new_HashMap (V:=Z) identity 0%nat "unknown" in
  let h1 : Store Z Z := {[ 0%nat := [] ]} in
  let m2 := Data_Map_HashMap.new_HashMap (V:=Z) 0%nat untag tag in
  let h2 : Store string Z := {[ 0%nat := [] ]} in
  let m3 := Data_Map_DefaultMap.new_DefaultMap m2 (λ _ _ _, 5) None in
  ((∃ e, Data_HashMap.get (Ev:=unit) m1 5 h1 = MkOutcome (Throw e) h1 []
         ∧ Data_HashMap.MissingKeyError_key e = 5
         ∧ Data_HashMap.MissingKeyError_map e = m1)
   ∧ Data_HashMap.getOr (Ev:=unit) m1 5 "none" h1
     = MkOutcome (Ok (inr "none")) h1 []
   ∧ Data_HashMap.has (Ev:=unit) m1 5 h1 = MkOutcome (Ok false) h1 [])
  ∧ ((∃ e, Data_Map_HashMap.get (Ev:=unit) m2 "x" h2
           = MkOutcome (Throw e) h2 []
           ∧ MissingKeyError_key e = "x"
           ∧ MissingKeyError_map e = m2)
     ∧ Data_Map_HashMap.getOr (Ev:=unit) m2 "x" "none" h2
       = MkOutcome (Ok (inr "none")) h2 []
     ∧ Data_Map_HashMap.has (Ev:=unit) m2 "x" h2
       = MkOutcome (Ok false) h2 [])
  ∧ (Data_Map_DefaultMap.getOr m3 "x" "none" h2
     = MkOutcome (Ok (inr "none")) h2 []
     ∧ Data_Map_DefaultMap.has m3 "x" h2 = MkOutcome (Ok false) h2 []).
Proof.
  intros m1 h1 m2 h2 m3.
  destruct C4_absent_key as (H1 & H2 & H3).
  split_and!.
  - apply (H1 Z Z Z unit _ _ m1 5 string "none" h1); reflexivity.
  - apply (H1 Z Z Z unit _ _ m1 5 string "none" h1); reflexivity.
  - apply (H1 Z Z Z unit _ _ m1 5 string "none" h1); reflexivity.
  - apply (H2 string Z unit _ m2 "x" string "none" h2); reflexivity.
  - apply (H2 string Z unit _ m2 "x" string "none" h2); reflexivity.
  - apply (H2 string Z unit _ m2 "x" string "none" h2); reflexivity.
  - apply (H3 string Z _ m3 "x" string "none" h2); reflexivity.
  - apply (H3 string Z _ m3 "x" string "none" h2); reflexivity.
Defined.

(** C5 — [delete] throws the missing-key error carrying the key when the
    key is absent, and otherwise removes the entry; [deleteIfExists] never
    throws: it returns [true] and removes the entry exactly when [has]
    answered [true] beforehand, and returns [false] with the store
    untouched otherwise.  Removing the entry leaves every other entry, and
    their order, as they were. *)
Theorem C5_delete_and_deleteIfExists :
  (∀ (K V HK Ev : Type) (EqHK : EqDecision HK)
     (this : Data_HashMap.HashMap K V HK) (key : K) (h : Store HK V),
     let h' : Store HK V :=
       <[Data_HashMap._map this :=
           JsMap.delete (contents h (Data_HashMap._map this))
             (Data_HashMap.hash this key)]> h in
     (∃ b, result (Data_HashMap.deleteIfExists (Ev:=Ev) this key h) = Ok b)
     ∧ (Data_HashMap.has (Ev:=Ev) this key h = MkOutcome (Ok false) h [] →
        Data_HashMap.delete (Ev:=Ev) this key h
        = MkOutcome
            (Throw (Data_HashMap.new_HashMapMissingKeyError this key)) h []
        ∧ Data_HashMap.deleteIfExists (Ev:=Ev) this key h
          = MkOutcome (Ok false) h [])
     ∧ (Data_HashMap.has (Ev:=Ev) this key h = MkOutcome (Ok true) h [] →
        Data_HashMap.delete (Ev:=Ev) this key h = MkOutcome (Ok ()) h' []
        ∧ Data_HashMap.deleteIfExists (Ev:=Ev) this key h
          = MkOutcome (Ok true) h' []
        ∧ Data_HashMap.has (Ev:=Ev) this key h' = MkOutcome (Ok false) h' []
        ∧ ∀ key', Data_HashMap.hash this key ≠ Data_HashMap.hash this key' →
                  Data_HashMap.stored this key' h'
                  = Data_HashMap.stored this key' h))
  ∧ (∀ (K V Ev : Type)
       (this : Data_Map_HashMap.HashMap K V) (key : K) (h : Store string V),
       let h' : Store string V :=
         <[Data_Map_HashMap.internalMap this :=
             JsMap.delete (contents h (Data_Map_HashMap.internalMap this))
               (Data_Map_HashMap.serializeKey this key)]> h in
       (∃ b, result (Data_Map_HashMap.deleteIfExists (Ev:=Ev) this key h)
             = Ok b)
       ∧ (Data_Map_HashMap.has (Ev:=Ev) this key h
          = MkOutcome (Ok false) h [] →
          Data_Map_HashMap.delete (Ev:=Ev) this key h
          = MkOutcome (Throw (new_MissingKeyError this key)) h []
          ∧ Data_Map_HashMap.deleteIfExists (Ev:=Ev) this key h
            = MkOutcome (Ok false) h [])
       ∧ (Data_Map_HashMap.has (Ev:=Ev) this key h
          = MkOutcome (Ok true) h [] →
          Data_Map_HashMap.delete (Ev:=Ev) this key h
          = MkOutcome (Ok ()) h' []
          ∧ Data_Map_HashMap.deleteIfExists (Ev:=Ev) this key h
            = MkOutcome (Ok true) h' []
          ∧ Data_Map_HashMap.has (Ev:=Ev) this key h'
            = MkOutcome (Ok false) h' []
          ∧ ∀ key', Data_Map_HashMap.serializeKey this key
                    ≠ Data_Map_HashMap.serializeKey this key' →
                    Data_Map_HashMap.stored this key' h'
                    = Data_Map_HashMap.stored this key' h))
  ∧ (∀ (K V : Type)
       (this : Data_Map_DefaultMap.DefaultMap K V) (key : K)
       (h : Store string V),
       let inner := Data_Map_DefaultMap.internalMap this in
       let h' : Store string V :=
         <[Data_Map_HashMap.internalMap inner :=
             JsMap.delete (contents h (Data_Map_HashMap.internalMap inner))
               (Data_Map_DefaultMap.serializeKey this key)]> h in
       (∃ b, result (Data_Map_DefaultMap.deleteIfExists this key h) = Ok b)
       ∧ (Data_Map_DefaultMap.has this key h = MkOutcome (Ok false) h [] →
          Data_Map_DefaultMap.delete this key h
          = MkOutcome (Throw (new_MissingKeyError inner key)) h []
          ∧ Data_Map_DefaultMap.deleteIfExists this key h
            = MkOutcome (Ok false) h [])
       ∧ (Data_Map_DefaultMap.has this key h = MkOutcome (Ok true) h [] →
          Data_Map_DefaultMap.delete this key h = MkOutcome (Ok ()) h' []
          ∧ Data_Map_DefaultMap.deleteIfExists this key h
            = MkOutcome (Ok true) h' []
          ∧ Data_Map_DefaultMap.has this key h' = MkOutcome (Ok false) h' []
          ∧ ∀ key', Data_Map_DefaultMap.serializeKey this key
                    ≠ Data_Map_DefaultMap.serializeKey this key' →
                    Data_Map_DefaultMap.stored this key' h'
                    = Data_Map_DefaultMap.stored this key' h)).
Proof.
  split_and!.
  - intros *. unfold_lets.
    rewrite !Data_HashMap_Facts.hashmap_has_run, Data_HashMap_Facts.hashmap_delete_run,
      Data_HashMap_Facts.hashmap_deleteIfExists_run.
    split; [destruct (bool_decide _); by eexists|].
    split; intros [= Hb]; rewrite Hb; [done|].
    split_and!; [done..| |].
    + by rewrite Data_HashMap_Facts.hashmap_stored_delete, decide_True.
    + intros key' Hne.
      by rewrite Data_HashMap_Facts.hashmap_stored_delete, decide_False.
  - intros *. unfold_lets.
    rewrite !Data_Map_HashMap_Facts.serialmap_has_run,
      Data_Map_HashMap_Facts.serialmap_delete_run,
      Data_Map_HashMap_Facts.serialmap_deleteIfExists_run.
    split; [destruct (bool_decide _); by eexists|].
    split; intros [= Hb]; rewrite Hb; [done|].
    split_and!; [done..| |].
    + by rewrite Data_Map_HashMap_Facts.serialmap_stored_delete, decide_True.
    + intros key' Hne.
      by rewrite Data_Map_HashMap_Facts.serialmap_stored_delete, decide_False.
  - intros *. unfold_lets.
    rewrite !Data_Map_DefaultMap_Facts.defaultmap_has_run,
      Data_Map_DefaultMap_Facts.defaultmap_delete_run,
      Data_Map_DefaultMap_Facts.defaultmap_deleteIfExists_run.
    unfold Data_Map_DefaultMap.stored, Data_Map_DefaultMap.serializeKey.
    split; [destruct (bool_decide _); by eexists|].
    split; intros [= Hb]; rewrite Hb; [done|].
    split_and!; [done..| |].
    + by rewrite Data_Map_HashMap_Facts.serialmap_stored_delete, decide_True.
    + intros key' Hne.
      by rewrite Data_Map_HashMap_Facts.serialmap_stored_delete, decide_False.
Qed.

(** Deleting [5] from an empty map, and [2] from the map of the tests. *)
Lemma C5_witness :
  let m1 := Data_HashMap.new_HashMap (V:=string) identity 0%nat "unknown" in
  let m2 := Data_Map_HashMap.new_HashMap (V:=string) 0%nat untag tag in
  let m3 := Data_Map_DefaultMap.new_DefaultMap m2 (λ _ _ _, "zero") None in
  let e1 : Store Z string := {[ 0%nat := [] ]} in
  let f1 : Store Z string :=
    {[ 0%nat := [(1, "one"); (2, "two"); (3, "three")] ]} in
  let e2 : Store string string := {[ 0%nat := [] ]} in
  let f2 : Store string string :=
    {[ 0%nat := [("id:a", "one"); ("id:b", "two"); ("id:c", "three")] ]} in
  (Data_HashMap.delete (Ev:=unit) m1 5 e1
   = MkOutcome (Throw (Data_HashMap.new_HashMapMissingKeyError m1 5)) e1 []
   ∧ Data_HashMap.deleteIfExists (Ev:=unit) m1 5 e1
     = MkOutcome (Ok false) e1 []
   ∧ Data_HashMap.deleteIfExists (Ev:=unit) m1 2 f1
     = MkOutcome (Ok true) {[ 0%nat := [(1, "one"); (3, "three")] ]} [])
  ∧ (Data_Map_HashMap.delete (Ev:=unit) m2 "b" e2
     = MkOutcome (Throw (new_MissingKeyError m2 "b")) e2 []
     ∧ Data_Map_HashMap.deleteIfExists (Ev:=unit) m2 "b" f2
       = MkOutcome (Ok true)
           {[ 0%nat := [("id:a", "one"); ("id:c", "three")] ]} [])
  ∧ (Data_Map_DefaultMap.delete m3 "b" e2
     = MkOutcome (Throw (new_MissingKeyError m2 "b")) e2 []
     ∧ Data_Map_DefaultMap.deleteIfExists m3 "b" f2
       = MkOutcome (Ok true)
           {[ 0%nat := [("id:a", "one"); ("id:c", "three")] ]} []).
Proof.
  intros m1 m2 m3 e1 f1 e2 f2.
  destruct C5_delete_and_deleteIfExists as (H1 & H2 & H3).
  destruct (H1 Z string Z unit _ m1 5 e1) as (_ & [Ha1 Ha2] & _); [reflexivity|].
  destruct (H1 Z string Z unit _ m1 2 f1) as (_ & _ & Hp1).
  destruct Hp1 as (_ & Hp1 & _); [reflexivity|].
  destruct (H2 string string unit m2 "b" e2) as (_ & [Ha3 _] & _); [reflexivity|].
  destruct (H2 string string unit m2 "b" f2) as (_ & _ & Hp2).
  destruct Hp2 as (_ & Hp2 & _); [reflexivity|].
  destruct (H3 string string m3 "b" e2) as (_ & [Ha4 _] & _); [reflexivity|].
  destruct (H3 string string m3 "b" f2) as (_ & _ & Hp3).
  destruct Hp3 as (_ & Hp3 & _); [reflexivity|].
  split_and!.
  - exact Ha1.
  - exact Ha2.
  - exact Hp1.
  - exact Ha3.
  - exact Hp2.
  - exact Ha4.
  - exact Hp3.
Defined.

(** C10 — [DefaultMap.getOr] does not materialize the default: on an
    absent key it returns the fallback, leaves the store as it was, so
    that [has] still answers [false], and the generator is not called;
    [getOr] calls the generator on no key at all.  [get] on the same key
    calls the generator once, stores its value and makes [has] answer
    [true]. *)
Theorem C10_getOr_does_not_materialize :
  ∀ (K V : Type) (TV : Truthy V)
    (this : Data_Map_DefaultMap.DefaultMap K V) (key : K)
    (D : Type) (d : D) (h : Store string V),
    calls (Data_Map_DefaultMap.getOr this key d h) = []
    ∧ store (Data_Map_DefaultMap.getOr this key d h) = h
    ∧ (Data_Map_DefaultMap.stored this key h = None →
       Data_Map_DefaultMap.getOr this key d h = MkOutcome (Ok (inr d)) h []
       ∧ Data_Map_DefaultMap.has this key
           (store (Data_Map_DefaultMap.getOr this key d h))
         = MkOutcome (Ok false) h []
       ∧ let o := Data_Map_DefaultMap.get this key h in
         let v := Data_Map_DefaultMap.defaultValue this key
                    (Data_Map_DefaultMap.internalMap this) h in
         o = MkOutcome (Ok v) (Data_Map_DefaultMap.store_set this key v h)
               [key]
         ∧ Data_Map_DefaultMap.has this key (store o)
           = MkOutcome (Ok true) (store o) []).
Proof.
  intros. rewrite Data_Map_DefaultMap_Facts.defaultmap_getOr_run.
  split_and!; [done..|]. intros Hs. rewrite Hs. cbn [store].
  split; [done|]. split.
  { by rewrite Data_Map_DefaultMap_Facts.defaultmap_has_run, Hs. }
  rewrite Data_Map_DefaultMap_Facts.defaultmap_get_run, Hs. cbn [store].
  split; [done|].
  rewrite Data_Map_DefaultMap_Facts.defaultmap_has_run,
    Data_Map_DefaultMap_Facts.defaultmap_stored_set, decide_True by done.
  done.
Qed.

(** An empty [DefaultMap] whose generator returns [5], asked for ["x"]. *)
Lemma C10_witness :
  let m2 := Data_Map_HashMap.new_HashMap (V:=Z) 0%nat untag tag in
  let m3 := Data_Map_DefaultMap.new_DefaultMap m2 (λ _ _ _, 5) None in
  let h : Store string Z := {[ 0%nat := [] ]} in
  Data_Map_DefaultMap.getOr m3 "x" "none" h
  = MkOutcome (Ok (inr "none")) h []
  ∧ Data_Map_DefaultMap.get m3 "x" h
    = MkOutcome (Ok 5) {[ 0%nat := [("id:x", 5)] ]} ["x"].
Proof.
  intros m2 m3 h.
  destruct (C10_getOr_does_not_materialize string Z _ m3 "x" string "none" h)
    as (_ & _ & Hc).
  destruct Hc as (Hg & _ & Hget & _); [reflexivity|].
  split; [exact Hg | exact Hget].
Defined.

(** ** Reading back what [set] wrote

    [has] answers [true] for whatever value was written; [get] returns the
    value only when it is truthy. *)

Lemma Data_HashMap_get_after_set {K V HK Ev} `{EqDecision HK} `{Truthy V}
    (this : Data_HashMap.HashMap K V HK) (k1 k2 : K) (v : V) (h : Store HK V) :
  Data_HashMap.hash this k1 = Data_HashMap.hash this k2 →
  let h' := store (Data_HashMap.set (Ev:=Ev) this k1 v h) in
  Data_HashMap.has (Ev:=Ev) this k2 h' = MkOutcome (Ok true) h' []
  ∧ Data_HashMap.get (Ev:=Ev) this k2 h'
    = MkOutcome
        (if truthy v then Ok v
         else Throw (Data_HashMap.new_HashMapMissingKeyError this k2)) h' [].
Proof.
  intros Hk h'. subst h'.
  rewrite Data_HashMap_Facts.hashmap_has_run, Data_HashMap_Facts.hashmap_get_run,
    !Data_HashMap_Facts.hashmap_stored_set, !decide_True by done.
  done.
Qed.

Lemma Data_Map_HashMap_get_after_set {K V Ev} `{Truthy V}
    (this : Data_Map_HashMap.HashMap K V) (k1 k2 : K) (v : V)
    (h : Store string V) :
  Data_Map_HashMap.serializeKey this k1 = Data_Map_HashMap.serializeKey this k2 →
  let h' := store (Data_Map_HashMap.set (Ev:=Ev) this k1 v h) in
  Data_Map_HashMap.has (Ev:=Ev) this k2 h' = MkOutcome (Ok true) h' []
  ∧ Data_Map_HashMap.get (Ev:=Ev) this k2 h'
    = MkOutcome
        (if truthy v then Ok v else Throw (new_MissingKeyError this k2)) h' [].
Proof.
  intros Hk h'. subst h'.
  rewrite Data_Map_HashMap_Facts.serialmap_has_run, Data_Map_HashMap_Facts.serialmap_get_run,
    !Data_Map_HashMap_Facts.serialmap_stored_set, !decide_True by done.
  done.
Qed.

Lemma Data_Map_DefaultMap_get_after_set {K V} `{Truthy V}
    (this : Data_Map_DefaultMap.DefaultMap K V) (k1 k2 : K) (v : V)
    (h : Store string V) :
  Data_Map_DefaultMap.serializeKey this k1
  = Data_Map_DefaultMap.serializeKey this k2 →
  let h' := store (Data_Map_DefaultMap.set this k1 v h) in
  Data_Map_DefaultMap.has this k2 h' = MkOutcome (Ok true) h' []
  ∧ Data_Map_DefaultMap.get this k2 h'
    = MkOutcome
        (if truthy v then Ok v
         else Throw (new_MissingKeyError
                       (Data_Map_DefaultMap.internalMap this) k2)) h' [].
Proof.
  intros Hk h'. subst h'.
  rewrite Data_Map_DefaultMap_Facts.defaultmap_set_run. cbn [store].
  rewrite Data_Map_DefaultMap_Facts.defaultmap_has_run,
    Data_Map_DefaultMap_Facts.defaultmap_get_run,
    !Data_Map_DefaultMap_Facts.defaultmap_stored_set, !decide_True by done.
  done.
Qed.

(** C1 — Reading back the value [0] right after writing it: [has] answers
    [true], but [get] throws the missing-key error, in each of the three
    classes. *)
Theorem C1_get_after_set_of_zero_throws :
  let m1 := Data_HashMap.new_HashMap (V:=Z) identity 0%nat "unknown" in
  let m2 :=
    Data_Map_HashMap.new_HashMap (V:=Z) 0%nat untag tag in
  let m3 :=
    Data_Map_HashMap.new_HashMap (V:=Z) 0%nat JSON_parse JSON_stringify in
  (hash_set_zero_get ∅
   = MkOutcome (Throw (Data_HashMap.new_HashMapMissingKeyError m1 1))
       {[ 0%nat := [(1, 0)] ]} []
   ∧ hash_set_zero_has ∅ = MkOutcome (Ok true) {[ 0%nat := [(1, 0)] ]} [])
  ∧ (serial_set_zero_get ∅
     = MkOutcome (Throw (new_MissingKeyError m2 "x"))
         {[ 0%nat := [("id:x", 0)] ]} []
     ∧ serial_set_zero_has ∅
       = MkOutcome (Ok true) {[ 0%nat := [("id:x", 0)] ]} [])
  ∧ (default_set_zero_get ∅
     = MkOutcome (Throw (new_MissingKeyError m3 "x"))
         {[ 0%nat := [("x", 0)] ]} []
     ∧ default_set_zero_has ∅
       = MkOutcome (Ok true) {[ 0%nat := [("x", 0)] ]} []).
Proof. by vm_compute. Qed.

(** ** [DefaultMap.get] on an absent key

    The generator is called once with the key, its value is stored and
    returned; asking again finds the key present, does not call the
    generator, and returns the stored value when that value is truthy. *)
Lemma Data_Map_DefaultMap_get_twice {K V} `{Truthy V}
    (this : Data_Map_DefaultMap.DefaultMap K V) (key : K)
    (h : Store string V) :
  Data_Map_DefaultMap.stored this key h = None →
  let v := Data_Map_DefaultMap.defaultValue this key
             (Data_Map_DefaultMap.internalMap this) h in
  let h' := Data_Map_DefaultMap.store_set this key v h in
  Data_Map_DefaultMap.get this key h = MkOutcome (Ok v) h' [key]
  ∧ Data_Map_DefaultMap.has this key h' = MkOutcome (Ok true) h' []
  ∧ Data_Map_DefaultMap.get this key h'
    = MkOutcome
        (if truthy v then Ok v
         else Throw (new_MissingKeyError
                       (Data_Map_DefaultMap.internalMap this) key)) h' [].
Proof.
  intros Hs v h'. subst v h'.
  rewrite Data_Map_DefaultMap_Facts.defaultmap_has_run,
    !Data_Map_DefaultMap_Facts.defaultmap_get_run,
    !Data_Map_DefaultMap_Facts.defaultmap_stored_set, Hs, !decide_True by done.
  done.
Qed.

(** C3 — A [DefaultMap] whose generator returns [0]: the first [get("x")]
    calls the generator, stores [0] and returns it, and [has("x")] is then
    [true]; the second [get("x")] throws the missing-key error.  So does
    [get("x")] after [set("x", 0)]. *)
Theorem C3_second_get_of_falsy_default_throws :
  let m := Data_Map_HashMap.new_HashMap (V:=Z) 0%nat JSON_parse JSON_stringify in
  default_zero_get_once ∅
  = MkOutcome (Ok (0, true)) {[ 0%nat := [("x", 0)] ]} ["x"]
  ∧ default_zero_get_twice ∅
    = MkOutcome (Throw (new_MissingKeyError m "x"))
        {[ 0%nat := [("x", 0)] ]} ["x"]
  ∧ default_set_zero_get ∅
    = MkOutcome (Throw (new_MissingKeyError m "x"))
        {[ 0%nat := [("x", 0)] ]} [].
Proof. by vm_compute. Qed.

(** ** Keys with one hashed form are one key

    Every method reaches the native map through the hashed (resp.
    serialized) key only, so in every store two such keys find the same
    entry and write the same entry; the key itself shows only in the error
    thrown. *)
Lemma Data_HashMap_same_hash {K V HK Ev} `{EqDecision HK} `{Truthy V}
    (this : Data_HashMap.HashMap K V HK) (k1 k2 : K) (h : Store HK V) :
  Data_HashMap.hash this k1 = Data_HashMap.hash this k2 →
  Data_HashMap.stored this k1 h = Data_HashMap.stored this k2 h
  ∧ Data_HashMap.has (Ev:=Ev) this k1 h = Data_HashMap.has this k2 h
  ∧ (∀ D (d : D),
       Data_HashMap.getOr (Ev:=Ev) this k1 d h = Data_HashMap.getOr this k2 d h)
  ∧ (∀ v, Data_HashMap.set (Ev:=Ev) this k1 v h = Data_HashMap.set this k2 v h)
  ∧ Data_HashMap.deleteIfExists (Ev:=Ev) this k1 h
    = Data_HashMap.deleteIfExists this k2 h.
Proof.
  intros Hk.
  assert (Data_HashMap.stored this k1 h = Data_HashMap.stored this k2 h) as Hs.
  { unfold Data_HashMap.stored. by rewrite Hk. }
  split_and!; [done| | | |].
  - by rewrite !Data_HashMap_Facts.hashmap_has_run, Hs.
  - intros. by rewrite !Data_HashMap_Facts.hashmap_getOr_run, Hs.
  - intros. by rewrite !Data_HashMap_Facts.hashmap_set_run, Hk.
  - by rewrite !Data_HashMap_Facts.hashmap_deleteIfExists_run, Hs, Hk.
Qed.

Lemma Data_Map_HashMap_same_serialized {K V Ev} `{Truthy V}
    (this : Data_Map_HashMap.HashMap K V) (k1 k2 : K) (h : Store string V) :
  Data_Map_HashMap.serializeKey this k1 = Data_Map_HashMap.serializeKey this k2 →
  Data_Map_HashMap.stored this k1 h = Data_Map_HashMap.stored this k2 h
  ∧ Data_Map_HashMap.has (Ev:=Ev) this k1 h = Data_Map_HashMap.has this k2 h
  ∧ (∀ D (d : D),
       Data_Map_HashMap.getOr (Ev:=Ev) this k1 d h
       = Data_Map_HashMap.getOr this k2 d h)
  ∧ (∀ v, Data_Map_HashMap.set (Ev:=Ev) this k1 v h
          = Data_Map_HashMap.set this k2 v h)
  ∧ Data_Map_HashMap.deleteIfExists (Ev:=Ev) this k1 h
    = Data_Map_HashMap.deleteIfExists this k2 h.
Proof.
  intros Hk.
  assert (Data_Map_HashMap.stored this k1 h = Data_Map_HashMap.stored this k2 h)
    as Hs.
  { unfold Data_Map_HashMap.stored. by rewrite Hk. }
  split_and!; [done| | | |].
  - by rewrite !Data_Map_HashMap_Facts.serialmap_has_run, Hs.
  - intros. by rewrite !Data_Map_HashMap_Facts.serialmap_getOr_run, Hs.
  - intros. by rewrite !Data_Map_HashMap_Facts.serialmap_set_run, Hk.
  - by rewrite !Data_Map_HashMap_Facts.serialmap_deleteIfExists_run, Hs, Hk.
Qed.

(** ** [Data/DefaultMap.ts]

    The earlier default map never stores: its [get] calls the generator on
    every call and leaves the store as it was. *)
Lemma Data_DefaultMap_get_does_not_store {K V HK D} `{EqDecision HK}
    `{Truthy V} (this : Data_DefaultMap.DefaultMap K V HK D) (key : K)
    (h : Store HK V) :
  store (Data_DefaultMap.get this key h) = h
  ∧ calls (Data_DefaultMap.get this key h)
    = match Data_DefaultMap.defaultValue this with
      | Data_DefaultMap.type_generator _ => [key]
      | Data_DefaultMap.type_value _ => []
      end.
Proof.
  unfold Data_DefaultMap.get.
  destruct (Data_DefaultMap.defaultValue this) as [g|d];
    unfold mbind, Eff_bind, mret, Eff_ret, emit; cbn [result store calls];
    rewrite Data_HashMap_Facts.hashmap_getOr_run; done.
Qed.

(** C6 — Two [Date] objects for the same instant are one key: after
    [set(d1, 1)], [get(d2)] returns [1] and [has(d2)] is [true].  After
    [set(d1, 0)], [has(d2)] is [true] as well, but [get(d2)] throws the
    missing-key error. *)
Theorem C6_same_hash_get_of_zero_throws :
  let m := Data_HashMap.new_HashMap (V:=Z) Date_toISOString 0%nat "unknown" in
  (dates_set_get 1 ∅
   = MkOutcome (Ok 1) {[ 0%nat := [("1577836800000", 1)] ]} []
   ∧ dates_set_has 1 ∅
     = MkOutcome (Ok true) {[ 0%nat := [("1577836800000", 1)] ]} [])
  ∧ (dates_set_get 0 ∅
     = MkOutcome (Throw (Data_HashMap.new_HashMapMissingKeyError m d2))
         {[ 0%nat := [("1577836800000", 0)] ]} []
     ∧ dates_set_has 0 ∅
       = MkOutcome (Ok true) {[ 0%nat := [("1577836800000", 0)] ]} []).
Proof. by vm_compute. Qed.

(** ** Traversal *)

(** C8 (as stated, refuted) — In [Data/Map/HashMap.ts] the keys that
    [keys()] yields are not the storage keys: with the serializer [tag],
    the map holding ["x"] stores ["id:x"] and yields ["x"]. *)
Lemma C8_keys_not_in_storage_form :
  ¬ (∀ (this : Data_Map_HashMap.HashMap string Z) (h : Store string Z),
       result (Data_Map_HashMap.keys (Ev:=unit) this h)
       = result (Data_Map_HashMap.serializedKeys (Ev:=unit) this h)).
Proof.
  intros Hc.
  specialize (Hc (Data_Map_HashMap.new_HashMap 0%nat untag tag)
                {[ 0%nat := [("id:x", 0)] ]}).
  vm_compute in Hc. discriminate Hc.
Qed.

(** C8 — [entries()] and [keys()] traverse the native map in its order,
    which is insertion order: [set] appends a key that is absent and
    leaves the keys in place when it overwrites.  [Data/HashMap.ts] yields
    the keys in their hashed (storage) form.  [Data/Map/HashMap.ts] and
    [DefaultMap] yield each storage key passed through [deserializeKey];
    the storage form is what [serializedKeys()] yields.  Iterating a map
    is calling [entries()]. *)
Theorem C8_traversal_order_and_key_form :
  (∀ (K V HK Ev : Type) (EqHK : EqDecision HK)
     (this : Data_HashMap.HashMap K V HK) (h : Store HK V),
     let es := contents h (Data_HashMap._map this) in
     Data_HashMap.entries (Ev:=Ev) this h = MkOutcome (Ok es) h []
     ∧ Data_HashMap.keys (Ev:=Ev) this h = MkOutcome (Ok es.*1) h []
     ∧ Data_HashMap.iterator (Ev:=Ev) this h
       = Data_HashMap.entries (Ev:=Ev) this h
     ∧ ∀ (key : K) (v : V),
         let es' := contents (store (Data_HashMap.set (Ev:=Ev) this key v h))
                      (Data_HashMap._map this) in
         (Data_HashMap.stored this key h = None →
          es' = es ++ [(Data_HashMap.hash this key, v)])
         ∧ (is_Some (Data_HashMap.stored this key h) → es'.*1 = es.*1))
  ∧ (∀ (K V Ev : Type)
       (this : Data_Map_HashMap.HashMap K V) (h : Store string V),
       let es := contents h (Data_Map_HashMap.internalMap this) in
       let deserialize := Data_Map_HashMap.deserializeKey this in
       Data_Map_HashMap.entries (Ev:=Ev) this h
       = MkOutcome (Ok ((λ '(key, value), (deserialize key, value)) <$> es))
           h []
       ∧ Data_Map_HashMap.keys (Ev:=Ev) this h
         = MkOutcome (Ok (deserialize <$> es.*1)) h []
       ∧ Data_Map_HashMap.serializedKeys (Ev:=Ev) this h
         = MkOutcome (Ok es.*1) h []
       ∧ Data_Map_HashMap.iterator (Ev:=Ev) this h
         = Data_Map_HashMap.entries (Ev:=Ev) this h
       ∧ ∀ (key : K) (v : V),
           let es' :=
             contents (store (Data_Map_HashMap.set (Ev:=Ev) this key v h))
               (Data_Map_HashMap.internalMap this) in
           (Data_Map_HashMap.stored this key h = None →
            es' = es ++ [(Data_Map_HashMap.serializeKey this key, v)])
           ∧ (is_Some (Data_Map_HashMap.stored this key h) →
              es'.*1 = es.*1))
  ∧ (∀ (K V : Type)
       (this : Data_Map_DefaultMap.DefaultMap K V) (h : Store string V),
       let inner := Data_Map_DefaultMap.internalMap this in
       let es := contents h (Data_Map_HashMap.internalMap inner) in
       let deserialize := Data_Map_DefaultMap.deserializeKey this in
       Data_Map_DefaultMap.entries this h
       = MkOutcome (Ok ((λ '(key, value), (deserialize key, value)) <$> es))
           h []
       ∧ Data_Map_DefaultMap.keys this h
         = MkOutcome (Ok (deserialize <$> es.*1)) h []
       ∧ Data_Map_DefaultMap.serializedKeys this h
         = MkOutcome (Ok es.*1) h []
       ∧ Data_Map_DefaultMap.iterator this h
         = Data_Map_DefaultMap.entries this h
       ∧ ∀ (key : K) (v : V),
           let es' :=
             contents (store (Data_Map_DefaultMap.set this key v h))
               (Data_Map_HashMap.internalMap inner) in
           (Data_Map_DefaultMap.stored this key h = None →
            es' = es ++ [(Data_Map_DefaultMap.serializeKey this key, v)])
           ∧ (is_Some (Data_Map_DefaultMap.stored this key h) →
              es'.*1 = es.*1)).
Proof.
  split_and!.
  - intros. unfold_lets. split_and!; [done..|].
    intros key v es'. subst es'.
    rewrite Data_HashMap_Facts.hashmap_set_run. cbn [store].
    rewrite contents_insert_eq. unfold Data_HashMap.stored. split.
    + intros Hs%JsMapFacts.has_false_get. by apply JsMapFacts.set_fresh.
    + intros Hs%JsMapFacts.has_true_get. by apply JsMapFacts.set_keys_present.
  - intros. unfold_lets. split_and!; [done..|].
    intros key v es'. subst es'.
    rewrite Data_Map_HashMap_Facts.serialmap_set_run. cbn [store].
    rewrite contents_insert_eq. unfold Data_Map_HashMap.stored. split.
    + intros Hs%JsMapFacts.has_false_get. by apply JsMapFacts.set_fresh.
    + intros Hs%JsMapFacts.has_true_get. by apply JsMapFacts.set_keys_present.
  - intros. unfold_lets. split_and!; [done..|].
    intros key v es'. subst es'.
    rewrite Data_Map_DefaultMap_Facts.defaultmap_set_run. cbn [store].
    unfold Data_Map_DefaultMap.store_set.
    rewrite contents_insert_eq.
    unfold Data_Map_DefaultMap.stored, Data_Map_HashMap.stored. split.
    + intros Hs%JsMapFacts.has_false_get. by apply JsMapFacts.set_fresh.
    + intros Hs%JsMapFacts.has_true_get. by apply JsMapFacts.set_keys_present.
Qed.

(** The map holding [1 => "one"]: writing the absent key [2] appends it,
    overwriting [1] keeps the keys; likewise for the serialized keys. *)
Lemma C8_witness :
  let m1 := Data_HashMap.new_HashMap (V:=string) identity 0%nat "unknown" in
  let h1 : Store Z string := {[ 0%nat := [(1, "one")] ]} in
  let m2 := Data_Map_HashMap.new_HashMap (V:=string) 0%nat untag tag in
  let m3 := Data_Map_DefaultMap.new_DefaultMap m2 (λ _ _ _, "zero") None in
  let h2 : Store string string := {[ 0%nat := [("id:a", "one")] ]} in
  (contents (store (Data_HashMap.set (Ev:=unit) m1 2 "two" h1)) 0%nat
   = [(1, "one"); (2, "two")]
   ∧ (contents (store (Data_HashMap.set (Ev:=unit) m1 1 "uno" h1)) 0%nat).*1
     = [1])
  ∧ (contents (store (Data_Map_HashMap.set (Ev:=unit) m2 "b" "two" h2)) 0%nat
     = [("id:a", "one"); ("id:b", "two")]
     ∧ (contents
          (store (Data_Map_HashMap.set (Ev:=unit) m2 "a" "uno" h2)) 0%nat).*1
       = ["id:a"])
  ∧ (contents (store (Data_Map_DefaultMap.set m3 "b" "two" h2)) 0%nat
     = [("id:a", "one"); ("id:b", "two")]
     ∧ (contents (store (Data_Map_DefaultMap.set m3 "a" "uno" h2)) 0%nat).*1
       = ["id:a"]).
Proof.
  intros m1 h1 m2 m3 h2.
  destruct C8_traversal_order_and_key_form as (H1 & H2 & H3).
  destruct (H1 Z string Z unit _ m1 h1) as (_ & _ & _ & Hs1).
  destruct (H2 string string unit m2 h2) as (_ & _ & _ & _ & Hs2).
  destruct (H3 string string m3 h2) as (_ & _ & _ & _ & Hs3).
  split_and!.
  - apply (Hs1 2 "two"). reflexivity.
  - apply (Hs1 1 "uno"). by eexists.
  - apply (Hs2 "b" "two"). reflexivity.
  - apply (Hs2 "a" "uno"). by eexists.
  - apply (Hs3 "b" "two"). reflexivity.
  - apply (Hs3 "a" "uno"). by eexists.
Defined.

(** ** [filter] *)

Section Accepted.
Context {K V : Type}.
Implicit Types (p : V → K → nat → bool) (es acc : list (K * V)).

Lemma accepted_by_count_loop p es acc :
  fold_left
    (λ acc '(key, value),
       if p value key (length acc) then acc ++ [(key, value)] else acc)
    es acc
  = acc ++ Spec.accepted_by_count p (length acc) es.
Proof.
  revert acc. induction es as [|[key value] r IH]; intros acc; simpl.
  - by rewrite app_nil_r.
  - rewrite IH. destruct (p value key (length acc)); [|done].
    rewrite length_app, Nat.add_1_r, <-app_assoc. done.
Qed.

Lemma accepted_by_position_loop p es acc (i : nat) :
  (fold_left
     (λ '(acc, index) '(key, value),
        (if p value key index then acc ++ [(key, value)] else acc, S index))
     es (acc, i)).1
  = acc ++ Spec.accepted_by_position p i es.
Proof.
  revert acc i. induction es as [|[key value] r IH]; intros acc i; simpl.
  - by rewrite app_nil_r.
  - rewrite IH. destruct (p value key i); [|done].
    by rewrite <-app_assoc.
Qed.

Lemma accepted_by_count_sublist p n es :
  Spec.accepted_by_count p n es `sublist_of` es.
Proof.
  revert n. induction es as [|[key value] r IH]; intros n; simpl; [done|].
  destruct (p value key n); [by apply sublist_skip | by apply sublist_cons].
Qed.

Lemma accepted_by_position_sublist p n es :
  Spec.accepted_by_position p n es `sublist_of` es.
Proof.
  revert n. induction es as [|[key value] r IH]; intros n; simpl; [done|].
  destruct (p value key n); [by apply sublist_skip | by apply sublist_cons].
Qed.
End Accepted.

Section AcceptedKeys.
Context {K K' V : Type} (g : K → K').
Implicit Types (p : V → K' → nat → bool) (es : list (K * V)).

(** Accepting among entries whose keys went through [g]. *)
Lemma accepted_by_count_fmap p n es :
  Spec.accepted_by_count p n ((λ '(key, value), (g key, value)) <$> es)
  = (λ '(key, value), (g key, value))
      <$> Spec.accepted_by_count (λ value key, p value (g key)) n es.
Proof.
  revert n. induction es as [|[key value] r IH]; intros n; csimpl; [done|].
  destruct (p value (g key) n); csimpl; by rewrite IH.
Qed.

Lemma accepted_by_position_fmap p n es :
  Spec.accepted_by_position p n ((λ '(key, value), (g key, value)) <$> es)
  = (λ '(key, value), (g key, value))
      <$> Spec.accepted_by_position (λ value key, p value (g key)) n es.
Proof.
  revert n. induction es as [|[key value] r IH]; intros n; csimpl; [done|].
  destruct (p value (g key) n); csimpl; by rewrite IH.
Qed.
End AcceptedKeys.

(** Entries taken from a native map and serialized again are the entries
    taken, when serializing undoes deserializing on the keys stored. *)
Lemma reserialized_sublist {K V}
    (deserialize : string → K) (serialize : K → string)
    (raw sub : list (string * V)) :
  (∀ s, s ∈ raw.*1 → serialize (deserialize s) = s) →
  sub `sublist_of` raw →
  NoDup raw.*1 →
  JsMap.of_entries
    ((λ '(key, value), (serialize key, value))
       <$> ((λ '(key, value), (deserialize key, value)) <$> sub))
  = sub.
Proof.
  intros Hrt Hsub Hnd.
  assert (((λ '(key, value), (serialize key, value))
             <$> ((λ '(key, value), (deserialize key, value)) <$> sub)) = sub)
    as ->.
  { rewrite <-list_fmap_compose. rewrite <-(list_fmap_id sub) at 2.
    apply list_fmap_ext. intros i [s v] Hi. simpl. f_equal.
    apply Hrt. apply (list_elem_of_fmap_2 fst raw (s, v)).
    eapply elem_of_sublist; [|exact Hsub].
    by eapply list_elem_of_lookup_2. }
  apply JsMapFacts.of_entries_NoDup.
  eapply sublist_NoDup; [exact Hnd|]. by apply fmap_sublist.
Qed.

(** ** The derivations build one new native map *)

Section HashDerivations.
Import Data_HashMap.
Context {K V HK Ev : Type} `{EqDecision HK}.
Implicit Types (this : HashMap K V HK) (h : Store HK V).

Lemma hashmap_filter_run this fn h :
  filter (Ev:=Ev) this fn h
  = hashmap_built (Ev:=Ev) this h (filter_loop fn this h (contents h (_map this))).
Proof. done. Qed.

Lemma hashmap_map_run this fn h :
  map (Ev:=Ev) this fn h
  = hashmap_built (Ev:=Ev) this h (map_loop fn this h (contents h (_map this))).
Proof. done. Qed.

Lemma hashmap_mapKeys_run this fn h :
  mapKeys (Ev:=Ev) this fn h
  = hashmap_built (Ev:=Ev) this h
      (map_loop (λ value key index original h,
                   (fn key value index original h, value))
         this h (contents h (_map this))).
Proof. done. Qed.

Lemma hashmap_mapValues_run this fn h :
  mapValues (Ev:=Ev) this fn h
  = hashmap_built (Ev:=Ev) this h
      (map_loop (λ value key index original h,
                   (key, fn value key index original h))
         this h (contents h (_map this))).
Proof. done. Qed.
End HashDerivations.

Section SerialDerivations.
Import Data_Map_HashMap.
Context {K V Ev : Type}.
Context (JSON_parse : string → K) (JSON_stringify : K → string).
Implicit Types (this : HashMap K V) (h : Store string V).

Lemma serialmap_filter_run this fn h :
  filter (Ev:=Ev) JSON_parse JSON_stringify this fn h
  = serialmap_built (Ev:=Ev) this h (filter_loop fn this h (serialmap_entries this h)).
Proof. done. Qed.

Lemma serialmap_map_run this fn h :
  map (Ev:=Ev) JSON_parse JSON_stringify this fn h
  = serialmap_built (Ev:=Ev) this h (map_loop fn this h (serialmap_entries this h)).
Proof. done. Qed.

Lemma serialmap_mapKeys_run this fn h :
  mapKeys (Ev:=Ev) JSON_parse JSON_stringify this fn h
  = serialmap_built (Ev:=Ev) this h
      (map_loop (λ value key index original h,
                   (fn key value index original h, value))
         this h (serialmap_entries this h)).
Proof. done. Qed.

Lemma serialmap_mapValues_run this fn h :
  mapValues (Ev:=Ev) JSON_parse JSON_stringify this fn h
  = serialmap_built (Ev:=Ev) this h
      (map_loop (λ value key index original h,
                   (key, fn value key index original h))
         this h (serialmap_entries this h)).
Proof. done. Qed.
End SerialDerivations.

Section DefaultDerivations.
Import Data_Map_DefaultMap.
Context {K V : Type}.
Context (JSON_parse : string → K) (JSON_stringify : K → string).
Implicit Types (this : DefaultMap K V) (h : Store string V).

Lemma defaultmap_filter_run this fn h :
  filter JSON_parse JSON_stringify this fn h
  = defaultmap_built this h
      (filter_loop fn this h (serialmap_entries (internalMap this) h)).
Proof. done. Qed.

Lemma defaultmap_map_run this fn h :
  map JSON_parse JSON_stringify this fn h
  = defaultmap_built this h
      (map_loop (λ value key index, fn value key index this h)
         (serialmap_entries (internalMap this) h)).
Proof. done. Qed.

Lemma defaultmap_mapKeys_run this fn h :
  mapKeys JSON_parse JSON_stringify this fn h
  = defaultmap_built this h
      (map_loop (λ value key index, (fn key value index this h, value))
         (serialmap_entries (internalMap this) h)).
Proof. done. Qed.

Lemma defaultmap_mapValues_run this fn h :
  mapValues JSON_parse JSON_stringify this fn h
  = defaultmap_built this h
      (map_loop (λ value key index, (key, fn value key index this h))
         (serialmap_entries (internalMap this) h)).
Proof. done. Qed.
End DefaultDerivations.

(** C9 (as stated, refuted) — [DefaultMap.filter] does not hand the
    predicate the number of entries accepted so far.  On the entries
    [a => 1], [b => 2] and the predicate "the index is 1", counting
    accepted entries would accept nothing; the map built holds [b => 2]. *)
Lemma C9_defaultmap_index_is_not_accepted_count :
  ¬ (∀ (this : Data_Map_DefaultMap.DefaultMap string Z)
       (fn : @Data_Map_DefaultMap.Callback string Z bool)
       (h : Store string Z) (es : list (string * Z))
       (m' : Data_Map_DefaultMap.DefaultMap string Z),
       let inner := Data_Map_DefaultMap.internalMap this in
       let raw := contents h (Data_Map_HashMap.internalMap inner) in
       let o := Data_Map_DefaultMap.filter JSON_parse JSON_stringify
                  this fn h in
       JsMap.wf raw →
       (∀ s, s ∈ raw.*1 →
             Data_Map_DefaultMap.serializeKey this
               (Data_Map_DefaultMap.deserializeKey this s) = s) →
       result (Data_Map_DefaultMap.entries this h) = Ok es →
       result o = Ok m' →
       result (Data_Map_DefaultMap.entries m' (store o))
       = Ok (Spec.accepted_by_count
               (λ value key index, fn value key index this h) 0%nat es)).
Proof.
  intros Hc.
  specialize
    (Hc (Data_Map_DefaultMap.new_DefaultMap
           (Data_Map_HashMap.new_HashMap 0%nat untag tag) (λ _ _ _, 0) None)
        (λ _ _ index _ _, bool_decide (index = 1%nat))
        {[ 0%nat := [("id:a", 1); ("id:b", 2)] ]}
        [("a", 1); ("b", 2)]
        (Data_Map_DefaultMap.new_DefaultMap
           (Data_Map_HashMap.new_HashMap 1%nat untag tag) (λ _ _ _, 0) None)).
  cbv zeta in Hc.
  assert (Ok (E:=MissingKeyError (Data_Map_HashMap.HashMap string Z) string)
            [("b", 2)]
          = Ok []) as Habs; [|discriminate Habs].
  apply Hc.
  - apply (bool_decide_unpack _). by vm_compute.
  - intros s Hs.
    change (s ∈ ["id:a"; "id:b"]) in Hs.
    rewrite !elem_of_cons, elem_of_nil in Hs.
    destruct Hs as [->|[->|[]]]; reflexivity.
  - reflexivity.
  - reflexivity.
Qed.

(** C9 — [filter] calls the predicate on the entries in traversal order
    and builds a map that holds exactly the accepted entries, in that
    order.  In both [HashMap] classes the index is the number of entries
    accepted so far; in [DefaultMap] it is the position of the entry in
    the traversal.  For the classes with serialized keys the accepted
    entries are serialized again, so the statement is for maps on whose
    stored keys [serializeKey] undoes [deserializeKey]. *)
Theorem C9_filter_keeps_the_accepted_entries :
  (∀ (K V HK Ev : Type) (EqHK : EqDecision HK)
     (this : Data_HashMap.HashMap K V HK)
     (fn : @Data_HashMap.Callback K V HK bool) (h : Store HK V)
     (es : list (HK * V)),
     let o := Data_HashMap.filter (Ev:=Ev) this fn h in
     JsMap.wf (contents h (Data_HashMap._map this)) →
     result (Data_HashMap.entries (Ev:=Ev) this h) = Ok es →
     ∃ m', result o = Ok m'
           ∧ result (Data_HashMap.entries (Ev:=Ev) m' (store o))
             = Ok (Spec.accepted_by_count
                     (λ value key index, fn value key index this h) 0%nat es))
  ∧ (∀ (K V Ev : Type) (JSON_parse : string → K) (JSON_stringify : K → string)
       (this : Data_Map_HashMap.HashMap K V)
       (fn : @Data_Map_HashMap.Callback K V bool) (h : Store string V)
       (es : list (K * V)),
       let raw := contents h (Data_Map_HashMap.internalMap this) in
       let o := Data_Map_HashMap.filter (Ev:=Ev) JSON_parse JSON_stringify
                  this fn h in
       JsMap.wf raw →
       (∀ s, s ∈ raw.*1 →
             Data_Map_HashMap.serializeKey this
               (Data_Map_HashMap.deserializeKey this s) = s) →
       result (Data_Map_HashMap.entries (Ev:=Ev) this h) = Ok es →
       ∃ m', result o = Ok m'
             ∧ result (Data_Map_HashMap.entries (Ev:=Ev) m' (store o))
               = Ok (Spec.accepted_by_count
                       (λ value key index, fn value key index this h)
                       0%nat es))
  ∧ (∀ (K V : Type) (JSON_parse : string → K) (JSON_stringify : K → string)
       (this : Data_Map_DefaultMap.DefaultMap K V)
       (fn : @Data_Map_DefaultMap.Callback K V bool) (h : Store string V)
       (es : list (K * V)),
       let inner := Data_Map_DefaultMap.internalMap this in
       let raw := contents h (Data_Map_HashMap.internalMap inner) in
       let o := Data_Map_DefaultMap.filter JSON_parse JSON_stringify
                  this fn h in
       JsMap.wf raw →
       (∀ s, s ∈ raw.*1 →
             Data_Map_DefaultMap.serializeKey this
               (Data_Map_DefaultMap.deserializeKey this s) = s) →
       result (Data_Map_DefaultMap.entries this h) = Ok es →
       ∃ m', result o = Ok m'
             ∧ result (Data_Map_DefaultMap.entries m' (store o))
               = Ok (Spec.accepted_by_position
                       (λ value key index, fn value key index this h)
                       0%nat es)).
Proof.
  split_and!.
  - intros * Hwf [= <-]. unfold_lets. rewrite hashmap_filter_run.
    eexists. split; [done|].
    unfold hashmap_built, Data_HashMap.entries, Map_entries, reads.
    cbn [result store Data_HashMap._map].
    rewrite contents_insert_eq. f_equal.
    unfold Data_HashMap.filter_loop.
    rewrite (accepted_by_count_loop
               (λ value key index, fn value key index this h)).
    cbn [app length].
    apply JsMapFacts.of_entries_NoDup.
    eapply sublist_NoDup; [exact Hwf|].
    apply fmap_sublist, accepted_by_count_sublist.
  - intros * Hwf Hrt [= <-]. unfold_lets. rewrite serialmap_filter_run.
    eexists. split; [done|].
    unfold serialmap_built, serialmap_entries, Data_Map_HashMap.entries.
    run_eff. rewrite contents_insert_eq. f_equal.
    unfold Data_Map_HashMap.filter_loop.
    rewrite (accepted_by_count_loop
               (λ value key index, fn value key index this h)).
    cbn [app length].
    rewrite (accepted_by_count_fmap (Data_Map_HashMap.deserializeKey this)).
    f_equal.
    apply (reserialized_sublist _ _
             (contents h (Data_Map_HashMap.internalMap this)));
      [exact Hrt | apply accepted_by_count_sublist | exact Hwf].
  - intros * Hwf Hrt [= <-]. unfold_lets. rewrite defaultmap_filter_run.
    eexists. split; [done|].
    unfold defaultmap_built, serialmap_entries, Data_Map_DefaultMap.entries,
      Data_Map_HashMap.entries.
    run_eff. rewrite contents_insert_eq. f_equal.
    unfold Data_Map_DefaultMap.filter_loop.
    rewrite (accepted_by_position_loop
               (λ value key index, fn value key index this h)).
    cbn [app].
    rewrite (accepted_by_position_fmap
               (Data_Map_HashMap.deserializeKey
                  (Data_Map_DefaultMap.internalMap this))).
    f_equal.
    apply (reserialized_sublist _ _
             (contents h (Data_Map_HashMap.internalMap
                            (Data_Map_DefaultMap.internalMap this))));
      [exact Hrt | apply accepted_by_position_sublist | exact Hwf].
Qed.

(** Keeping the values longer than three characters out of [1 => "one"],
    [2 => "two"], [3 => "three"], [4 => "four"]; and the predicate "the
    index is 1" on [a => 1], [b => 2]: nothing is accepted when the index
    counts accepted entries, [b => 2] when it is the position. *)
Lemma C9_witness :
  let m1 := Data_HashMap.new_HashMap (V:=string) identity 0%nat "unknown" in
  let h1 : Store Z string :=
    {[ 0%nat := [(1, "one"); (2, "two"); (3, "three"); (4, "four")] ]} in
  let long : @Data_HashMap.Callback Z string Z bool :=
    λ value _ _ _ _, bool_decide (3 < String.length value)%nat in
  let m2 := Data_Map_HashMap.new_HashMap (V:=Z) 0%nat untag tag in
  let m3 := Data_Map_DefaultMap.new_DefaultMap m2 (λ _ _ _, 0) None in
  let h2 : Store string Z := {[ 0%nat := [("id:a", 1); ("id:b", 2)] ]} in
  let o1 := Data_HashMap.filter (Ev:=unit) m1 long h1 in
  let o2 := Data_Map_HashMap.filter (Ev:=unit) JSON_parse JSON_stringify m2
              (λ _ _ index _ _, bool_decide (index = 1%nat)) h2 in
  let o3 := Data_Map_DefaultMap.filter JSON_parse JSON_stringify m3
              (λ _ _ index _ _, bool_decide (index = 1%nat)) h2 in
  (∃ m', result o1 = Ok m'
         ∧ result (Data_HashMap.entries (Ev:=unit) m' (store o1))
           = Ok [(3, "three"); (4, "four")])
  ∧ (∃ m', result o2 = Ok m'
           ∧ result (Data_Map_HashMap.entries (Ev:=unit) m' (store o2))
             = Ok [])
  ∧ (∃ m', result o3 = Ok m'
           ∧ result (Data_Map_DefaultMap.entries m' (store o3))
             = Ok [("b", 2)]).
Proof.
  intros m1 h1 long m2 m3 h2 o1 o2 o3.
  destruct C9_filter_keeps_the_accepted_entries as (H1 & H2 & H3).
  assert (∀ s, s ∈ ["id:a"; "id:b"] → tag (untag s) = s) as Hrt.
  { intros s Hs. rewrite !elem_of_cons, elem_of_nil in Hs.
    destruct Hs as [->|[->|[]]]; reflexivity. }
  split_and!.
  - destruct (H1 Z string Z unit _ m1 long h1
                [(1, "one"); (2, "two"); (3, "three"); (4, "four")])
      as (m' & Hr & He).
    + apply (bool_decide_unpack _). by vm_compute.
    + reflexivity.
    + exists m'. split; [exact Hr | exact He].
  - destruct (H2 string Z unit JSON_parse JSON_stringify m2
                (λ _ _ index _ _, bool_decide (index = 1%nat)) h2
                [("a", 1); ("b", 2)]) as (m' & Hr & He).
    + apply (bool_decide_unpack _). by vm_compute.
    + exact Hrt.
    + reflexivity.
    + exists m'. split; [exact Hr | exact He].
  - destruct (H3 string Z JSON_parse JSON_stringify m3
                (λ _ _ index _ _, bool_decide (index = 1%nat)) h2
                [("a", 1); ("b", 2)]) as (m' & Hr & He).
    + apply (bool_decide_unpack _). by vm_compute.
    + exact Hrt.
    + reflexivity.
    + exists m'. split; [exact Hr | exact He].
Defined.

(** ** [filter], [map], [mapKeys], [mapValues] leave the source alone *)

Lemma hashmap_built_derived {K V HK Ev} `{EqDecision HK}
    (this : Data_HashMap.HashMap K V HK) (h : Store HK V) es :
  is_Some (h !! Data_HashMap._map this) →
  hashmap_derived this h (hashmap_built (Ev:=Ev) this h es).
Proof.
  intros Hal. pose proof (fresh_not_allocated h _ Hal) as Hne.
  eexists. split_and!; try done.
  - cbn. apply (not_elem_of_dom (D:=gset nat)), is_fresh.
  - intros l Hl. cbn in *. by rewrite lookup_insert_ne.
  - cbn. by rewrite contents_insert_ne.
Qed.

Lemma serialmap_built_derived {K V Ev}
    (this : Data_Map_HashMap.HashMap K V) (h : Store string V) es :
  is_Some (h !! Data_Map_HashMap.internalMap this) →
  serialmap_derived this h (serialmap_built (Ev:=Ev) this h es).
Proof.
  intros Hal. pose proof (fresh_not_allocated h _ Hal) as Hne.
  eexists. split_and!; try done.
  - cbn. apply (not_elem_of_dom (D:=gset nat)), is_fresh.
  - intros l Hl. cbn in *. by rewrite lookup_insert_ne.
  - cbn. unfold Data_Map_HashMap.entries. run_eff.
    by rewrite contents_insert_ne.
Qed.

Lemma defaultmap_built_derived {K V}
    (this : Data_Map_DefaultMap.DefaultMap K V) (h : Store string V) es :
  is_Some (h !! Data_Map_HashMap.internalMap
                  (Data_Map_DefaultMap.internalMap this)) →
  defaultmap_derived this h (defaultmap_built this h es).
Proof.
  intros Hal. pose proof (fresh_not_allocated h _ Hal) as Hne.
  eexists. split_and!; try done.
  - cbn. apply (not_elem_of_dom (D:=gset nat)), is_fresh.
  - intros l Hl. cbn in *. by rewrite lookup_insert_ne.
  - cbn. unfold Data_Map_DefaultMap.entries, Data_Map_HashMap.entries.
    run_eff. by rewrite contents_insert_ne.
Qed.

(** C7 (as stated, refuted) — A map derived from a [DefaultMap] does not
    carry its name: filtering the map named ["scores"] returns a map
    without name. *)
Lemma C7_defaultmap_filter_drops_the_name :
  ¬ (∀ (this : Data_Map_DefaultMap.DefaultMap string Z)
       (fn : @Data_Map_DefaultMap.Callback string Z bool)
       (h : Store string Z) (m' : Data_Map_DefaultMap.DefaultMap string Z),
       is_Some (h !! Data_Map_HashMap.internalMap
                       (Data_Map_DefaultMap.internalMap this)) →
       result (Data_Map_DefaultMap.filter JSON_parse JSON_stringify this fn h)
       = Ok m' →
       Data_Map_DefaultMap.name m' = Data_Map_DefaultMap.name this).
Proof.
  intros Hc.
  specialize
    (Hc (Data_Map_DefaultMap.new_DefaultMap
           (Data_Map_HashMap.new_HashMap 0%nat untag tag) (λ _ _ _, 0)
           (Some "scores"))
        (λ _ _ _ _ _, true)
        {[ 0%nat := [("id:a", 1)] ]}
        (Data_Map_DefaultMap.new_DefaultMap
           (Data_Map_HashMap.new_HashMap 1%nat untag tag) (λ _ _ _, 0) None)).
  cbn [Data_Map_DefaultMap.name] in Hc.
  assert (None = Some "scores") as Habs; [|discriminate Habs].
  apply Hc; [by eexists | reflexivity].
Qed.

(** C7 — [filter], [map], [mapKeys] and [mapValues] do not write to the map
    they are called on: it yields the same entries afterwards, and every
    native map of the store is as it was.  Each returns a new map over a
    new native map, with the hashing function and the name of the source
    ([Data/HashMap.ts]), with its [deserializeKey] and [serializeKey]
    ([Data/Map/HashMap.ts]), and with these and its default-value
    generator ([DefaultMap]). *)
Theorem C7_derivations_leave_the_source_alone :
  (∀ (K V HK Ev : Type) (EqHK : EqDecision HK)
     (this : Data_HashMap.HashMap K V HK) (h : Store HK V),
     is_Some (h !! Data_HashMap._map this) →
     (∀ fn, hashmap_derived this h (Data_HashMap.filter (Ev:=Ev) this fn h))
     ∧ (∀ fn, hashmap_derived this h (Data_HashMap.map (Ev:=Ev) this fn h))
     ∧ (∀ fn,
          hashmap_derived this h (Data_HashMap.mapKeys (Ev:=Ev) this fn h))
     ∧ (∀ fn,
          hashmap_derived this h (Data_HashMap.mapValues (Ev:=Ev) this fn h)))
  ∧ (∀ (K V Ev : Type) (JSON_parse : string → K) (JSON_stringify : K → string)
       (this : Data_Map_HashMap.HashMap K V) (h : Store string V),
       is_Some (h !! Data_Map_HashMap.internalMap this) →
       (∀ fn, serialmap_derived this h
                (Data_Map_HashMap.filter (Ev:=Ev) JSON_parse JSON_stringify
                   this fn h))
       ∧ (∀ fn, serialmap_derived this h
                  (Data_Map_HashMap.map (Ev:=Ev) JSON_parse JSON_stringify
                     this fn h))
       ∧ (∀ fn, serialmap_derived this h
                  (Data_Map_HashMap.mapKeys (Ev:=Ev) JSON_parse JSON_stringify
                     this fn h))
       ∧ (∀ fn, serialmap_derived this h
                  (Data_Map_HashMap.mapValues (Ev:=Ev)
                     JSON_parse JSON_stringify this fn h)))
  ∧ (∀ (K V : Type) (JSON_parse : string → K) (JSON_stringify : K → string)
       (this : Data_Map_DefaultMap.DefaultMap K V) (h : Store string V),
       is_Some (h !! Data_Map_HashMap.internalMap
                       (Data_Map_DefaultMap.internalMap this)) →
       (∀ fn, defaultmap_derived this h
                (Data_Map_DefaultMap.filter JSON_parse JSON_stringify
                   this fn h))
       ∧ (∀ fn, defaultmap_derived this h
                  (Data_Map_DefaultMap.map JSON_parse JSON_stringify
                     this fn h))
       ∧ (∀ fn, defaultmap_derived this h
                  (Data_Map_DefaultMap.mapKeys JSON_parse JSON_stringify
                     this fn h))
       ∧ (∀ fn, defaultmap_derived this h
                  (Data_Map_DefaultMap.mapValues JSON_parse JSON_stringify
                     this fn h))).
Proof.
  split_and!.
  - intros * Hal. split_and!; intros fn.
    + rewrite hashmap_filter_run. by apply hashmap_built_derived.
    + rewrite hashmap_map_run. by apply hashmap_built_derived.
    + rewrite hashmap_mapKeys_run. by apply hashmap_built_derived.
    + rewrite hashmap_mapValues_run. by apply hashmap_built_derived.
  - intros * Hal. split_and!; intros fn.
    + rewrite serialmap_filter_run. by apply serialmap_built_derived.
    + rewrite serialmap_map_run. by apply serialmap_built_derived.
    + rewrite serialmap_mapKeys_run. by apply serialmap_built_derived.
    + rewrite serialmap_mapValues_run. by apply serialmap_built_derived.
  - intros * Hal. split_and!; intros fn.
    + rewrite defaultmap_filter_run. by apply defaultmap_built_derived.
    + rewrite defaultmap_map_run. by apply defaultmap_built_derived.
    + rewrite defaultmap_mapKeys_run. by apply defaultmap_built_derived.
    + rewrite defaultmap_mapValues_run. by apply defaultmap_built_derived.
Qed.

(** Filtering the map of the tests, and mapping the values of the map named
    ["scores"]. *)
Lemma C7_witness :
  let m1 := Data_HashMap.new_HashMap (V:=string) identity 0%nat "unknown" in
  let h1 : Store Z string :=
    {[ 0%nat := [(1, "one"); (2, "two"); (3, "three"); (4, "four")] ]} in
  let m2 := Data_Map_HashMap.new_HashMap (V:=Z) 0%nat untag tag in
  let m3 := Data_Map_DefaultMap.new_DefaultMap m2 (λ _ _ _, 0)
              (Some "scores") in
  let h2 : Store string Z := {[ 0%nat := [("id:a", 1); ("id:b", 2)] ]} in
  hashmap_derived m1 h1
    (Data_HashMap.filter (Ev:=unit) m1
       (λ value _ _ _ _, bool_decide (3 < String.length value)%nat) h1)
  ∧ serialmap_derived m2 h2
      (Data_Map_HashMap.mapKeys (Ev:=unit) JSON_parse JSON_stringify m2
         (λ key _ _ _ _, key +:+ "!") h2)
  ∧ defaultmap_derived m3 h2
      (Data_Map_DefaultMap.mapValues JSON_parse JSON_stringify m3
         (λ value _ _ _ _, value + 1) h2).
Proof.
  intros m1 h1 m2 m3 h2.
  destruct C7_derivations_leave_the_source_alone as (H1 & H2 & H3).
  destruct (H1 Z string Z unit _ m1 h1) as (Hfilter & _).
  { eexists. reflexivity. }
  destruct (H2 string Z unit JSON_parse JSON_stringify m2 h2)
    as (_ & _ & HmapKeys & _).
  { eexists. reflexivity. }
  destruct (H3 string Z JSON_parse JSON_stringify m3 h2)
    as (_ & _ & _ & HmapValues).
  { eexists. reflexivity. }
  split; [apply Hfilter | split; [apply HmapKeys | apply HmapValues]].
Defined.


(** * Further properties of the classes *)

(** ** More on the native [Map] *)

Section MoreJsMapFacts.
Import JsMap.
Context {K V : Type} `{EqDecision K}.
Implicit Types (es : list (K * V)) (k : K) (v : V).

Lemma get_set es k k' v :
  get (set es k v) k' = if decide (k = k') then Some v else get es k'.
Proof.
  destruct (decide (k = k')) as [<-|Hne].
  - apply JsMapFacts.get_set_eq.
  - by apply JsMapFacts.get_set_ne.
Qed.

(** Looking up in [new Map(l)] finds what the last pair under the key
    wrote. *)
Lemma get_of_entries (l : list (K * V)) k :
  get (of_entries l) k = last_written l k.
Proof.
  unfold last_written. induction l as [|[k' v] l IH] using rev_ind; [done|].
  rewrite JsMapFacts.of_entries_snoc, get_set, reverse_snoc. simpl.
  destruct (decide (k' = k)); [done|]. apply IH.
Qed.

Lemma has_of_entries (l : list (K * V)) k :
  has (of_entries l) k = bool_decide (k ∈ l.*1).
Proof.
  induction l as [|[k' v] l IH] using rev_ind.
  - symmetry. apply bool_decide_eq_false_2. by intros ?%elem_of_nil.
  - rewrite JsMapFacts.of_entries_snoc, fmap_app. csimpl.
    destruct (decide (k' = k)) as [->|Hne].
    + rewrite JsMapFacts.has_set_eq, bool_decide_eq_true_2; [done|].
      apply elem_of_app. right. by apply list_elem_of_singleton.
    + rewrite JsMapFacts.has_set_ne, IH by done.
      apply bool_decide_ext. rewrite elem_of_app, list_elem_of_singleton.
      split; [auto | intros [?|?]; [done | congruence]].
Qed.

Lemma set_set es k v1 v2 : set (set es k v1) k v2 = set es k v2.
Proof.
  induction es as [|[k' v'] r IH]; simpl.
  - by rewrite decide_True.
  - destruct (decide (k' = k)) as [->|Hne]; simpl.
    + by rewrite decide_True.
    + by rewrite decide_False, IH.
Qed.

Lemma delete_set_absent es k v : has es k = false → delete (set es k v) k = es.
Proof.
  intros Hk. rewrite JsMapFacts.set_fresh by done. unfold delete.
  rewrite filter_app. fold (delete es k).
  rewrite JsMapFacts.delete_absent by done.
  rewrite filter_cons_False, filter_nil, app_nil_r; [done|].
  simpl. by intros ?.
Qed.

(** Deleting a key that is present takes out one entry and leaves the
    others in their order. *)
Lemma delete_split es k v :
  wf es → get es k = Some v →
  ∃ l1 l2, es = l1 ++ (k, v) :: l2 ∧ delete es k = l1 ++ l2.
Proof.
  unfold wf, delete. induction es as [|[k' v'] r IH]; csimpl; [done|].
  intros [Hk' Hr]%NoDup_cons. destruct (decide (k' = k)) as [->|Hne].
  - intros [= ->]. exists [], r. split; [done|].
    rewrite filter_cons_False by (simpl; by intros ?). simpl.
    fold (delete r k). apply JsMapFacts.delete_absent.
    by apply JsMapFacts.has_false_not_elem_of.
  - intros Hg. destruct (IH Hr Hg) as (l1 & l2 & -> & Hd).
    exists ((k', v') :: l1), l2. split; [done|].
    rewrite filter_cons_True by done. simpl. by rewrite Hd.
Qed.
End MoreJsMapFacts.

(** ** [clear] *)

(** X1 — [clear] empties the native map of the map it is called on and
    writes nowhere else: afterwards [entries()] yields nothing, [has] is
    [false] and [getOr] returns the fallback for every key, and [get] of
    either [HashMap] throws. *)
Theorem X1_clear_empties_the_map :
  (∀ (K V HK Ev : Type) (EqHK : EqDecision HK) (TV : Truthy V)
     (this : Data_HashMap.HashMap K V HK) (h : Store HK V),
     let h' : Store HK V := <[Data_HashMap._map this := []]> h in
     Data_HashMap.clear (Ev:=Ev) this h = MkOutcome (Ok ()) h' []
     ∧ same_elsewhere (Data_HashMap._map this) h h'
     ∧ Data_HashMap.entries (Ev:=Ev) this h' = MkOutcome (Ok []) h' []
     ∧ ∀ (key : K) (D : Type) (d : D),
         Data_HashMap.has (Ev:=Ev) this key h' = MkOutcome (Ok false) h' []
         ∧ Data_HashMap.getOr (Ev:=Ev) this key d h'
           = MkOutcome (Ok (inr d)) h' []
         ∧ Data_HashMap.get (Ev:=Ev) this key h'
           = MkOutcome
               (Throw (Data_HashMap.new_HashMapMissingKeyError this key))
               h' [])
  ∧ (∀ (K V Ev : Type) (TV : Truthy V)
       (this : Data_Map_HashMap.HashMap K V) (h : Store string V),
       let h' : Store string V :=
         <[Data_Map_HashMap.internalMap this := []]> h in
       Data_Map_HashMap.clear (Ev:=Ev) this h = MkOutcome (Ok ()) h' []
       ∧ same_elsewhere (Data_Map_HashMap.internalMap this) h h'
       ∧ Data_Map_HashMap.entries (Ev:=Ev) this h' = MkOutcome (Ok []) h' []
       ∧ ∀ (key : K) (D : Type) (d : D),
           Data_Map_HashMap.has (Ev:=Ev) this key h'
           = MkOutcome (Ok false) h' []
           ∧ Data_Map_HashMap.getOr (Ev:=Ev) this key d h'
             = MkOutcome (Ok (inr d)) h' []
           ∧ Data_Map_HashMap.get (Ev:=Ev) this key h'
             = MkOutcome (Throw (new_MissingKeyError this key)) h' [])
  ∧ (∀ (K V : Type) (TV : Truthy V)
       (this : Data_Map_DefaultMap.DefaultMap K V) (h : Store string V),
       let l := Data_Map_HashMap.internalMap
                  (Data_Map_DefaultMap.internalMap this) in
       let h' : Store string V := <[l := []]> h in
       Data_Map_DefaultMap.clear this h = MkOutcome (Ok ()) h' []
       ∧ same_elsewhere l h h'
       ∧ Data_Map_DefaultMap.entries this h' = MkOutcome (Ok []) h' []
       ∧ ∀ (key : K) (D : Type) (d : D),
           Data_Map_DefaultMap.has this key h' = MkOutcome (Ok false) h' []
           ∧ Data_Map_DefaultMap.getOr this key d h'
             = MkOutcome (Ok (inr d)) h' []).
Proof.
  split_and!.
  - intros. unfold_lets. split_and!; [done| | |].
    + intros l' Hl'. by rewrite lookup_insert_ne.
    + unfold Data_HashMap.entries. run_eff. by rewrite contents_insert_eq.
    + intros key D d.
      rewrite Data_HashMap_Facts.hashmap_has_run,
        Data_HashMap_Facts.hashmap_getOr_run,
        Data_HashMap_Facts.hashmap_get_run.
      unfold Data_HashMap.stored. by rewrite contents_insert_eq.
  - intros. unfold_lets. split_and!; [done| | |].
    + intros l' Hl'. by rewrite lookup_insert_ne.
    + unfold Data_Map_HashMap.entries. run_eff.
      by rewrite contents_insert_eq.
    + intros key D d.
      rewrite Data_Map_HashMap_Facts.serialmap_has_run,
        Data_Map_HashMap_Facts.serialmap_getOr_run,
        Data_Map_HashMap_Facts.serialmap_get_run.
      unfold Data_Map_HashMap.stored. by rewrite contents_insert_eq.
  - intros. unfold_lets. split_and!; [done| | |].
    + intros l' Hl'. by rewrite lookup_insert_ne.
    + unfold Data_Map_DefaultMap.entries, Data_Map_HashMap.entries. run_eff.
      by rewrite contents_insert_eq.
    + intros key D d.
      rewrite Data_Map_DefaultMap_Facts.defaultmap_has_run,
        Data_Map_DefaultMap_Facts.defaultmap_getOr_run.
      unfold Data_Map_DefaultMap.stored, Data_Map_HashMap.stored.
      by rewrite contents_insert_eq.
Qed.

(** ** The factories *)

Lemma fresh_lookup_None {HK V} (h : Store HK V) : h !! fresh (dom h) = None.
Proof. apply (not_elem_of_dom (D:=gset nat)), is_fresh. Qed.

Lemma same_elsewhere_insert {HK V} (h : Store HK V) l es :
  same_elsewhere l h (<[l := es]> h).
Proof. intros l' Hl'. by rewrite lookup_insert_ne. Qed.

(** X2 — [empty] and [emptyWithCustomHash] return a map over a native map
    that was not in the store, leave the rest of the store as it was, and
    the map has no entry.  The hashing function is [identity] (resp. the
    one given) and the name is the one given or ["unknown"]; in
    [Data/Map/HashMap.ts] the functions are the ones given or [JSON.parse]
    and [JSON.stringify]; the [DefaultMap] has the generator given and no
    name. *)
Theorem X2_empty_factories :
  (∀ (K V Ev : Type) (EqK : EqDecision K) (name : option string)
     (h : Store K V),
     let o := Data_HashMap.empty (Ev:=Ev) name h in
     ∃ m, o = MkOutcome (Ok m) (<[Data_HashMap._map m := []]> h) []
          ∧ h !! Data_HashMap._map m = None
          ∧ Data_HashMap.hash m = identity
          ∧ Data_HashMap.name m = default "unknown" name
          ∧ Data_HashMap.entries (Ev:=Ev) m (store o)
            = MkOutcome (Ok []) (store o) [])
  ∧ (∀ (K V HK Ev : Type) (EqHK : EqDecision HK) (onHash : K → HK)
       (name : option string) (h : Store HK V),
       let o := Data_HashMap.emptyWithCustomHash (Ev:=Ev) onHash name h in
       ∃ m, o = MkOutcome (Ok m) (<[Data_HashMap._map m := []]> h) []
            ∧ h !! Data_HashMap._map m = None
            ∧ Data_HashMap.hash m = onHash
            ∧ Data_HashMap.name m = default "unknown" name
            ∧ Data_HashMap.entries (Ev:=Ev) m (store o)
              = MkOutcome (Ok []) (store o) [])
  ∧ (∀ (K V Ev : Type) (JSON_parse : string → K) (JSON_stringify : K → string)
       (deserializeKey : option (string → K))
       (serializeKey : option (K → string)) (h : Store string V),
       let o := Data_Map_HashMap.empty (Ev:=Ev) JSON_parse JSON_stringify
                  deserializeKey serializeKey h in
       ∃ m, o = MkOutcome (Ok m)
                  (<[Data_Map_HashMap.internalMap m := []]> h) []
            ∧ h !! Data_Map_HashMap.internalMap m = None
            ∧ Data_Map_HashMap.deserializeKey m
              = default JSON_parse deserializeKey
            ∧ Data_Map_HashMap.serializeKey m
              = default JSON_stringify serializeKey
            ∧ Data_Map_HashMap.entries (Ev:=Ev) m (store o)
              = MkOutcome (Ok []) (store o) [])
  ∧ (∀ (K V : Type) (JSON_parse : string → K) (JSON_stringify : K → string)
       (defaultValue : K → Data_Map_HashMap.HashMap K V → Store string V → V)
       (deserializeKey : option (string → K))
       (serializeKey : option (K → string)) (h : Store string V),
       let o := Data_Map_DefaultMap.empty JSON_parse JSON_stringify
                  defaultValue deserializeKey serializeKey h in
       ∃ m, let inner := Data_Map_DefaultMap.internalMap m in
            o = MkOutcome (Ok m)
                  (<[Data_Map_HashMap.internalMap inner := []]> h) []
            ∧ h !! Data_Map_HashMap.internalMap inner = None
            ∧ Data_Map_DefaultMap.defaultValue m = defaultValue
            ∧ Data_Map_DefaultMap.name m = None
            ∧ Data_Map_HashMap.deserializeKey inner
              = default JSON_parse deserializeKey
            ∧ Data_Map_HashMap.serializeKey inner
              = default JSON_stringify serializeKey
            ∧ Data_Map_DefaultMap.entries m (store o)
              = MkOutcome (Ok []) (store o) []).
Proof.
  split_and!; intros; unfold_lets;
    unfold Data_HashMap.empty, Data_HashMap.emptyWithCustomHash,
      Data_Map_HashMap.empty, Data_Map_DefaultMap.empty,
      Data_Map_DefaultMap.fromEntries;
    run_eff; eexists;
    (split; [f_equal; reflexivity|]); cbn [Data_HashMap._map Data_HashMap.hash
      Data_HashMap.name Data_Map_HashMap.internalMap
      Data_Map_HashMap.deserializeKey Data_Map_HashMap.serializeKey
      Data_Map_DefaultMap.internalMap Data_Map_DefaultMap.defaultValue
      Data_Map_DefaultMap.name];
    split_and!; try done; try apply fresh_lookup_None.
  - unfold Data_HashMap.entries. run_eff. by rewrite contents_insert_eq.
  - unfold Data_HashMap.entries. run_eff. by rewrite contents_insert_eq.
  - unfold Data_Map_HashMap.entries. run_eff. by rewrite contents_insert_eq.
  - unfold Data_Map_DefaultMap.entries, Data_Map_HashMap.entries. run_eff.
    by rewrite contents_insert_eq.
Qed.

Lemma fmap_pair_id {A B} (l : list (A * B)) :
  (λ '(key, value), (key, value)) <$> l = l.
Proof.
  induction l as [|[a b] l IH]; csimpl; [done|]. by rewrite IH.
Qed.

(** X3 — A map built by [fromEntries] or [fromCustomEntries] sits on a
    native map that was not in the store, and the rest of the store is
    untouched.  Under each key it holds the value of the last entry given
    whose hashed (resp. serialized) key is that of the key: later entries
    overwrite earlier ones.  [has] is [true] exactly for the keys whose
    hashed (resp. serialized) form occurs among those of the entries. *)
Theorem X3_fromEntries_last_entry_wins :
  (∀ (K V HK Ev : Type) (EqHK : EqDecision HK) (entries : list (K * V))
     (onHash : K → HK) (name : option string) (h : Store HK V) (key : K),
     let hashed := (λ '(k, v), (onHash k, v)) <$> entries in
     let o := Data_HashMap.fromCustomEntries (Ev:=Ev) entries onHash name h in
     ∃ m, result o = Ok m ∧ calls o = []
          ∧ h !! Data_HashMap._map m = None
          ∧ same_elsewhere (Data_HashMap._map m) h (store o)
          ∧ Data_HashMap.hash m = onHash
          ∧ Data_HashMap.name m = default "unknown" name
          ∧ Data_HashMap.stored m key (store o)
            = last_written hashed (onHash key)
          ∧ Data_HashMap.has (Ev:=Ev) m key (store o)
            = MkOutcome (Ok (bool_decide (onHash key ∈ hashed.*1)))
                (store o) [])
  ∧ (∀ (K V Ev : Type) (EqK : EqDecision K) (entries : list (K * V))
       (name : option string) (h : Store K V) (key : K),
       let o := Data_HashMap.fromEntries (Ev:=Ev) entries name h in
       ∃ m, result o = Ok m ∧ calls o = []
            ∧ h !! Data_HashMap._map m = None
            ∧ same_elsewhere (Data_HashMap._map m) h (store o)
            ∧ Data_HashMap.hash m = identity
            ∧ Data_HashMap.name m = default "unknown" name
            ∧ Data_HashMap.stored m key (store o) = last_written entries key
            ∧ Data_HashMap.has (Ev:=Ev) m key (store o)
              = MkOutcome (Ok (bool_decide (key ∈ entries.*1))) (store o) [])
  ∧ (∀ (K V Ev : Type) (JSON_parse : string → K) (JSON_stringify : K → string)
       (entries : list (K * V)) (deserializeKey : option (string → K))
       (serializeKey : option (K → string)) (h : Store string V) (key : K),
       let serialize := default JSON_stringify serializeKey in
       let serialized := (λ '(k, v), (serialize k, v)) <$> entries in
       let o := Data_Map_HashMap.fromEntries (Ev:=Ev) JSON_parse
                  JSON_stringify entries deserializeKey serializeKey h in
       ∃ m, result o = Ok m ∧ calls o = []
            ∧ h !! Data_Map_HashMap.internalMap m = None
            ∧ same_elsewhere (Data_Map_HashMap.internalMap m) h (store o)
            ∧ Data_Map_HashMap.deserializeKey m
              = default JSON_parse deserializeKey
            ∧ Data_Map_HashMap.serializeKey m = serialize
            ∧ Data_Map_HashMap.stored m key (store o)
              = last_written serialized (serialize key)
            ∧ Data_Map_HashMap.has (Ev:=Ev) m key (store o)
              = MkOutcome (Ok (bool_decide (serialize key ∈ serialized.*1)))
                  (store o) [])
  ∧ (∀ (K V : Type) (JSON_parse : string → K) (JSON_stringify : K → string)
       (entries : list (K * V))
       (defaultValue : K → Data_Map_HashMap.HashMap K V → Store string V → V)
       (deserializeKey : option (string → K))
       (serializeKey : option (K → string)) (h : Store string V) (key : K),
       let serialize := default JSON_stringify serializeKey in
       let serialized := (λ '(k, v), (serialize k, v)) <$> entries in
       let o := Data_Map_DefaultMap.fromEntries JSON_parse JSON_stringify
                  entries defaultValue deserializeKey serializeKey h in
       ∃ m, let inner := Data_Map_DefaultMap.internalMap m in
            result o = Ok m ∧ calls o = []
            ∧ h !! Data_Map_HashMap.internalMap inner = None
            ∧ same_elsewhere (Data_Map_HashMap.internalMap inner) h (store o)
            ∧ Data_Map_DefaultMap.defaultValue m = defaultValue
            ∧ Data_Map_DefaultMap.name m = None
            ∧ Data_Map_HashMap.deserializeKey inner
              = default JSON_parse deserializeKey
            ∧ Data_Map_HashMap.serializeKey inner = serialize
            ∧ Data_Map_DefaultMap.stored m key (store o)
              = last_written serialized (serialize key)
            ∧ Data_Map_DefaultMap.has m key (store o)
              = MkOutcome (Ok (bool_decide (serialize key ∈ serialized.*1)))
                  (store o) []).
Proof.
  split_and!; intros; unfold_lets;
    unfold Data_HashMap.fromCustomEntries, Data_HashMap.fromEntries,
      Data_Map_HashMap.fromEntries, Data_Map_DefaultMap.fromEntries;
    run_eff; eexists; (split; [reflexivity|]);
    cbn [Data_HashMap._map Data_HashMap.hash
      Data_HashMap.name Data_Map_HashMap.internalMap
      Data_Map_HashMap.deserializeKey Data_Map_HashMap.serializeKey
      Data_Map_DefaultMap.internalMap Data_Map_DefaultMap.defaultValue
      Data_Map_DefaultMap.name];
    split_and!; try done; try apply fresh_lookup_None;
    try apply same_elsewhere_insert.
  - unfold Data_HashMap.stored. cbn. rewrite contents_insert_eq.
    apply get_of_entries.
  - unfold Data_HashMap.has. run_eff.
    by rewrite contents_insert_eq, has_of_entries.
  - unfold Data_HashMap.stored. cbn. rewrite contents_insert_eq.
    by rewrite get_of_entries, fmap_pair_id.
  - unfold Data_HashMap.has. run_eff.
    by rewrite contents_insert_eq, has_of_entries, fmap_pair_id.
  - unfold Data_Map_HashMap.stored. cbn. rewrite contents_insert_eq.
    apply get_of_entries.
  - unfold Data_Map_HashMap.has. run_eff.
    by rewrite contents_insert_eq, has_of_entries.
  - unfold Data_Map_DefaultMap.stored, Data_Map_HashMap.stored. cbn.
    rewrite contents_insert_eq. apply get_of_entries.
  - unfold Data_Map_DefaultMap.has, Data_Map_HashMap.has. run_eff.
    by rewrite contents_insert_eq, has_of_entries.
Qed.

Lemma fmap_key_fst {A A' B} (f : A → A') (l : list (A * B)) :
  ((λ '(key, value), (f key, value)) <$> l).*1 = f <$> l.*1.
Proof.
  induction l as [|[a b] l IH]; csimpl; [done|]. by rewrite IH.
Qed.

Lemma fmap_key_snd {A A' B} (f : A → A') (l : list (A * B)) :
  ((λ '(key, value), (f key, value)) <$> l).*2 = l.*2.
Proof.
  induction l as [|[a b] l IH]; csimpl; [done|]. by rewrite IH.
Qed.

Lemma fmap_key_round_trip {A A' B} (f : A → A') (g : A' → A)
    (l : list (A * B)) :
  (∀ a, a ∈ l.*1 → g (f a) = a) →
  (λ '(key, value), (g key, value)) <$> ((λ '(key, value), (f key, value)) <$> l)
  = l.
Proof.
  induction l as [|[a b] l IH]; csimpl; [done|]. intros Hrt.
  rewrite Hrt by (apply elem_of_cons; by left). f_equal. apply IH.
  intros a' Ha'. apply Hrt. apply elem_of_cons. by right.
Qed.

(** X4 — Round trip through the factories.  When the hashed keys of the
    entries given are pairwise different, [entries()] of the map built
    yields the entries given, keys hashed, in the order given.  In the
    classes with serialized keys, when moreover [deserializeKey] undoes
    [serializeKey] on the keys given, [entries()] yields the very entries
    given. *)
Theorem X4_fromEntries_round_trip :
  (∀ (K V HK Ev : Type) (EqHK : EqDecision HK) (entries : list (K * V))
     (onHash : K → HK) (name : option string) (h : Store HK V),
     let o := Data_HashMap.fromCustomEntries (Ev:=Ev) entries onHash name h in
     NoDup (onHash <$> entries.*1) →
     ∃ m, result o = Ok m
          ∧ Data_HashMap.entries (Ev:=Ev) m (store o)
            = MkOutcome (Ok ((λ '(k, v), (onHash k, v)) <$> entries))
                (store o) [])
  ∧ (∀ (K V Ev : Type) (EqK : EqDecision K) (entries : list (K * V))
       (name : option string) (h : Store K V),
       let o := Data_HashMap.fromEntries (Ev:=Ev) entries name h in
       NoDup entries.*1 →
       ∃ m, result o = Ok m
            ∧ Data_HashMap.entries (Ev:=Ev) m (store o)
              = MkOutcome (Ok entries) (store o) [])
  ∧ (∀ (K V Ev : Type) (JSON_parse : string → K) (JSON_stringify : K → string)
       (entries : list (K * V)) (deserializeKey : option (string → K))
       (serializeKey : option (K → string)) (h : Store string V),
       let serialize := default JSON_stringify serializeKey in
       let deserialize := default JSON_parse deserializeKey in
       let o := Data_Map_HashMap.fromEntries (Ev:=Ev) JSON_parse
                  JSON_stringify entries deserializeKey serializeKey h in
       NoDup (serialize <$> entries.*1) →
       (∀ k, k ∈ entries.*1 → deserialize (serialize k) = k) →
       ∃ m, result o = Ok m
            ∧ Data_Map_HashMap.entries (Ev:=Ev) m (store o)
              = MkOutcome (Ok entries) (store o) [])
  ∧ (∀ (K V : Type) (JSON_parse : string → K) (JSON_stringify : K → string)
       (entries : list (K * V))
       (defaultValue : K → Data_Map_HashMap.HashMap K V → Store string V → V)
       (deserializeKey : option (string → K))
       (serializeKey : option (K → string)) (h : Store string V),
       let serialize := default JSON_stringify serializeKey in
       let deserialize := default JSON_parse deserializeKey in
       let o := Data_Map_DefaultMap.fromEntries JSON_parse JSON_stringify
                  entries defaultValue deserializeKey serializeKey h in
       NoDup (serialize <$> entries.*1) →
       (∀ k, k ∈ entries.*1 → deserialize (serialize k) = k) →
       ∃ m, result o = Ok m
            ∧ Data_Map_DefaultMap.entries m (store o)
              = MkOutcome (Ok entries) (store o) []).
Proof.
  split_and!.
  - intros * Hnd. unfold_lets. unfold Data_HashMap.fromCustomEntries.
    run_eff. eexists. split; [reflexivity|].
    unfold Data_HashMap.entries. run_eff. rewrite contents_insert_eq.
    rewrite JsMapFacts.of_entries_NoDup; [done|]. by rewrite fmap_key_fst.
  - intros * Hnd. unfold_lets. unfold Data_HashMap.fromEntries.
    run_eff. eexists. split; [reflexivity|].
    unfold Data_HashMap.entries. run_eff.
    rewrite contents_insert_eq, fmap_pair_id.
    by rewrite JsMapFacts.of_entries_NoDup.
  - intros * Hnd Hrt. unfold_lets. unfold Data_Map_HashMap.fromEntries.
    run_eff. eexists. split; [reflexivity|].
    unfold Data_Map_HashMap.entries. run_eff. rewrite contents_insert_eq.
    rewrite JsMapFacts.of_entries_NoDup by (by rewrite fmap_key_fst).
    by rewrite fmap_key_round_trip.
  - intros * Hnd Hrt. unfold_lets. unfold Data_Map_DefaultMap.fromEntries.
    run_eff. eexists. split; [reflexivity|].
    unfold Data_Map_DefaultMap.entries, Data_Map_HashMap.entries. run_eff.
    rewrite contents_insert_eq.
    rewrite JsMapFacts.of_entries_NoDup by (by rewrite fmap_key_fst).
    by rewrite fmap_key_round_trip.
Qed.

(** The entries of the tests; for the serialized keys, [tag] and [untag]. *)
Lemma X4_witness :
  let es1 : list (Z * string) := [(1, "one"); (2, "two"); (3, "three")] in
  let es2 : list (string * Z) := [("a", 1); ("b", 2)] in
  let o1 := Data_HashMap.fromCustomEntries (Ev:=unit) es1 (λ k, k * 10)
              None ∅ in
  let o2 := Data_HashMap.fromEntries (Ev:=unit) es1 None ∅ in
  let o3 := Data_Map_HashMap.fromEntries (Ev:=unit) JSON_parse JSON_stringify
              es2 (Some untag) (Some tag) ∅ in
  let o4 := Data_Map_DefaultMap.fromEntries JSON_parse JSON_stringify
              es2 (λ _ _ _, 0) (Some untag) (Some tag) ∅ in
  (∃ m, result o1 = Ok m
        ∧ Data_HashMap.entries (Ev:=unit) m (store o1)
          = MkOutcome (Ok [(10, "one"); (20, "two"); (30, "three")])
              (store o1) [])
  ∧ (∃ m, result o2 = Ok m
          ∧ Data_HashMap.entries (Ev:=unit) m (store o2)
            = MkOutcome (Ok es1) (store o2) [])
  ∧ (∃ m, result o3 = Ok m
          ∧ Data_Map_HashMap.entries (Ev:=unit) m (store o3)
            = MkOutcome (Ok es2) (store o3) [])
  ∧ (∃ m, result o4 = Ok m
          ∧ Data_Map_DefaultMap.entries m (store o4)
            = MkOutcome (Ok es2) (store o4) []).
Proof.
  intros es1 es2 o1 o2 o3 o4.
  destruct X4_fromEntries_round_trip as (H1 & H2 & H3 & H4).
  assert (∀ k, k ∈ ["a"; "b"] → untag (tag k) = k) as Hrt.
  { intros k Hk. rewrite !elem_of_cons, elem_of_nil in Hk.
    destruct Hk as [->|[->|[]]]; reflexivity. }
  split_and!.
  - apply (H1 Z string Z unit _ es1 (λ k, k * 10) None ∅).
    apply (bool_decide_unpack _). by vm_compute.
  - apply (H2 Z string unit _ es1 None ∅).
    apply (bool_decide_unpack _). by vm_compute.
  - apply (H3 string Z unit JSON_parse JSON_stringify es2
             (Some untag) (Some tag) ∅).
    + apply (bool_decide_unpack _). by vm_compute.
    + exact Hrt.
  - apply (H4 string Z JSON_parse JSON_stringify es2 (λ _ _ _, 0)
             (Some untag) (Some tag) ∅).
    + apply (bool_decide_unpack _). by vm_compute.
    + exact Hrt.
Defined.

(** ** [has], [set] and [delete] on one key *)

Lemma has_bool_decide {K V} `{EqDecision K} (es : list (K * V)) (k : K) :
  JsMap.has es k = bool_decide (k ∈ es.*1).
Proof.
  destruct (JsMap.has es k) eqn:Hk; symmetry.
  - by apply bool_decide_eq_true_2, JsMapFacts.has_elem_of.
  - by apply bool_decide_eq_false_2, JsMapFacts.has_false_not_elem_of.
Qed.

(** X5 — [has(key)] is [true] exactly when the hashed key is among the
    keys [keys()] yields ([Data/HashMap.ts]), resp. when the serialized
    key is among those [serializedKeys()] yields ([Data/Map/HashMap.ts],
    [DefaultMap]). *)
Theorem X5_has_agrees_with_the_keys :
  (∀ (K V HK Ev : Type) (EqHK : EqDecision HK)
     (this : Data_HashMap.HashMap K V HK) (key : K) (h : Store HK V),
     ∃ ks, Data_HashMap.keys (Ev:=Ev) this h = MkOutcome (Ok ks) h []
           ∧ Data_HashMap.has (Ev:=Ev) this key h
             = MkOutcome
                 (Ok (bool_decide (Data_HashMap.hash this key ∈ ks))) h [])
  ∧ (∀ (K V Ev : Type)
       (this : Data_Map_HashMap.HashMap K V) (key : K) (h : Store string V),
       ∃ ks, Data_Map_HashMap.serializedKeys (Ev:=Ev) this h
             = MkOutcome (Ok ks) h []
             ∧ Data_Map_HashMap.has (Ev:=Ev) this key h
               = MkOutcome
                   (Ok (bool_decide
                          (Data_Map_HashMap.serializeKey this key ∈ ks)))
                   h [])
  ∧ (∀ (K V : Type)
       (this : Data_Map_DefaultMap.DefaultMap K V) (key : K)
       (h : Store string V),
       ∃ ks, Data_Map_DefaultMap.serializedKeys this h
             = MkOutcome (Ok ks) h []
             ∧ Data_Map_DefaultMap.has this key h
               = MkOutcome
                   (Ok (bool_decide
                          (Data_Map_DefaultMap.serializeKey this key ∈ ks)))
                   h []).
Proof.
  split_and!; intros; eexists; (split; [reflexivity|]).
  - unfold Data_HashMap.has, Data_HashMap.hashKey. run_eff.
    by rewrite has_bool_decide.
  - unfold Data_Map_HashMap.has. run_eff. by rewrite has_bool_decide.
  - unfold Data_Map_DefaultMap.has, Data_Map_HashMap.has. run_eff.
    by rewrite has_bool_decide.
Qed.

(** X6 — [set] overwrites: writing under a key whose hashed (resp.
    serialized) form is that of the key written just before leaves the
    store as if only the second write had been made, so no second entry
    appears. *)
Theorem X6_set_overwrites :
  (∀ (K V HK Ev : Type) (EqHK : EqDecision HK)
     (this : Data_HashMap.HashMap K V HK) (k1 k2 : K) (v1 v2 : V)
     (h : Store HK V),
     Data_HashMap.hash this k1 = Data_HashMap.hash this k2 →
     Data_HashMap.set (Ev:=Ev) this k2 v2
       (store (Data_HashMap.set (Ev:=Ev) this k1 v1 h))
     = Data_HashMap.set (Ev:=Ev) this k2 v2 h)
  ∧ (∀ (K V Ev : Type)
       (this : Data_Map_HashMap.HashMap K V) (k1 k2 : K) (v1 v2 : V)
       (h : Store string V),
       Data_Map_HashMap.serializeKey this k1
       = Data_Map_HashMap.serializeKey this k2 →
       Data_Map_HashMap.set (Ev:=Ev) this k2 v2
         (store (Data_Map_HashMap.set (Ev:=Ev) this k1 v1 h))
       = Data_Map_HashMap.set (Ev:=Ev) this k2 v2 h)
  ∧ (∀ (K V : Type)
       (this : Data_Map_DefaultMap.DefaultMap K V) (k1 k2 : K) (v1 v2 : V)
       (h : Store string V),
       Data_Map_DefaultMap.serializeKey this k1
       = Data_Map_DefaultMap.serializeKey this k2 →
       Data_Map_DefaultMap.set this k2 v2
         (store (Data_Map_DefaultMap.set this k1 v1 h))
       = Data_Map_DefaultMap.set this k2 v2 h).
Proof.
  split_and!.
  - intros * Hk. rewrite !Data_HashMap_Facts.hashmap_set_run. cbn [store].
    by rewrite contents_insert_eq, insert_insert_eq, Hk, set_set.
  - intros * Hk. rewrite !Data_Map_HashMap_Facts.serialmap_set_run.
    cbn [store].
    by rewrite contents_insert_eq, insert_insert_eq, Hk, set_set.
  - intros * Hk. rewrite !Data_Map_DefaultMap_Facts.defaultmap_set_run.
    cbn [store]. unfold Data_Map_DefaultMap.store_set.
    by rewrite contents_insert_eq, insert_insert_eq, Hk, set_set.
Qed.

(** Two [Date] objects for one instant; two equal strings. *)
Lemma X6_witness :
  let m1 := Data_HashMap.new_HashMap (V:=Z) Date_toISOString 0%nat "unknown" in
  let m2 := Data_Map_HashMap.new_HashMap (V:=Z) 0%nat untag tag in
  let m3 := Data_Map_DefaultMap.new_DefaultMap m2 (λ _ _ _, 0) None in
  let h : Store string Z := {[ 0%nat := [("id:a", 1)] ]} in
  Data_HashMap.set (Ev:=unit) m1 d2 2
    (store (Data_HashMap.set (Ev:=unit) m1 d1 1 h))
  = Data_HashMap.set (Ev:=unit) m1 d2 2 h
  ∧ Data_Map_HashMap.set (Ev:=unit) m2 "a" 2
      (store (Data_Map_HashMap.set (Ev:=unit) m2 "a" 1 h))
    = Data_Map_HashMap.set (Ev:=unit) m2 "a" 2 h
  ∧ Data_Map_DefaultMap.set m3 "a" 2
      (store (Data_Map_DefaultMap.set m3 "a" 1 h))
    = Data_Map_DefaultMap.set m3 "a" 2 h.
Proof.
  intros m1 m2 m3 h.
  destruct X6_set_overwrites as (H1 & H2 & H3).
  split_and!.
  - apply (H1 Date Z string unit _ m1 d1 d2 1 2 h). reflexivity.
  - apply (H2 string Z unit m2 "a" "a" 1 2 h). reflexivity.
  - apply (H3 string Z m3 "a" "a" 1 2 h). reflexivity.
Defined.

(** X7 — [set] of a key that is absent followed by [delete] of that key
    gives back the store there was: [delete] succeeds and the map is as
    before the two calls. *)
Theorem X7_set_then_delete_restores :
  (∀ (K V HK Ev : Type) (EqHK : EqDecision HK)
     (this : Data_HashMap.HashMap K V HK) (key : K) (v : V) (h : Store HK V),
     is_Some (h !! Data_HashMap._map this) →
     Data_HashMap.stored this key h = None →
     Data_HashMap.delete (Ev:=Ev) this key
       (store (Data_HashMap.set (Ev:=Ev) this key v h))
     = MkOutcome (Ok ()) h [])
  ∧ (∀ (K V Ev : Type)
       (this : Data_Map_HashMap.HashMap K V) (key : K) (v : V)
       (h : Store string V),
       is_Some (h !! Data_Map_HashMap.internalMap this) →
       Data_Map_HashMap.stored this key h = None →
       Data_Map_HashMap.delete (Ev:=Ev) this key
         (store (Data_Map_HashMap.set (Ev:=Ev) this key v h))
       = MkOutcome (Ok ()) h [])
  ∧ (∀ (K V : Type)
       (this : Data_Map_DefaultMap.DefaultMap K V) (key : K) (v : V)
       (h : Store string V),
       is_Some (h !! Data_Map_HashMap.internalMap
                       (Data_Map_DefaultMap.internalMap this)) →
       Data_Map_DefaultMap.stored this key h = None →
       Data_Map_DefaultMap.delete this key
         (store (Data_Map_DefaultMap.set this key v h))
       = MkOutcome (Ok ()) h []).
Proof.
  split_and!.
  - intros * [es Hes] Hs. rewrite Data_HashMap_Facts.hashmap_delete_run.
    rewrite Data_HashMap_Facts.hashmap_stored_set, decide_True by done.
    rewrite Data_HashMap_Facts.hashmap_set_run. cbn [store].
    rewrite bool_decide_eq_true_2 by (by eexists).
    rewrite contents_insert_eq, insert_insert_eq. f_equal.
    rewrite delete_set_absent by (by apply JsMapFacts.has_false_get).
    apply insert_id. unfold contents. by rewrite Hes.
  - intros * [es Hes] Hs. rewrite Data_Map_HashMap_Facts.serialmap_delete_run.
    rewrite Data_Map_HashMap_Facts.serialmap_stored_set, decide_True by done.
    rewrite Data_Map_HashMap_Facts.serialmap_set_run. cbn [store].
    rewrite bool_decide_eq_true_2 by (by eexists).
    rewrite contents_insert_eq, insert_insert_eq. f_equal.
    rewrite delete_set_absent by (by apply JsMapFacts.has_false_get).
    apply insert_id. unfold contents. by rewrite Hes.
  - intros * [es Hes] Hs.
    rewrite Data_Map_DefaultMap_Facts.defaultmap_set_run. cbn [store].
    rewrite Data_Map_DefaultMap_Facts.defaultmap_delete_run.
    rewrite Data_Map_DefaultMap_Facts.defaultmap_stored_set,
      decide_True by done.
    rewrite bool_decide_eq_true_2 by (by eexists).
    unfold Data_Map_DefaultMap.store_set.
    rewrite contents_insert_eq, insert_insert_eq. f_equal.
    rewrite delete_set_absent by (by apply JsMapFacts.has_false_get).
    apply insert_id. unfold contents. by rewrite Hes.
Qed.

(** The map holding [a => 1], and the absent key [b]. *)
Lemma X7_witness :
  let m1 := Data_HashMap.new_HashMap (V:=Z) identity 0%nat "unknown" in
  let h1 : Store string Z := {[ 0%nat := [("a", 1)] ]} in
  let m2 := Data_Map_HashMap.new_HashMap (V:=Z) 0%nat untag tag in
  let m3 := Data_Map_DefaultMap.new_DefaultMap m2 (λ _ _ _, 0) None in
  let h2 : Store string Z := {[ 0%nat := [("id:a", 1)] ]} in
  Data_HashMap.delete (Ev:=unit) m1 "b"
    (store (Data_HashMap.set (Ev:=unit) m1 "b" 2 h1))
  = MkOutcome (Ok ()) h1 []
  ∧ Data_Map_HashMap.delete (Ev:=unit) m2 "b"
      (store (Data_Map_HashMap.set (Ev:=unit) m2 "b" 2 h2))
    = MkOutcome (Ok ()) h2 []
  ∧ Data_Map_DefaultMap.delete m3 "b"
      (store (Data_Map_DefaultMap.set m3 "b" 2 h2))
    = MkOutcome (Ok ()) h2 [].
Proof.
  intros m1 h1 m2 m3 h2.
  destruct X7_set_then_delete_restores as (H1 & H2 & H3).
  split_and!.
  - apply (H1 string Z string unit _ m1 "b" 2 h1);
      [eexists; reflexivity | reflexivity].
  - apply (H2 string Z unit m2 "b" 2 h2);
      [eexists; reflexivity | reflexivity].
  - apply (H3 string Z m3 "b" 2 h2);
      [eexists; reflexivity | reflexivity].
Defined.

(** X8 — [set] under one key changes nothing under a key with another
    hashed (resp. serialized) form: [has], [getOr] and [get] on that key
    give afterwards what they gave before. *)
Theorem X8_set_leaves_other_keys :
  (∀ (K V HK Ev : Type) (EqHK : EqDecision HK) (TV : Truthy V)
     (this : Data_HashMap.HashMap K V HK) (key key' : K) (v : V)
     (D : Type) (d : D) (h : Store HK V),
     let h' := store (Data_HashMap.set (Ev:=Ev) this key v h) in
     Data_HashMap.hash this key ≠ Data_HashMap.hash this key' →
     result (Data_HashMap.has (Ev:=Ev) this key' h')
     = result (Data_HashMap.has (Ev:=Ev) this key' h)
     ∧ result (Data_HashMap.getOr (Ev:=Ev) this key' d h')
       = result (Data_HashMap.getOr (Ev:=Ev) this key' d h)
     ∧ result (Data_HashMap.get (Ev:=Ev) this key' h')
       = result (Data_HashMap.get (Ev:=Ev) this key' h))
  ∧ (∀ (K V Ev : Type) (TV : Truthy V)
       (this : Data_Map_HashMap.HashMap K V) (key key' : K) (v : V)
       (D : Type) (d : D) (h : Store string V),
       let h' := store (Data_Map_HashMap.set (Ev:=Ev) this key v h) in
       Data_Map_HashMap.serializeKey this key
       ≠ Data_Map_HashMap.serializeKey this key' →
       result (Data_Map_HashMap.has (Ev:=Ev) this key' h')
       = result (Data_Map_HashMap.has (Ev:=Ev) this key' h)
       ∧ result (Data_Map_HashMap.getOr (Ev:=Ev) this key' d h')
         = result (Data_Map_HashMap.getOr (Ev:=Ev) this key' d h)
       ∧ result (Data_Map_HashMap.get (Ev:=Ev) this key' h')
         = result (Data_Map_HashMap.get (Ev:=Ev) this key' h))
  ∧ (∀ (K V : Type) (TV : Truthy V)
       (this : Data_Map_DefaultMap.DefaultMap K V) (key key' : K) (v : V)
       (D : Type) (d : D) (h : Store string V),
       let h' := store (Data_Map_DefaultMap.set this key v h) in
       Data_Map_DefaultMap.serializeKey this key
       ≠ Data_Map_DefaultMap.serializeKey this key' →
       result (Data_Map_DefaultMap.has this key' h')
       = result (Data_Map_DefaultMap.has this key' h)
       ∧ result (Data_Map_DefaultMap.getOr this key' d h')
         = result (Data_Map_DefaultMap.getOr this key' d h)).
Proof.
  split_and!.
  - intros * Hne. unfold_lets.
    rewrite !Data_HashMap_Facts.hashmap_has_run,
      !Data_HashMap_Facts.hashmap_getOr_run,
      !Data_HashMap_Facts.hashmap_get_run,
      !Data_HashMap_Facts.hashmap_stored_set, !decide_False by done.
    done.
  - intros * Hne. unfold_lets.
    rewrite !Data_Map_HashMap_Facts.serialmap_has_run,
      !Data_Map_HashMap_Facts.serialmap_getOr_run,
      !Data_Map_HashMap_Facts.serialmap_get_run,
      !Data_Map_HashMap_Facts.serialmap_stored_set, !decide_False by done.
    done.
  - intros * Hne. unfold_lets.
    rewrite Data_Map_DefaultMap_Facts.defaultmap_set_run. cbn [store].
    rewrite !Data_Map_DefaultMap_Facts.defaultmap_has_run,
      !Data_Map_DefaultMap_Facts.defaultmap_getOr_run,
      !Data_Map_DefaultMap_Facts.defaultmap_stored_set, !decide_False by done.
    done.
Qed.

(** Writing under [2] (resp. ["b"]) and reading under [1] (resp. ["a"]). *)
Lemma X8_witness :
  let m1 := Data_HashMap.new_HashMap (V:=string) identity 0%nat "unknown" in
  let h1 : Store Z string := {[ 0%nat := [(1, "one")] ]} in
  let m2 := Data_Map_HashMap.new_HashMap (V:=Z) 0%nat untag tag in
  let m3 := Data_Map_DefaultMap.new_DefaultMap m2 (λ _ _ _, 0) None in
  let h2 : Store string Z := {[ 0%nat := [("id:a", 1)] ]} in
  result (Data_HashMap.get (Ev:=unit) m1 1
            (store (Data_HashMap.set (Ev:=unit) m1 2 "two" h1)))
  = result (Data_HashMap.get (Ev:=unit) m1 1 h1)
  ∧ result (Data_Map_HashMap.get (Ev:=unit) m2 "a"
              (store (Data_Map_HashMap.set (Ev:=unit) m2 "b" 2 h2)))
    = result (Data_Map_HashMap.get (Ev:=unit) m2 "a" h2)
  ∧ result (Data_Map_DefaultMap.getOr m3 "a" 7
              (store (Data_Map_DefaultMap.set m3 "b" 2 h2)))
    = result (Data_Map_DefaultMap.getOr m3 "a" 7 h2).
Proof.
  intros m1 h1 m2 m3 h2.
  destruct X8_set_leaves_other_keys as (H1 & H2 & H3).
  destruct (H1 Z string Z unit _ _ m1 2 1 "two" Z 7 h1) as (_ & _ & G1);
    [discriminate|].
  destruct (H2 string Z unit _ m2 "b" "a" 2 Z 7 h2) as (_ & _ & G2);
    [discriminate|].
  destruct (H3 string Z _ m3 "b" "a" 2 Z 7 h2) as (_ & G3);
    [discriminate|].
  split; [exact G1 | split; [exact G2 | exact G3]].
Defined.

(** ** [get] and [getOr] *)

(** X9 — [get] and [getOr] never write to the store, and they agree:
    [get] returns a value exactly when [getOr] returns that value, and
    [get] throws exactly when [getOr] returns the fallback. *)
Theorem X9_get_agrees_with_getOr :
  (∀ (K V HK Ev : Type) (EqHK : EqDecision HK) (TV : Truthy V)
     (this : Data_HashMap.HashMap K V HK) (key : K)
     (D : Type) (d : D) (h : Store HK V),
     let g := Data_HashMap.get (Ev:=Ev) this key h in
     let g' := Data_HashMap.getOr (Ev:=Ev) this key d h in
     store g = h ∧ store g' = h ∧ calls g = [] ∧ calls g' = []
     ∧ (∀ v, result g = Ok v ↔ result g' = Ok (inl v))
     ∧ (result g = Throw (Data_HashMap.new_HashMapMissingKeyError this key)
        ↔ result g' = Ok (inr d)))
  ∧ (∀ (K V Ev : Type) (TV : Truthy V)
       (this : Data_Map_HashMap.HashMap K V) (key : K)
       (D : Type) (d : D) (h : Store string V),
       let g := Data_Map_HashMap.get (Ev:=Ev) this key h in
       let g' := Data_Map_HashMap.getOr (Ev:=Ev) this key d h in
       store g = h ∧ store g' = h ∧ calls g = [] ∧ calls g' = []
       ∧ (∀ v, result g = Ok v ↔ result g' = Ok (inl v))
       ∧ (result g = Throw (new_MissingKeyError this key)
          ↔ result g' = Ok (inr d))).
Proof.
  split_and!.
  - intros. unfold_lets.
    rewrite Data_HashMap_Facts.hashmap_get_run,
      Data_HashMap_Facts.hashmap_getOr_run. cbn [store calls result].
    split_and!; [done..| |].
    + intros v'. destruct (Data_HashMap.stored this key h) as [v|];
        [destruct (truthy v)|]; split; intros [=]; by subst.
    + destruct (Data_HashMap.stored this key h) as [v|];
        [destruct (truthy v)|]; split; intros [=]; by subst.
  - intros. unfold_lets.
    rewrite Data_Map_HashMap_Facts.serialmap_get_run,
      Data_Map_HashMap_Facts.serialmap_getOr_run. cbn [store calls result].
    split_and!; [done..| |].
    + intros v'. destruct (Data_Map_HashMap.stored this key h) as [v|];
        [destruct (truthy v)|]; split; intros [=]; by subst.
    + destruct (Data_Map_HashMap.stored this key h) as [v|];
        [destruct (truthy v)|]; split; intros [=]; by subst.
Qed.

(** ** [values] and [delete] against the traversal *)

(** X10 — [values()] yields the values in the order [entries()] yields the
    entries, and [keys()] the keys: the three traversals line up, and
    none of them writes to the store. *)
Theorem X10_keys_values_entries_line_up :
  (∀ (K V HK Ev : Type) (EqHK : EqDecision HK)
     (this : Data_HashMap.HashMap K V HK) (h : Store HK V),
     ∃ es, Data_HashMap.entries (Ev:=Ev) this h = MkOutcome (Ok es) h []
           ∧ Data_HashMap.keys (Ev:=Ev) this h = MkOutcome (Ok es.*1) h []
           ∧ Data_HashMap.values (Ev:=Ev) this h = MkOutcome (Ok es.*2) h [])
  ∧ (∀ (K V Ev : Type)
       (this : Data_Map_HashMap.HashMap K V) (h : Store string V),
       ∃ es, Data_Map_HashMap.entries (Ev:=Ev) this h
             = MkOutcome (Ok es) h []
             ∧ Data_Map_HashMap.keys (Ev:=Ev) this h
               = MkOutcome (Ok es.*1) h []
             ∧ Data_Map_HashMap.values (Ev:=Ev) this h
               = MkOutcome (Ok es.*2) h [])
  ∧ (∀ (K V : Type)
       (this : Data_Map_DefaultMap.DefaultMap K V) (h : Store string V),
       ∃ es, Data_Map_DefaultMap.entries this h = MkOutcome (Ok es) h []
             ∧ Data_Map_DefaultMap.keys this h = MkOutcome (Ok es.*1) h []
             ∧ Data_Map_DefaultMap.values this h
               = MkOutcome (Ok es.*2) h []).
Proof.
  split_and!; intros; eexists; (split; [reflexivity|]).
  - done.
  - unfold Data_Map_HashMap.keys, Data_Map_HashMap.values. run_eff.
    by rewrite fmap_key_fst, fmap_key_snd.
  - unfold Data_Map_DefaultMap.keys, Data_Map_DefaultMap.values,
      Data_Map_HashMap.keys, Data_Map_HashMap.values. run_eff.
    by rewrite fmap_key_fst, fmap_key_snd.
Qed.

(** X11 — [delete] of a key that is present takes exactly one entry out of
    the traversal, the one under the hashed (resp. serialized) key, and
    leaves the others in their order. *)
Theorem X11_delete_takes_out_one_entry :
  (∀ (K V HK Ev : Type) (EqHK : EqDecision HK)
     (this : Data_HashMap.HashMap K V HK) (key : K) (v : V) (h : Store HK V),
     let o := Data_HashMap.delete (Ev:=Ev) this key h in
     JsMap.wf (contents h (Data_HashMap._map this)) →
     Data_HashMap.stored this key h = Some v →
     ∃ l1 l2,
       result (Data_HashMap.entries (Ev:=Ev) this h)
       = Ok (l1 ++ (Data_HashMap.hash this key, v) :: l2)
       ∧ result o = Ok ()
       ∧ result (Data_HashMap.entries (Ev:=Ev) this (store o))
         = Ok (l1 ++ l2))
  ∧ (∀ (K V Ev : Type)
       (this : Data_Map_HashMap.HashMap K V) (key : K) (v : V)
       (h : Store string V),
       let o := Data_Map_HashMap.delete (Ev:=Ev) this key h in
       let stored_key := Data_Map_HashMap.serializeKey this key in
       JsMap.wf (contents h (Data_Map_HashMap.internalMap this)) →
       Data_Map_HashMap.stored this key h = Some v →
       ∃ l1 l2,
         result (Data_Map_HashMap.entries (Ev:=Ev) this h)
         = Ok (l1 ++ (Data_Map_HashMap.deserializeKey this stored_key, v)
                     :: l2)
         ∧ result o = Ok ()
         ∧ result (Data_Map_HashMap.entries (Ev:=Ev) this (store o))
           = Ok (l1 ++ l2)).
Proof.
  split_and!.
  - intros * Hwf Hs. unfold_lets.
    destruct (delete_split _ _ _ Hwf Hs) as (l1 & l2 & Hes & Hd).
    exists l1, l2. rewrite Data_HashMap_Facts.hashmap_delete_run, Hs.
    rewrite bool_decide_eq_true_2 by (by eexists).
    unfold Data_HashMap.entries. run_eff.
    by rewrite contents_insert_eq, Hd, Hes.
  - intros * Hwf Hs. unfold_lets.
    destruct (delete_split _ _ _ Hwf Hs) as (l1 & l2 & Hes & Hd).
    exists ((λ '(key, value),
               (Data_Map_HashMap.deserializeKey this key, value)) <$> l1),
           ((λ '(key, value),
               (Data_Map_HashMap.deserializeKey this key, value)) <$> l2).
    rewrite Data_Map_HashMap_Facts.serialmap_delete_run, Hs.
    rewrite bool_decide_eq_true_2 by (by eexists).
    unfold Data_Map_HashMap.entries. run_eff.
    rewrite contents_insert_eq, Hd, Hes, !fmap_app. done.
Qed.

(** Deleting [2] from the map of the tests, and ["b"] from a map with
    serialized keys. *)
Lemma X11_witness :
  let m1 := Data_HashMap.new_HashMap (V:=string) identity 0%nat "unknown" in
  let h1 : Store Z string :=
    {[ 0%nat := [(1, "one"); (2, "two"); (3, "three")] ]} in
  let m2 := Data_Map_HashMap.new_HashMap (V:=Z) 0%nat untag tag in
  let h2 : Store string Z :=
    {[ 0%nat := [("id:a", 1); ("id:b", 2); ("id:c", 3)] ]} in
  (∃ l1 l2,
     result (Data_HashMap.entries (Ev:=unit) m1 h1) = Ok (l1 ++ (2, "two") :: l2)
     ∧ result (Data_HashMap.delete (Ev:=unit) m1 2 h1) = Ok ()
     ∧ result (Data_HashMap.entries (Ev:=unit) m1
                 (store (Data_HashMap.delete (Ev:=unit) m1 2 h1)))
       = Ok (l1 ++ l2))
  ∧ (∃ l1 l2,
       result (Data_Map_HashMap.entries (Ev:=unit) m2 h2)
       = Ok (l1 ++ ("b", 2) :: l2)
       ∧ result (Data_Map_HashMap.delete (Ev:=unit) m2 "b" h2) = Ok ()
       ∧ result (Data_Map_HashMap.entries (Ev:=unit) m2
                   (store (Data_Map_HashMap.delete (Ev:=unit) m2 "b" h2)))
         = Ok (l1 ++ l2)).
Proof.
  intros m1 h1 m2 h2.
  destruct X11_delete_takes_out_one_entry as (H1 & H2).
  split.
  - apply (H1 Z string Z unit _ m1 2 "two" h1).
    + apply (bool_decide_unpack _). by vm_compute.
    + reflexivity.
  - apply (H2 string Z unit m2 "b" 2 h2).
    + apply (bool_decide_unpack _). by vm_compute.
    + reflexivity.
Defined.

(** ** [map], [mapKeys], [mapValues] *)

Section MapLoops.
Context {K V R : Type}.
Implicit Types (f : V → K → nat → R) (es : list (K * V)) (acc : list R).

(** The loop of [map] in the two [HashMap] classes: the index handed to
    the callback, [entries.length], is the position of the entry. *)
Lemma map_loop_imap f es acc :
  fold_left (λ acc '(key, value), acc ++ [f value key (length acc)]) es acc
  = acc ++ imap (λ i '(key, value), f value key (length acc + i)%nat) es.
Proof.
  revert acc. induction es as [|[key value] r IH]; intros acc; simpl.
  - by rewrite app_nil_r.
  - rewrite IH, <-app_assoc, Nat.add_0_r. simpl. do 2 f_equal.
    apply imap_ext. intros i [k v] _. simpl.
    by rewrite length_app, Nat.add_1_r, Nat.add_succ_r.
Qed.

(** The loop of [map] in [DefaultMap], with its own counter. *)
Lemma counter_loop_imap f es acc (i : nat) :
  (fold_left
     (λ '(acc, index) '(key, value), (acc ++ [f value key index], S index))
     es (acc, i)).1
  = acc ++ imap (λ j '(key, value), f value key (i + j)%nat) es.
Proof.
  revert acc i. induction es as [|[key value] r IH]; intros acc i; simpl.
  - by rewrite app_nil_r.
  - rewrite IH, <-app_assoc, Nat.add_0_r. simpl. do 2 f_equal.
    apply imap_ext. intros j [k v] _. simpl. by rewrite Nat.add_succ_r.
Qed.
End MapLoops.

Lemma imap_pair_fst {K V V'} (g : nat → K → V → V') (es : list (K * V)) :
  (imap (λ i '(key, value), (key, g i key value)) es).*1 = es.*1.
Proof.
  revert g. induction es as [|[k v] r IH]; intros g; csimpl; [done|].
  f_equal. apply (IH (λ i, g (S i))).
Qed.

(** X12 — [map] calls the callback on the entries in traversal order with
    the position of the entry as index, and builds the new map from the
    pairs returned, in that order.  When two pairs have the same key (in
    [Data/Map/HashMap.ts] and [DefaultMap]: the same serialized key) the
    later one wins; when all keys differ (and [deserializeKey] undoes
    [serializeKey] on them) the new map yields exactly the pairs
    returned. *)
Theorem X12_map_builds_from_the_returned_pairs :
  (∀ (K V HK Ev : Type) (EqHK : EqDecision HK)
     (this : Data_HashMap.HashMap K V HK)
     (fn : @Data_HashMap.Callback K V HK (HK * V)) (h : Store HK V),
     let es := contents h (Data_HashMap._map this) in
     let out := imap (λ i '(key, value), fn value key i this h) es in
     let o := Data_HashMap.map (Ev:=Ev) this fn h in
     ∃ m', result o = Ok m'
           ∧ (∀ c, JsMap.get (contents (store o) (Data_HashMap._map m')) c
                   = last_written out c)
           ∧ (NoDup out.*1 →
              Data_HashMap.entries (Ev:=Ev) m' (store o)
              = MkOutcome (Ok out) (store o) []))
  ∧ (∀ (K V Ev : Type) (JSON_parse : string → K) (JSON_stringify : K → string)
       (this : Data_Map_HashMap.HashMap K V)
       (fn : @Data_Map_HashMap.Callback K V (K * V)) (h : Store string V),
       let serialize := Data_Map_HashMap.serializeKey this in
       let deserialize := Data_Map_HashMap.deserializeKey this in
       let es := (λ '(key, value), (deserialize key, value))
                   <$> contents h (Data_Map_HashMap.internalMap this) in
       let out := imap (λ i '(key, value), fn value key i this h) es in
       let o := Data_Map_HashMap.map (Ev:=Ev) JSON_parse JSON_stringify
                  this fn h in
       ∃ m', result o = Ok m'
             ∧ (∀ c, JsMap.get
                       (contents (store o) (Data_Map_HashMap.internalMap m')) c
                     = last_written
                         ((λ '(key, value), (serialize key, value)) <$> out) c)
             ∧ (NoDup (serialize <$> out.*1) →
                (∀ k, k ∈ out.*1 → deserialize (serialize k) = k) →
                Data_Map_HashMap.entries (Ev:=Ev) m' (store o)
                = MkOutcome (Ok out) (store o) []))
  ∧ (∀ (K V : Type) (JSON_parse : string → K) (JSON_stringify : K → string)
       (this : Data_Map_DefaultMap.DefaultMap K V)
       (fn : @Data_Map_DefaultMap.Callback K V (K * V)) (h : Store string V),
       let inner := Data_Map_DefaultMap.internalMap this in
       let serialize := Data_Map_HashMap.serializeKey inner in
       let deserialize := Data_Map_HashMap.deserializeKey inner in
       let es := (λ '(key, value), (deserialize key, value))
                   <$> contents h (Data_Map_HashMap.internalMap inner) in
       let out := imap (λ i '(key, value), fn value key i this h) es in
       let o := Data_Map_DefaultMap.map JSON_parse JSON_stringify this fn h in
       ∃ m', result o = Ok m'
             ∧ (∀ c, JsMap.get
                       (contents (store o)
                          (Data_Map_HashMap.internalMap
                             (Data_Map_DefaultMap.internalMap m'))) c
                     = last_written
                         ((λ '(key, value), (serialize key, value)) <$> out) c)
             ∧ (NoDup (serialize <$> out.*1) →
                (∀ k, k ∈ out.*1 → deserialize (serialize k) = k) →
                Data_Map_DefaultMap.entries m' (store o)
                = MkOutcome (Ok out) (store o) [])).
Proof.
  split_and!.
  - intros. unfold_lets. rewrite hashmap_map_run. unfold hashmap_built.
    eexists. split; [reflexivity|]. cbn [store Data_HashMap._map].
    unfold Data_HashMap.map_loop.
    rewrite (map_loop_imap (λ value key index, fn value key index this h)).
    cbn [app length Nat.add]. split.
    + intros c. rewrite contents_insert_eq. apply get_of_entries.
    + intros Hnd. unfold Data_HashMap.entries. run_eff.
      by rewrite contents_insert_eq, JsMapFacts.of_entries_NoDup.
  - intros. unfold_lets. rewrite serialmap_map_run.
    unfold serialmap_built, serialmap_entries.
    eexists. split; [reflexivity|].
    cbn [store Data_Map_HashMap.internalMap].
    unfold Data_Map_HashMap.map_loop.
    rewrite (map_loop_imap (λ value key index, fn value key index this h)).
    cbn [app length Nat.add]. split.
    + intros c. rewrite contents_insert_eq. apply get_of_entries.
    + intros Hnd Hrt. unfold Data_Map_HashMap.entries. run_eff.
      rewrite contents_insert_eq.
      rewrite JsMapFacts.of_entries_NoDup by (by rewrite fmap_key_fst).
      by rewrite fmap_key_round_trip.
  - intros. unfold_lets. rewrite defaultmap_map_run.
    unfold defaultmap_built, serialmap_entries.
    eexists. split; [reflexivity|].
    cbn [store Data_Map_HashMap.internalMap Data_Map_DefaultMap.internalMap].
    unfold Data_Map_DefaultMap.map_loop.
    rewrite (counter_loop_imap (λ value key index, fn value key index this h)).
    cbn [app Nat.add]. split.
    + intros c. rewrite contents_insert_eq. apply get_of_entries.
    + intros Hnd Hrt.
      unfold Data_Map_DefaultMap.entries, Data_Map_HashMap.entries. run_eff.
      rewrite contents_insert_eq.
      rewrite JsMapFacts.of_entries_NoDup by (by rewrite fmap_key_fst).
      by rewrite fmap_key_round_trip.
Qed.

(** Multiplying the keys by ten; appending ["!"] to the keys and adding
    the position to the values. *)
Lemma X12_witness :
  let m1 := Data_HashMap.new_HashMap (V:=string) identity 0%nat "unknown" in
  let h1 : Store Z string := {[ 0%nat := [(1, "one"); (2, "two")] ]} in
  let m2 := Data_Map_HashMap.new_HashMap (V:=Z) 0%nat untag tag in
  let m3 := Data_Map_DefaultMap.new_DefaultMap m2 (λ _ _ _, 0) None in
  let h2 : Store string Z := {[ 0%nat := [("id:a", 1); ("id:b", 2)] ]} in
  let o1 := Data_HashMap.map (Ev:=unit) m1
              (λ value key _ _ _, (key * 10, value)) h1 in
  let o2 := Data_Map_HashMap.map (Ev:=unit) JSON_parse JSON_stringify m2
              (λ value key index _ _, (key +:+ "!", value + Z.of_nat index))
              h2 in
  let o3 := Data_Map_DefaultMap.map JSON_parse JSON_stringify m3
              (λ value key index _ _, (key +:+ "!", value + Z.of_nat index))
              h2 in
  (∃ m', result o1 = Ok m'
         ∧ Data_HashMap.entries (Ev:=unit) m' (store o1)
           = MkOutcome (Ok [(10, "one"); (20, "two")]) (store o1) [])
  ∧ (∃ m', result o2 = Ok m'
           ∧ Data_Map_HashMap.entries (Ev:=unit) m' (store o2)
             = MkOutcome (Ok [("a!", 1); ("b!", 3)]) (store o2) [])
  ∧ (∃ m', result o3 = Ok m'
           ∧ Data_Map_DefaultMap.entries m' (store o3)
             = MkOutcome (Ok [("a!", 1); ("b!", 3)]) (store o3) []).
Proof.
  intros m1 h1 m2 m3 h2 o1 o2 o3.
  destruct X12_map_builds_from_the_returned_pairs as (H1 & H2 & H3).
  assert (∀ k, k ∈ ["a!"; "b!"] → untag (tag k) = k) as Hrt.
  { intros k Hk. rewrite !elem_of_cons, elem_of_nil in Hk.
    destruct Hk as [->|[->|[]]]; reflexivity. }
  split_and!.
  - destruct (H1 Z string Z unit _ m1
                (λ value key _ _ _, (key * 10, value)) h1) as (m' & Hr & _ & He).
    exists m'. split; [exact Hr|]. apply He.
    apply (bool_decide_unpack _). by vm_compute.
  - destruct (H2 string Z unit JSON_parse JSON_stringify m2
                (λ value key index _ _, (key +:+ "!", value + Z.of_nat index))
                h2) as (m' & Hr & _ & He).
    exists m'. split; [exact Hr|]. apply He.
    + apply (bool_decide_unpack _). by vm_compute.
    + exact Hrt.
  - destruct (H3 string Z JSON_parse JSON_stringify m3
                (λ value key index _ _, (key +:+ "!", value + Z.of_nat index))
                h2) as (m' & Hr & _ & He).
    exists m'. split; [exact Hr|]. apply He.
    + apply (bool_decide_unpack _). by vm_compute.
    + exact Hrt.
Defined.

(** X13 — [mapValues] keeps the keys and their order and replaces each
    value by what the callback returns for it, called with the position
    of the entry as index.  (For the classes with serialized keys: on maps
    on whose stored keys [serializeKey] undoes [deserializeKey].) *)
Theorem X13_mapValues_keeps_the_keys :
  (∀ (K V HK Ev : Type) (EqHK : EqDecision HK)
     (this : Data_HashMap.HashMap K V HK)
     (fn : @Data_HashMap.Callback K V HK V) (h : Store HK V),
     let es := contents h (Data_HashMap._map this) in
     let o := Data_HashMap.mapValues (Ev:=Ev) this fn h in
     JsMap.wf es →
     ∃ m', result o = Ok m'
           ∧ Data_HashMap.entries (Ev:=Ev) m' (store o)
             = MkOutcome
                 (Ok (imap (λ i '(key, value), (key, fn value key i this h))
                        es))
                 (store o) []
           ∧ result (Data_HashMap.keys (Ev:=Ev) m' (store o))
             = result (Data_HashMap.keys (Ev:=Ev) this h))
  ∧ (∀ (K V Ev : Type) (JSON_parse : string → K) (JSON_stringify : K → string)
       (this : Data_Map_HashMap.HashMap K V)
       (fn : @Data_Map_HashMap.Callback K V V) (h : Store string V),
       let raw := contents h (Data_Map_HashMap.internalMap this) in
       let es := (λ '(key, value),
                    (Data_Map_HashMap.deserializeKey this key, value))
                   <$> raw in
       let o := Data_Map_HashMap.mapValues (Ev:=Ev) JSON_parse JSON_stringify
                  this fn h in
       JsMap.wf raw →
       (∀ s, s ∈ raw.*1 →
             Data_Map_HashMap.serializeKey this
               (Data_Map_HashMap.deserializeKey this s) = s) →
       ∃ m', result o = Ok m'
             ∧ Data_Map_HashMap.entries (Ev:=Ev) m' (store o)
               = MkOutcome
                   (Ok (imap (λ i '(key, value),
                                (key, fn value key i this h)) es))
                   (store o) []
             ∧ result (Data_Map_HashMap.keys (Ev:=Ev) m' (store o))
               = result (Data_Map_HashMap.keys (Ev:=Ev) this h))
  ∧ (∀ (K V : Type) (JSON_parse : string → K) (JSON_stringify : K → string)
       (this : Data_Map_DefaultMap.DefaultMap K V)
       (fn : @Data_Map_DefaultMap.Callback K V V) (h : Store string V),
       let inner := Data_Map_DefaultMap.internalMap this in
       let raw := contents h (Data_Map_HashMap.internalMap inner) in
       let es := (λ '(key, value),
                    (Data_Map_HashMap.deserializeKey inner key, value))
                   <$> raw in
       let o := Data_Map_DefaultMap.mapValues JSON_parse JSON_stringify
                  this fn h in
       JsMap.wf raw →
       (∀ s, s ∈ raw.*1 →
             Data_Map_HashMap.serializeKey inner
               (Data_Map_HashMap.deserializeKey inner s) = s) →
       ∃ m', result o = Ok m'
             ∧ Data_Map_DefaultMap.entries m' (store o)
               = MkOutcome
                   (Ok (imap (λ i '(key, value),
                                (key, fn value key i this h)) es))
                   (store o) []
             ∧ result (Data_Map_DefaultMap.keys m' (store o))
               = result (Data_Map_DefaultMap.keys this h)).
Proof.
  assert (∀ (K V : Type) (des : string → K) (ser : K → string)
            (raw : list (string * V)) (g : nat → K → V → V),
            JsMap.wf raw →
            (∀ s, s ∈ raw.*1 → ser (des s) = s) →
            let out := imap (λ i '(key, value), (key, g i key value))
                         ((λ '(key, value), (des key, value)) <$> raw) in
            (λ '(key, value), (des key, value))
              <$> JsMap.of_entries ((λ '(key, value), (ser key, value)) <$> out)
            = out ∧ out.*1 = des <$> raw.*1) as Hserial.
  { intros K V des ser raw g Hwf Hrt out.
    assert (out.*1 = des <$> raw.*1) as Hk.
    { unfold out. by rewrite imap_pair_fst, fmap_key_fst. }
    assert (ser <$> out.*1 = raw.*1) as Hs.
    { rewrite Hk, <-list_fmap_compose. rewrite <-(list_fmap_id raw.*1) at 2.
      apply list_fmap_ext. intros i s Hi. apply Hrt.
      by eapply list_elem_of_lookup_2. }
    split; [|done].
    rewrite JsMapFacts.of_entries_NoDup by (by rewrite fmap_key_fst, Hs).
    apply fmap_key_round_trip. intros k Hkin. rewrite Hk in Hkin.
    apply list_elem_of_fmap in Hkin as (s & -> & Hsin). by rewrite Hrt. }
  split_and!.
  - intros * Hwf. unfold_lets. rewrite hashmap_mapValues_run.
    unfold hashmap_built. eexists. split; [reflexivity|].
    cbn [store Data_HashMap._map]. unfold Data_HashMap.map_loop.
    rewrite (map_loop_imap
               (λ value key index, (key, fn value key index this h))).
    cbn [app length Nat.add].
    unfold Data_HashMap.entries, Data_HashMap.keys. run_eff.
    rewrite !contents_insert_eq.
    rewrite JsMapFacts.of_entries_NoDup
      by (by rewrite (imap_pair_fst (λ i key value, fn value key i this h))).
    split; [done|].
    by rewrite (imap_pair_fst (λ i key value, fn value key i this h)).
  - intros * Hwf Hrt. unfold_lets. rewrite serialmap_mapValues_run.
    unfold serialmap_built, serialmap_entries. eexists.
    split; [reflexivity|].
    cbn [store Data_Map_HashMap.internalMap Data_Map_HashMap.deserializeKey
           Data_Map_HashMap.serializeKey].
    unfold Data_Map_HashMap.map_loop.
    rewrite (map_loop_imap
               (λ value key index, (key, fn value key index this h))).
    cbn [app length Nat.add].
    destruct (Hserial K V (Data_Map_HashMap.deserializeKey this)
                (Data_Map_HashMap.serializeKey this) _
                (λ i key value, fn value key i this h) Hwf Hrt) as [He Hk].
    unfold Data_Map_HashMap.entries, Data_Map_HashMap.keys. run_eff.
    rewrite !contents_insert_eq, He. split; [done|].
    by rewrite <-fmap_key_fst, He, Hk.
  - intros * Hwf Hrt. unfold_lets. rewrite defaultmap_mapValues_run.
    unfold defaultmap_built, serialmap_entries. eexists.
    split; [reflexivity|].
    cbn [store Data_Map_HashMap.internalMap Data_Map_HashMap.deserializeKey
           Data_Map_HashMap.serializeKey Data_Map_DefaultMap.internalMap].
    unfold Data_Map_DefaultMap.map_loop.
    rewrite (counter_loop_imap
               (λ value key index, (key, fn value key index this h))).
    cbn [app Nat.add].
    destruct (Hserial K V
                (Data_Map_HashMap.deserializeKey
                   (Data_Map_DefaultMap.internalMap this))
                (Data_Map_HashMap.serializeKey
                   (Data_Map_DefaultMap.internalMap this)) _
                (λ i key value, fn value key i this h) Hwf Hrt) as [He Hk].
    unfold Data_Map_DefaultMap.entries, Data_Map_DefaultMap.keys,
      Data_Map_HashMap.entries, Data_Map_HashMap.keys. run_eff.
    rewrite !contents_insert_eq. unfold Data_Map_DefaultMap.serializeKey.
    rewrite He. split; [done|].
    by rewrite <-fmap_key_fst, He, Hk.
Qed.

(** Adding the position to each value. *)
Lemma X13_witness :
  let m1 := Data_HashMap.new_HashMap (V:=Z) identity 0%nat "unknown" in
  let h1 : Store string Z := {[ 0%nat := [("a", 1); ("b", 2)] ]} in
  let m2 := Data_Map_HashMap.new_HashMap (V:=Z) 0%nat untag tag in
  let m3 := Data_Map_DefaultMap.new_DefaultMap m2 (λ _ _ _, 0) None in
  let h2 : Store string Z := {[ 0%nat := [("id:a", 1); ("id:b", 2)] ]} in
  let o1 := Data_HashMap.mapValues (Ev:=unit) m1
              (λ value _ index _ _, value + Z.of_nat index) h1 in
  let o2 := Data_Map_HashMap.mapValues (Ev:=unit) JSON_parse JSON_stringify m2
              (λ value _ index _ _, value + Z.of_nat index) h2 in
  let o3 := Data_Map_DefaultMap.mapValues JSON_parse JSON_stringify m3
              (λ value _ index _ _, value + Z.of_nat index) h2 in
  (∃ m', result o1 = Ok m'
         ∧ Data_HashMap.entries (Ev:=unit) m' (store o1)
           = MkOutcome (Ok [("a", 1); ("b", 3)]) (store o1) [])
  ∧ (∃ m', result o2 = Ok m'
           ∧ Data_Map_HashMap.entries (Ev:=unit) m' (store o2)
             = MkOutcome (Ok [("a", 1); ("b", 3)]) (store o2) [])
  ∧ (∃ m', result o3 = Ok m'
           ∧ Data_Map_DefaultMap.entries m' (store o3)
             = MkOutcome (Ok [("a", 1); ("b", 3)]) (store o3) []).
Proof.
  intros m1 h1 m2 m3 h2 o1 o2 o3.
  destruct X13_mapValues_keeps_the_keys as (H1 & H2 & H3).
  assert (∀ s, s ∈ ["id:a"; "id:b"] → tag (untag s) = s) as Hrt.
  { intros s Hs. rewrite !elem_of_cons, elem_of_nil in Hs.
    destruct Hs as [->|[->|[]]]; reflexivity. }
  split_and!.
  - destruct (H1 string Z string unit _ m1
                (λ value _ index _ _, value + Z.of_nat index) h1)
      as (m' & Hr & He & _).
    { apply (bool_decide_unpack _). by vm_compute. }
    exists m'. split; [exact Hr | exact He].
  - destruct (H2 string Z unit JSON_parse JSON_stringify m2
                (λ value _ index _ _, value + Z.of_nat index) h2)
      as (m' & Hr & He & _).
    { apply (bool_decide_unpack _). by vm_compute. }
    { exact Hrt. }
    exists m'. split; [exact Hr | exact He].
  - destruct (H3 string Z JSON_parse JSON_stringify m3
                (λ value _ index _ _, value + Z.of_nat index) h2)
      as (m' & Hr & He & _).
    { apply (bool_decide_unpack _). by vm_compute. }
    { exact Hrt. }
    exists m'. split; [exact Hr | exact He].
Defined.

Lemma of_entries_one_key {K V} `{EqDecision K} (c : K) (vs : list V) (v : V) :
  JsMap.of_entries ((λ value, (c, value)) <$> (vs ++ [v])) = [(c, v)].
Proof.
  rewrite fmap_app. csimpl. rewrite JsMapFacts.of_entries_snoc.
  induction vs as [|v' vs IH] using rev_ind; [done|].
  rewrite fmap_app. csimpl. rewrite JsMapFacts.of_entries_snoc.
  rewrite set_set. apply IH.
Qed.

Lemma imap_const_key {K V} (c : K) (es : list (K * V)) :
  imap (λ (_ : nat) '(_, value), (c, value)) es = (λ value, (c, value)) <$> es.*2.
Proof.
  induction es as [|[k v] r IH]; csimpl; [done|]. f_equal. apply IH.
Qed.

(** X14 — When the callback of [mapKeys] sends every key to one key, the
    map built has a single entry, under that key, holding the value of
    the last entry traversed: later entries overwrite earlier ones and
    nothing is thrown. *)
Theorem X14_mapKeys_collisions_keep_the_last :
  (∀ (K V HK Ev : Type) (EqHK : EqDecision HK)
     (this : Data_HashMap.HashMap K V HK) (c : HK) (h : Store HK V)
     (es : list (HK * V)) (key : HK) (value : V),
     let o := Data_HashMap.mapKeys (Ev:=Ev) this (λ _ _ _ _ _, c) h in
     contents h (Data_HashMap._map this) = es ++ [(key, value)] →
     ∃ m', result o = Ok m'
           ∧ Data_HashMap.entries (Ev:=Ev) m' (store o)
             = MkOutcome (Ok [(c, value)]) (store o) [])
  ∧ (∀ (K V Ev : Type) (JSON_parse : string → K) (JSON_stringify : K → string)
       (this : Data_Map_HashMap.HashMap K V) (c : K) (h : Store string V)
       (es : list (string * V)) (key : string) (value : V),
       let o := Data_Map_HashMap.mapKeys (Ev:=Ev) JSON_parse JSON_stringify
                  this (λ _ _ _ _ _, c) h in
       let c' := Data_Map_HashMap.deserializeKey this
                   (Data_Map_HashMap.serializeKey this c) in
       contents h (Data_Map_HashMap.internalMap this) = es ++ [(key, value)] →
       ∃ m', result o = Ok m'
             ∧ Data_Map_HashMap.entries (Ev:=Ev) m' (store o)
               = MkOutcome (Ok [(c', value)]) (store o) []).
Proof.
  split_and!.
  - intros * Hes. unfold_lets. rewrite hashmap_mapKeys_run.
    unfold hashmap_built. eexists. split; [reflexivity|].
    cbn [store Data_HashMap._map]. unfold Data_HashMap.map_loop.
    rewrite (map_loop_imap (λ value key index, (c, value))).
    cbn [app length Nat.add].
    unfold Data_HashMap.entries. run_eff. rewrite contents_insert_eq, Hes.
    rewrite imap_const_key, fmap_app. csimpl.
    by rewrite of_entries_one_key.
  - intros * Hes. unfold_lets. rewrite serialmap_mapKeys_run.
    unfold serialmap_built, serialmap_entries. eexists.
    split; [reflexivity|].
    cbn [store Data_Map_HashMap.internalMap Data_Map_HashMap.deserializeKey
           Data_Map_HashMap.serializeKey].
    unfold Data_Map_HashMap.map_loop.
    rewrite (map_loop_imap (λ value key index, (c, value))).
    cbn [app length Nat.add].
    unfold Data_Map_HashMap.entries. run_eff. rewrite contents_insert_eq, Hes.
    rewrite imap_const_key, fmap_key_snd, fmap_app. csimpl.
    rewrite <-list_fmap_compose.
    change ((λ '(key0, value0),
               (Data_Map_HashMap.serializeKey this key0, value0))
            ∘ (λ value0 : V, (c, value0)))
      with (λ value0 : V, (Data_Map_HashMap.serializeKey this c, value0)).
    by rewrite of_entries_one_key.
Qed.

(** Sending the keys of [1 => "one"], [2 => "two"] to [0]. *)
Lemma X14_witness :
  let m1 := Data_HashMap.new_HashMap (V:=string) identity 0%nat "unknown" in
  let h1 : Store Z string := {[ 0%nat := [(1, "one"); (2, "two")] ]} in
  let m2 := Data_Map_HashMap.new_HashMap (V:=Z) 0%nat untag tag in
  let h2 : Store string Z := {[ 0%nat := [("id:a", 1); ("id:b", 2)] ]} in
  let o1 := Data_HashMap.mapKeys (Ev:=unit) m1 (λ _ _ _ _ _, 0) h1 in
  let o2 := Data_Map_HashMap.mapKeys (Ev:=unit) JSON_parse JSON_stringify m2
              (λ _ _ _ _ _, "z") h2 in
  (∃ m', result o1 = Ok m'
         ∧ Data_HashMap.entries (Ev:=unit) m' (store o1)
           = MkOutcome (Ok [(0, "two")]) (store o1) [])
  ∧ (∃ m', result o2 = Ok m'
           ∧ Data_Map_HashMap.entries (Ev:=unit) m' (store o2)
             = MkOutcome (Ok [("z", 2)]) (store o2) []).
Proof.
  intros m1 h1 m2 h2 o1 o2.
  destruct X14_mapKeys_collisions_keep_the_last as (H1 & H2).
  split.
  - apply (H1 Z string Z unit _ m1 0 h1 [(1, "one")] 2 "two"). reflexivity.
  - apply (H2 string Z unit JSON_parse JSON_stringify m2 "z" h2
             [("id:a", 1)] "id:b" 2). reflexivity.
Defined.

(** ** The invariant of the store *)

Section KeepWf.
Context {HK V : Type} `{EqDecision HK}.
Implicit Types (h : Store HK V).

Lemma store_wf_set h l k v :
  store_wf h → store_wf (<[l := JsMap.set (contents h l) k v]> h).
Proof.
  intros. apply store_wf_insert; [done|].
  by apply JsMapFacts.set_wf, store_wf_contents.
Qed.

Lemma store_wf_delete h l k :
  store_wf h → store_wf (<[l := JsMap.delete (contents h l) k]> h).
Proof.
  intros. apply store_wf_insert; [done|].
  by apply JsMapFacts.delete_wf, store_wf_contents.
Qed.

Lemma store_wf_of_entries h l es :
  store_wf h → store_wf (<[l := JsMap.of_entries es]> h).
Proof. intros. apply store_wf_insert; [done|]. apply JsMapFacts.of_entries_wf. Qed.
End KeepWf.

(** X15 — No method ever leaves two entries under one key: from a store
    where the keys of every native map are pairwise different, every
    factory and every method of the three classes, whether it returns or
    throws, leads to such a store. *)
Theorem X15_keys_stay_unique :
  (∀ (K V HK Ev : Type) (EqHK : EqDecision HK) (TV : Truthy V)
     (this : Data_HashMap.HashMap K V HK) (h : Store HK V),
     store_wf h →
     (∀ entries onHash name,
        store_wf (store (Data_HashMap.fromCustomEntries (K:=K) (Ev:=Ev)
                           entries onHash name h)))
     ∧ (∀ onHash name,
          store_wf (store (Data_HashMap.emptyWithCustomHash (K:=K) (Ev:=Ev)
                             onHash name h)))
     ∧ (∀ key v, store_wf (store (Data_HashMap.set (Ev:=Ev) this key v h)))
     ∧ (∀ key, store_wf (store (Data_HashMap.delete (Ev:=Ev) this key h)))
     ∧ (∀ key,
          store_wf (store (Data_HashMap.deleteIfExists (Ev:=Ev) this key h)))
     ∧ store_wf (store (Data_HashMap.clear (Ev:=Ev) this h))
     ∧ (∀ key, store_wf (store (Data_HashMap.get (Ev:=Ev) this key h)))
     ∧ (∀ fn, store_wf (store (Data_HashMap.filter (Ev:=Ev) this fn h)))
     ∧ (∀ fn, store_wf (store (Data_HashMap.map (Ev:=Ev) this fn h)))
     ∧ (∀ fn, store_wf (store (Data_HashMap.mapKeys (Ev:=Ev) this fn h)))
     ∧ (∀ fn, store_wf (store (Data_HashMap.mapValues (Ev:=Ev) this fn h))))
  ∧ (∀ (K V Ev : Type) (TV : Truthy V)
       (JSON_parse : string → K) (JSON_stringify : K → string)
       (this : Data_Map_HashMap.HashMap K V) (h : Store string V),
       store_wf h →
       (∀ entries deserializeKey serializeKey,
          store_wf (store (Data_Map_HashMap.fromEntries (Ev:=Ev)
                             JSON_parse JSON_stringify entries
                             deserializeKey serializeKey h)))
       ∧ (∀ key v,
            store_wf (store (Data_Map_HashMap.set (Ev:=Ev) this key v h)))
       ∧ (∀ key,
            store_wf (store (Data_Map_HashMap.delete (Ev:=Ev) this key h)))
       ∧ (∀ key,
            store_wf
              (store (Data_Map_HashMap.deleteIfExists (Ev:=Ev) this key h)))
       ∧ store_wf (store (Data_Map_HashMap.clear (Ev:=Ev) this h))
       ∧ (∀ key, store_wf (store (Data_Map_HashMap.get (Ev:=Ev) this key h)))
       ∧ (∀ fn, store_wf (store (Data_Map_HashMap.filter (Ev:=Ev)
                                   JSON_parse JSON_stringify this fn h)))
       ∧ (∀ fn, store_wf (store (Data_Map_HashMap.map (Ev:=Ev)
                                   JSON_parse JSON_stringify this fn h)))
       ∧ (∀ fn, store_wf (store (Data_Map_HashMap.mapKeys (Ev:=Ev)
                                   JSON_parse JSON_stringify this fn h)))
       ∧ (∀ fn, store_wf (store (Data_Map_HashMap.mapValues (Ev:=Ev)
                                   JSON_parse JSON_stringify this fn h))))
  ∧ (∀ (K V : Type) (TV : Truthy V)
       (JSON_parse : string → K) (JSON_stringify : K → string)
       (this : Data_Map_DefaultMap.DefaultMap K V) (h : Store string V),
       store_wf h →
       (∀ entries defaultValue deserializeKey serializeKey,
          store_wf (store (Data_Map_DefaultMap.fromEntries
                             JSON_parse JSON_stringify entries defaultValue
                             deserializeKey serializeKey h)))
       ∧ (∀ key v, store_wf (store (Data_Map_DefaultMap.set this key v h)))
       ∧ (∀ key, store_wf (store (Data_Map_DefaultMap.delete this key h)))
       ∧ (∀ key,
            store_wf (store (Data_Map_DefaultMap.deleteIfExists this key h)))
       ∧ store_wf (store (Data_Map_DefaultMap.clear this h))
       ∧ (∀ key, store_wf (store (Data_Map_DefaultMap.get this key h)))
       ∧ (∀ fn, store_wf (store (Data_Map_DefaultMap.filter
                                   JSON_parse JSON_stringify this fn h)))
       ∧ (∀ fn, store_wf (store (Data_Map_DefaultMap.map
                                   JSON_parse JSON_stringify this fn h)))
       ∧ (∀ fn, store_wf (store (Data_Map_DefaultMap.mapKeys
                                   JSON_parse JSON_stringify this fn h)))
       ∧ (∀ fn, store_wf (store (Data_Map_DefaultMap.mapValues
                                   JSON_parse JSON_stringify this fn h)))).
Proof.
  split_and!.
  - intros * Hh. split_and!; intros.
    + by apply store_wf_of_entries.
    + by apply store_wf_of_entries.
    + by apply store_wf_set.
    + rewrite Data_HashMap_Facts.hashmap_delete_run.
      destruct (bool_decide _); [by apply store_wf_delete | done].
    + rewrite Data_HashMap_Facts.hashmap_deleteIfExists_run.
      destruct (bool_decide _); [by apply store_wf_delete | done].
    + apply store_wf_insert; [done | apply NoDup_nil_2].
    + by rewrite Data_HashMap_Facts.hashmap_get_run.
    + rewrite hashmap_filter_run. by apply store_wf_of_entries.
    + rewrite hashmap_map_run. by apply store_wf_of_entries.
    + rewrite hashmap_mapKeys_run. by apply store_wf_of_entries.
    + rewrite hashmap_mapValues_run. by apply store_wf_of_entries.
  - intros * Hh. split_and!; intros.
    + by apply store_wf_of_entries.
    + by apply store_wf_set.
    + rewrite Data_Map_HashMap_Facts.serialmap_delete_run.
      destruct (bool_decide _); [by apply store_wf_delete | done].
    + rewrite Data_Map_HashMap_Facts.serialmap_deleteIfExists_run.
      destruct (bool_decide _); [by apply store_wf_delete | done].
    + apply store_wf_insert; [done | apply NoDup_nil_2].
    + by rewrite Data_Map_HashMap_Facts.serialmap_get_run.
    + rewrite serialmap_filter_run. by apply store_wf_of_entries.
    + rewrite serialmap_map_run. by apply store_wf_of_entries.
    + rewrite serialmap_mapKeys_run. by apply store_wf_of_entries.
    + rewrite serialmap_mapValues_run. by apply store_wf_of_entries.
  - intros * Hh. split_and!; intros.
    + by apply store_wf_of_entries.
    + by apply store_wf_set.
    + rewrite Data_Map_DefaultMap_Facts.defaultmap_delete_run.
      destruct (bool_decide _); [by apply store_wf_delete | done].
    + rewrite Data_Map_DefaultMap_Facts.defaultmap_deleteIfExists_run.
      destruct (bool_decide _); [by apply store_wf_delete | done].
    + apply store_wf_insert; [done | apply NoDup_nil_2].
    + rewrite Data_Map_DefaultMap_Facts.defaultmap_get_run.
      destruct (Data_Map_DefaultMap.stored _ _ _); [done|].
      by apply store_wf_set.
    + rewrite defaultmap_filter_run. by apply store_wf_of_entries.
    + rewrite defaultmap_map_run. by apply store_wf_of_entries.
    + rewrite defaultmap_mapKeys_run. by apply store_wf_of_entries.
    + rewrite defaultmap_mapValues_run. by apply store_wf_of_entries.
Qed.

(** From the empty store, where the invariant holds. *)
Lemma X15_witness :
  let m1 := Data_HashMap.new_HashMap (V:=Z) identity 0%nat "unknown" in
  let m2 := Data_Map_HashMap.new_HashMap (V:=Z) 0%nat untag tag in
  let m3 := Data_Map_DefaultMap.new_DefaultMap m2 (λ _ _ _, 0) None in
  store_wf (store (Data_HashMap.set (Ev:=unit) m1 1 2 ∅))
  ∧ store_wf (store (Data_Map_HashMap.set (Ev:=unit) m2 "a" 2 ∅))
  ∧ store_wf (store (Data_Map_DefaultMap.get m3 "a" ∅)).
Proof.
  intros m1 m2 m3.
  destruct X15_keys_stay_unique as (H1 & H2 & H3).
  split_and!.
  - destruct (H1 Z Z Z unit _ _ m1 ∅ store_wf_empty) as (_ & _ & Hs & _).
    apply Hs.
  - destruct (H2 string Z unit _ JSON_parse JSON_stringify m2 ∅
                store_wf_empty) as (_ & Hs & _).
    apply Hs.
  - destruct (H3 string Z _ JSON_parse JSON_stringify m3 ∅ store_wf_empty)
      as (_ & _ & _ & _ & _ & Hg & _).
    apply Hg.
Defined.

(** ** Maps over different native maps, and over one *)

(** X16 — The methods that write, write to the native map of the map they
    are called on and to no other: [set], [delete], [deleteIfExists] and
    [clear], and in [DefaultMap] also [get], leave the rest of the store
    as it was, so a map over another native map yields the same entries
    before and after. *)
Theorem X16_writes_stay_in_the_map :
  (∀ (K V HK Ev : Type) (EqHK : EqDecision HK)
     (this other : Data_HashMap.HashMap K V HK) (key : K) (v : V)
     (h : Store HK V),
     let l := Data_HashMap._map this in
     let unaffected h' :=
       same_elsewhere l h h'
       ∧ (Data_HashMap._map other ≠ l →
          result (Data_HashMap.entries (Ev:=Ev) other h')
          = result (Data_HashMap.entries (Ev:=Ev) other h)) in
     unaffected (store (Data_HashMap.set (Ev:=Ev) this key v h))
     ∧ unaffected (store (Data_HashMap.delete (Ev:=Ev) this key h))
     ∧ unaffected (store (Data_HashMap.deleteIfExists (Ev:=Ev) this key h))
     ∧ unaffected (store (Data_HashMap.clear (Ev:=Ev) this h)))
  ∧ (∀ (K V Ev : Type)
       (this other : Data_Map_HashMap.HashMap K V) (key : K) (v : V)
       (h : Store string V),
       let l := Data_Map_HashMap.internalMap this in
       let unaffected h' :=
         same_elsewhere l h h'
         ∧ (Data_Map_HashMap.internalMap other ≠ l →
            result (Data_Map_HashMap.entries (Ev:=Ev) other h')
            = result (Data_Map_HashMap.entries (Ev:=Ev) other h)) in
       unaffected (store (Data_Map_HashMap.set (Ev:=Ev) this key v h))
       ∧ unaffected (store (Data_Map_HashMap.delete (Ev:=Ev) this key h))
       ∧ unaffected
           (store (Data_Map_HashMap.deleteIfExists (Ev:=Ev) this key h))
       ∧ unaffected (store (Data_Map_HashMap.clear (Ev:=Ev) this h)))
  ∧ (∀ (K V : Type) (TV : Truthy V)
       (this other : Data_Map_DefaultMap.DefaultMap K V) (key : K) (v : V)
       (h : Store string V),
       let l := Data_Map_HashMap.internalMap
                  (Data_Map_DefaultMap.internalMap this) in
       let unaffected h' :=
         same_elsewhere l h h'
         ∧ (Data_Map_HashMap.internalMap
              (Data_Map_DefaultMap.internalMap other) ≠ l →
            result (Data_Map_DefaultMap.entries other h')
            = result (Data_Map_DefaultMap.entries other h)) in
       unaffected (store (Data_Map_DefaultMap.set this key v h))
       ∧ unaffected (store (Data_Map_DefaultMap.delete this key h))
       ∧ unaffected (store (Data_Map_DefaultMap.deleteIfExists this key h))
       ∧ unaffected (store (Data_Map_DefaultMap.clear this h))
       ∧ unaffected (store (Data_Map_DefaultMap.get this key h))).
Proof.
  assert (∀ (HK V : Type) (l : nat) (h : Store HK V), same_elsewhere l h h)
    as Hrefl by (by intros ???? ??).
  split_and!.
  - intros. unfold_lets. cbn beta.
    rewrite Data_HashMap_Facts.hashmap_set_run,
      Data_HashMap_Facts.hashmap_delete_run,
      Data_HashMap_Facts.hashmap_deleteIfExists_run.
    unfold Data_HashMap.clear, Map_clear.
    destruct (bool_decide _); cbn [store]; repeat split;
      try apply same_elsewhere_insert; try apply Hrefl;
      intros Hne; unfold Data_HashMap.entries; run_eff;
      rewrite ?contents_insert_ne by done; done.
  - intros. unfold_lets. cbn beta.
    rewrite Data_Map_HashMap_Facts.serialmap_set_run,
      Data_Map_HashMap_Facts.serialmap_delete_run,
      Data_Map_HashMap_Facts.serialmap_deleteIfExists_run.
    unfold Data_Map_HashMap.clear, Map_clear.
    destruct (bool_decide _); cbn [store]; repeat split;
      try apply same_elsewhere_insert; try apply Hrefl;
      intros Hne; unfold Data_Map_HashMap.entries; run_eff;
      rewrite ?contents_insert_ne by done; done.
  - intros. unfold_lets. cbn beta.
    rewrite Data_Map_DefaultMap_Facts.defaultmap_set_run,
      Data_Map_DefaultMap_Facts.defaultmap_delete_run,
      Data_Map_DefaultMap_Facts.defaultmap_deleteIfExists_run,
      Data_Map_DefaultMap_Facts.defaultmap_get_run.
    unfold Data_Map_DefaultMap.clear, Data_Map_HashMap.clear, Map_clear.
    destruct (bool_decide _), (Data_Map_DefaultMap.stored this key h);
      cbn [store]; unfold Data_Map_DefaultMap.store_set; repeat split;
      try apply same_elsewhere_insert; try apply Hrefl;
      intros Hne;
      unfold Data_Map_DefaultMap.entries, Data_Map_HashMap.entries; run_eff;
      rewrite ?contents_insert_ne by done; done.
Qed.

(** Two maps over the native maps [0] and [1]: writing to the first leaves
    the entries of the second. *)
Lemma X16_witness :
  let m1 := Data_HashMap.new_HashMap (V:=Z) identity 0%nat "first" in
  let n1 := Data_HashMap.new_HashMap (V:=Z) identity 1%nat "second" in
  let h1 : Store string Z := {[ 0%nat := [("a", 1)]; 1%nat := [("b", 2)] ]} in
  let m2 := Data_Map_HashMap.new_HashMap (V:=Z) 0%nat untag tag in
  let n2 := Data_Map_HashMap.new_HashMap (V:=Z) 1%nat untag tag in
  let m3 := Data_Map_DefaultMap.new_DefaultMap m2 (λ _ _ _, 0) None in
  let n3 := Data_Map_DefaultMap.new_DefaultMap n2 (λ _ _ _, 0) None in
  let h2 : Store string Z :=
    {[ 0%nat := [("id:a", 1)]; 1%nat := [("id:b", 2)] ]} in
  result (Data_HashMap.entries (Ev:=unit) n1
            (store (Data_HashMap.set (Ev:=unit) m1 "b" 5 h1)))
  = result (Data_HashMap.entries (Ev:=unit) n1 h1)
  ∧ result (Data_Map_HashMap.entries (Ev:=unit) n2
              (store (Data_Map_HashMap.clear (Ev:=unit) m2 h2)))
    = result (Data_Map_HashMap.entries (Ev:=unit) n2 h2)
  ∧ result (Data_Map_DefaultMap.entries n3
              (store (Data_Map_DefaultMap.get m3 "b" h2)))
    = result (Data_Map_DefaultMap.entries n3 h2).
Proof.
  intros m1 n1 h1 m2 n2 m3 n3 h2.
  destruct X16_writes_stay_in_the_map as (H1 & H2 & H3).
  destruct (H1 string Z string unit _ m1 n1 "b" 5 h1) as ((_ & G1) & _).
  destruct (H2 string Z unit m2 n2 "b" 5 h2) as (_ & _ & _ & (_ & G2)).
  destruct (H3 string Z _ m3 n3 "b" 5 h2) as (_ & _ & _ & _ & (_ & G3)).
  split; [apply G1; discriminate | split; [apply G2 | apply G3]];
    discriminate.
Defined.

(** X17 — The constructors keep the native map (resp. the [HashMap]) they
    are given and do not copy it: what is written through one map over a
    native map is found through any other map over it whose hashing
    (resp. serializing) function agrees on the key; and what is written
    into the [HashMap] a [DefaultMap] was built on is found by the
    [DefaultMap], whose [get] then does not call the generator. *)
Theorem X17_maps_over_one_native_map_share :
  (∀ (K V HK Ev : Type) (EqHK : EqDecision HK)
     (this other : Data_HashMap.HashMap K V HK) (key : K) (v : V)
     (h : Store HK V),
     let h' := store (Data_HashMap.set (Ev:=Ev) this key v h) in
     Data_HashMap._map other = Data_HashMap._map this →
     Data_HashMap.hash other key = Data_HashMap.hash this key →
     Data_HashMap.stored other key h' = Some v
     ∧ Data_HashMap.has (Ev:=Ev) other key h' = MkOutcome (Ok true) h' [])
  ∧ (∀ (K V Ev : Type)
       (this other : Data_Map_HashMap.HashMap K V) (key : K) (v : V)
       (h : Store string V),
       let h' := store (Data_Map_HashMap.set (Ev:=Ev) this key v h) in
       Data_Map_HashMap.internalMap other = Data_Map_HashMap.internalMap this →
       Data_Map_HashMap.serializeKey other key
       = Data_Map_HashMap.serializeKey this key →
       Data_Map_HashMap.stored other key h' = Some v
       ∧ Data_Map_HashMap.has (Ev:=Ev) other key h'
         = MkOutcome (Ok true) h' [])
  ∧ (∀ (K V : Type) (TV : Truthy V)
       (this : Data_Map_DefaultMap.DefaultMap K V) (key : K) (v : V)
       (h : Store string V),
       let inner := Data_Map_DefaultMap.internalMap this in
       let h' := store (Data_Map_HashMap.set (Ev:=K) inner key v h) in
       Data_Map_DefaultMap.has this key h' = MkOutcome (Ok true) h' []
       ∧ calls (Data_Map_DefaultMap.get this key h') = []
       ∧ store (Data_Map_DefaultMap.get this key h') = h'
       ∧ Data_Map_HashMap.has (Ev:=K) inner key
           (store (Data_Map_DefaultMap.set this key v h))
         = MkOutcome (Ok true)
             (store (Data_Map_DefaultMap.set this key v h)) []).
Proof.
  split_and!.
  - intros * Hl Hk. unfold_lets.
    rewrite Data_HashMap_Facts.hashmap_has_run.
    assert (Data_HashMap.stored other key
              (store (Data_HashMap.set (Ev:=Ev) this key v h)) = Some v)
      as ->; [|done].
    rewrite Data_HashMap_Facts.hashmap_set_run. cbn [store].
    unfold Data_HashMap.stored. rewrite Hl, Hk, contents_insert_eq.
    apply JsMapFacts.get_set_eq.
  - intros * Hl Hk. unfold_lets.
    rewrite Data_Map_HashMap_Facts.serialmap_has_run.
    assert (Data_Map_HashMap.stored other key
              (store (Data_Map_HashMap.set (Ev:=Ev) this key v h)) = Some v)
      as ->; [|done].
    rewrite Data_Map_HashMap_Facts.serialmap_set_run. cbn [store].
    unfold Data_Map_HashMap.stored. rewrite Hl, Hk, contents_insert_eq.
    apply JsMapFacts.get_set_eq.
  - intros. unfold_lets.
    rewrite Data_Map_DefaultMap_Facts.defaultmap_has_run,
      Data_Map_DefaultMap_Facts.defaultmap_get_run,
      Data_Map_DefaultMap_Facts.defaultmap_set_run,
      Data_Map_HashMap_Facts.serialmap_has_run.
    unfold Data_Map_DefaultMap.stored. cbn [store].
    change (Data_Map_DefaultMap.store_set this key v h)
      with (store (Data_Map_HashMap.set (Ev:=K)
                     (Data_Map_DefaultMap.internalMap this) key v h)).
    rewrite !Data_Map_HashMap_Facts.serialmap_stored_set,
      !decide_True by done.
    done.
Qed.

(** Two maps over the native map [0]. *)
Lemma X17_witness :
  let m1 := Data_HashMap.new_HashMap (V:=Z) identity 0%nat "first" in
  let n1 := Data_HashMap.new_HashMap (V:=Z) identity 0%nat "second" in
  let m2 := Data_Map_HashMap.new_HashMap (V:=Z) 0%nat untag tag in
  let n2 := Data_Map_HashMap.new_HashMap (V:=Z) 0%nat JSON_parse tag in
  let h : Store string Z := {[ 0%nat := [] ]} in
  Data_HashMap.stored n1 "a" (store (Data_HashMap.set (Ev:=unit) m1 "a" 1 h))
  = Some 1
  ∧ Data_Map_HashMap.stored n2 "a"
      (store (Data_Map_HashMap.set (Ev:=unit) m2 "a" 1 h))
    = Some 1.
Proof.
  intros m1 n1 m2 n2 h.
  destruct X17_maps_over_one_native_map_share as (H1 & H2 & _).
  split.
  - apply (H1 string Z string unit _ m1 n1 "a" 1 h); reflexivity.
  - apply (H2 string Z unit m2 n2 "a" 1 h); reflexivity.
Defined.

(** ** [DefaultMap.get] *)

(** X18 — [DefaultMap.get] calls the generator exactly when the key is
    absent, then once and with that key.  On a key that is present it
    writes nothing.  On an absent key it appends one entry at the end of
    the traversal, holding the default under the key as [deserializeKey]
    reads its serialized form, and changes nothing under keys with
    another serialized form. *)
Theorem X18_get_materializes_once_at_the_end :
  ∀ (K V : Type) (TV : Truthy V)
    (this : Data_Map_DefaultMap.DefaultMap K V) (key : K) (es : list (K * V))
    (h : Store string V),
    let o := Data_Map_DefaultMap.get this key h in
    let inner := Data_Map_DefaultMap.internalMap this in
    let d := Data_Map_DefaultMap.defaultValue this key inner h in
    let key' := Data_Map_DefaultMap.deserializeKey this
                  (Data_Map_DefaultMap.serializeKey this key) in
    Data_Map_DefaultMap.entries this h = MkOutcome (Ok es) h [] →
    (is_Some (Data_Map_DefaultMap.stored this key h) →
     calls o = [] ∧ store o = h)
    ∧ (Data_Map_DefaultMap.stored this key h = None →
       calls o = [key] ∧ result o = Ok d
       ∧ Data_Map_DefaultMap.entries this (store o)
         = MkOutcome (Ok (es ++ [(key', d)])) (store o) []
       ∧ ∀ k, Data_Map_DefaultMap.serializeKey this key
              ≠ Data_Map_DefaultMap.serializeKey this k →
              Data_Map_DefaultMap.stored this k (store o)
              = Data_Map_DefaultMap.stored this k h).
Proof.
  intros * [= <-]. unfold_lets.
  rewrite Data_Map_DefaultMap_Facts.defaultmap_get_run. split.
  - intros [v ->]. done.
  - intros Hs. rewrite Hs. cbn [calls result store]. split_and!; [done..| |].
    + unfold Data_Map_DefaultMap.entries, Data_Map_HashMap.entries,
        Data_Map_DefaultMap.store_set. run_eff.
      rewrite contents_insert_eq.
      rewrite JsMapFacts.set_fresh by (by apply JsMapFacts.has_false_get).
      by rewrite fmap_app.
    + intros k Hne.
      by rewrite Data_Map_DefaultMap_Facts.defaultmap_stored_set,
        decide_False.
Qed.

(** The map holding [a => 1] with the generator [() => 5], asked for
    ["a"] and for ["b"]. *)
Lemma X18_witness :
  let m := Data_Map_DefaultMap.new_DefaultMap
             (Data_Map_HashMap.new_HashMap (V:=Z) 0%nat untag tag)
             (λ _ _ _, 5) None in
  let h : Store string Z := {[ 0%nat := [("id:a", 1)] ]} in
  (calls (Data_Map_DefaultMap.get m "a" h) = []
   ∧ store (Data_Map_DefaultMap.get m "a" h) = h)
  ∧ calls (Data_Map_DefaultMap.get m "b" h) = ["b"]
  ∧ result (Data_Map_DefaultMap.get m "b" h) = Ok 5
  ∧ Data_Map_DefaultMap.entries m (store (Data_Map_DefaultMap.get m "b" h))
    = MkOutcome (Ok [("a", 1); ("b", 5)])
        (store (Data_Map_DefaultMap.get m "b" h)) [].
Proof.
  intros m h.
  destruct (X18_get_materializes_once_at_the_end string Z _ m "a"
              [("a", 1)] h eq_refl) as [Hp _].
  destruct (X18_get_materializes_once_at_the_end string Z _ m "b"
              [("a", 1)] h eq_refl) as [_ Ha].
  destruct Ha as (Hc & Hr & He & _); [reflexivity|].
  split; [apply Hp; by eexists|].
  split; [exact Hc | split; [exact Hr | exact He]].
Defined.

(** X19 — Once a key has been deleted, or the map cleared, [DefaultMap.get]
    of the key calls the generator again: it returns and stores what the
    generator gives for the store as it then is. *)
Theorem X19_get_after_delete_calls_the_generator :
  ∀ (K V : Type) (TV : Truthy V)
    (this : Data_Map_DefaultMap.DefaultMap K V) (key : K)
    (h : Store string V),
    let inner := Data_Map_DefaultMap.internalMap this in
    let again h1 :=
      Data_Map_DefaultMap.get this key h1
      = MkOutcome (Ok (Data_Map_DefaultMap.defaultValue this key inner h1))
          (Data_Map_DefaultMap.store_set this key
             (Data_Map_DefaultMap.defaultValue this key inner h1) h1)
          [key] in
    (is_Some (Data_Map_DefaultMap.stored this key h) →
     again (store (Data_Map_DefaultMap.delete this key h))
     ∧ again (store (Data_Map_DefaultMap.deleteIfExists this key h)))
    ∧ again (store (Data_Map_DefaultMap.clear this h)).
Proof.
  intros. unfold_lets. cbn beta. split.
  - intros Hs.
    rewrite Data_Map_DefaultMap_Facts.defaultmap_delete_run,
      Data_Map_DefaultMap_Facts.defaultmap_deleteIfExists_run,
      bool_decide_eq_true_2 by done.
    cbn [store]. rewrite !Data_Map_DefaultMap_Facts.defaultmap_get_run.
    unfold Data_Map_DefaultMap.stored, Data_Map_DefaultMap.serializeKey.
    by rewrite Data_Map_HashMap_Facts.serialmap_stored_delete, decide_True.
  - rewrite Data_Map_DefaultMap_Facts.defaultmap_get_run.
    unfold Data_Map_DefaultMap.stored, Data_Map_HashMap.stored,
      Data_Map_DefaultMap.clear, Data_Map_HashMap.clear, Map_clear.
    cbn [store]. by rewrite contents_insert_eq.
Qed.

(** A generator that counts the entries of the map: after deleting the
    only entry it gives [0]. *)
Lemma X19_witness :
  let m := Data_Map_DefaultMap.new_DefaultMap
             (Data_Map_HashMap.new_HashMap (V:=Z) 0%nat untag tag)
             (λ _ inner h,
                Z.of_nat
                  (length (contents h (Data_Map_HashMap.internalMap inner))))
             None in
  let h : Store string Z := {[ 0%nat := [("id:a", 7)] ]} in
  Data_Map_DefaultMap.get m "a" (store (Data_Map_DefaultMap.delete m "a" h))
  = MkOutcome (Ok 0) {[ 0%nat := [("id:a", 0)] ]} ["a"].
Proof.
  intros m h.
  destruct (X19_get_after_delete_calls_the_generator string Z _ m "a" h)
    as [Hd _].
  destruct Hd as [Hd _]; [by eexists|]. exact Hd.
Defined.

(** ** [Data/DefaultMap.ts] *)

(** X20 — The earlier [DefaultMap] starts on a new empty map, whatever
    map it is constructed with, and has no method that writes to it: its
    [get] returns the default for every key (the generator applied to the
    key, or the constant) and leaves the store as it is. *)
Theorem X20_earlier_DefaultMap_always_defaults :
  ∀ (K V HK D : Type) (EqHK : EqDecision HK) (TV : Truthy V)
    (onHash : K → HK) (defaultValue : Data_DefaultMap.DefaultValue K D)
    (name : option string) (h : Store HK V) (key : K),
    let o := Data_DefaultMap.new_DefaultMap (V:=V) onHash defaultValue name h in
    ∃ m, result o = Ok m ∧ calls o = []
         ∧ h !! Data_HashMap._map (Data_DefaultMap._map m) = None
         ∧ Data_DefaultMap.name m = default "unknown" name
         ∧ Data_DefaultMap.get m key (store o)
           = MkOutcome
               (Ok (inr match defaultValue with
                        | Data_DefaultMap.type_generator value => value key
                        | Data_DefaultMap.type_value value => value
                        end))
               (store o)
               match defaultValue with
               | Data_DefaultMap.type_generator _ => [key]
               | Data_DefaultMap.type_value _ => []
               end.
Proof.
  intros. unfold_lets. unfold Data_DefaultMap.new_DefaultMap,
    Data_HashMap.emptyWithCustomHash. run_eff.
  eexists. split; [reflexivity|].
  cbn [Data_DefaultMap._map Data_DefaultMap.name Data_HashMap._map].
  split_and!; [done | apply fresh_lookup_None | by destruct name |].
  unfold Data_DefaultMap.get.
  destruct defaultValue as [g|d];
    cbn [Data_DefaultMap.defaultValue Data_DefaultMap._map];
    unfold mbind, Eff_bind, mret, Eff_ret, emit; cbn [result store calls];
    rewrite Data_HashMap_Facts.hashmap_getOr_run;
    unfold Data_HashMap.stored; cbn [Data_HashMap._map];
    by rewrite contents_insert_eq.
Qed.

(** ** The message of the error *)

(** X21 — The error thrown for a missing key, by [get] and [delete] of
    [Data/Map/HashMap.ts] and by [delete] of a [DefaultMap], always reads
    "Could not find key '<serialized key>' (serialized) in HashMap
    unknown": a [DefaultMap] lets the error of its internal [HashMap]
    through, so the message names neither the [DefaultMap] nor its
    name. *)
Theorem X21_message_names_the_HashMap :
  (∀ (K V Ev : Type) (TV : Truthy V)
     (this : Data_Map_HashMap.HashMap K V) (key : K) (h : Store string V) e,
     result (Data_Map_HashMap.get (Ev:=Ev) this key h) = Throw e
     ∨ result (Data_Map_HashMap.delete (Ev:=Ev) this key h) = Throw e →
     MissingKeyError_message e
     = "Could not find key '" +:+ Data_Map_HashMap.serializeKey this key
       +:+ "' (serialized) in HashMap unknown")
  ∧ (∀ (K V : Type) (TV : Truthy V)
       (this : Data_Map_DefaultMap.DefaultMap K V) (key : K)
       (h : Store string V) e,
       result (Data_Map_DefaultMap.get this key h) = Throw e
       ∨ result (Data_Map_DefaultMap.delete this key h) = Throw e →
       MissingKeyError_message e
       = "Could not find key '" +:+ Data_Map_DefaultMap.serializeKey this key
         +:+ "' (serialized) in HashMap unknown").
Proof.
  split.
  - intros * He.
    rewrite Data_Map_HashMap_Facts.serialmap_get_run,
      Data_Map_HashMap_Facts.serialmap_delete_run in He.
    cbn [result] in He.
    assert (e = new_MissingKeyError this key) as ->; [|done].
    destruct He as [He|He].
    + destruct (Data_Map_HashMap.stored this key h) as [v|];
        [destruct (truthy v)|]; by inversion He.
    + destruct (bool_decide _); by inversion He.
  - intros * He.
    rewrite Data_Map_DefaultMap_Facts.defaultmap_get_run,
      Data_Map_DefaultMap_Facts.defaultmap_delete_run in He.
    assert (e = new_MissingKeyError (Data_Map_DefaultMap.internalMap this) key)
      as ->; [|done].
    destruct He as [He|He].
    + destruct (Data_Map_DefaultMap.stored this key h) as [v|];
        [destruct (truthy v)|]; by inversion He.
    + destruct (bool_decide _); by inversion He.
Qed.

(** Deleting ["b"] from a [DefaultMap] named ["scores"] that holds
    [a => 1]. *)
Lemma X21_witness :
  let m2 := Data_Map_HashMap.new_HashMap (V:=Z) 0%nat untag tag in
  let m3 := Data_Map_DefaultMap.new_DefaultMap m2 (λ _ _ _, 0)
              (Some "scores") in
  let h : Store string Z := {[ 0%nat := [("id:a", 1)] ]} in
  MissingKeyError_message (new_MissingKeyError m2 "b")
  = "Could not find key 'id:b' (serialized) in HashMap unknown".
Proof.
  intros m2 m3 h.
  destruct X21_message_names_the_HashMap as [_ H3].
  apply (H3 string Z _ m3 "b" h (new_MissingKeyError m2 "b")).
  right. reflexivity.
Defined.

(** ** [filter] as a copy *)

Lemma accepted_by_count_all {K V} (n : nat) (es : list (K * V)) :
  Spec.accepted_by_count (λ _ _ _, true) n es = es.
Proof.
  revert n. induction es as [|[k v] r IH]; intros n; simpl; [done|].
  by rewrite IH.
Qed.

Lemma accepted_by_count_none {K V} (n : nat) (es : list (K * V)) :
  Spec.accepted_by_count (λ _ _ _, false) n es = [].
Proof. induction es as [|[k v] r IH]; simpl; [done|]. apply IH. Qed.

(** X22 — [filter] with a predicate that accepts everything returns a copy:
    the new map yields the entries of the source, and what is then written
    to either map does not show in the other.  With a predicate that
    accepts nothing the new map is empty.  (For [Data/Map/HashMap.ts]: on
    maps on whose stored keys [serializeKey] undoes [deserializeKey].) *)
Theorem X22_filter_accepting_all_copies :
  (∀ (K V HK Ev : Type) (EqHK : EqDecision HK)
     (this : Data_HashMap.HashMap K V HK) (key : K) (v : V) (h : Store HK V),
     let o := Data_HashMap.filter (Ev:=Ev) this (λ _ _ _ _ _, true) h in
     let o0 := Data_HashMap.filter (Ev:=Ev) this (λ _ _ _ _ _, false) h in
     is_Some (h !! Data_HashMap._map this) →
     JsMap.wf (contents h (Data_HashMap._map this)) →
     ∃ m' m0,
       result o = Ok m' ∧ result o0 = Ok m0
       ∧ result (Data_HashMap.entries (Ev:=Ev) m0 (store o0)) = Ok []
       ∧ result (Data_HashMap.entries (Ev:=Ev) m' (store o))
         = result (Data_HashMap.entries (Ev:=Ev) this h)
       ∧ result (Data_HashMap.entries (Ev:=Ev) this
                   (store (Data_HashMap.set (Ev:=Ev) m' key v (store o))))
         = result (Data_HashMap.entries (Ev:=Ev) this h)
       ∧ result (Data_HashMap.entries (Ev:=Ev) m'
                   (store (Data_HashMap.set (Ev:=Ev) this key v (store o))))
         = result (Data_HashMap.entries (Ev:=Ev) this h))
  ∧ (∀ (K V Ev : Type) (JSON_parse : string → K) (JSON_stringify : K → string)
       (this : Data_Map_HashMap.HashMap K V) (key : K) (v : V)
       (h : Store string V),
       let raw := contents h (Data_Map_HashMap.internalMap this) in
       let o := Data_Map_HashMap.filter (Ev:=Ev) JSON_parse JSON_stringify
                  this (λ _ _ _ _ _, true) h in
       let o0 := Data_Map_HashMap.filter (Ev:=Ev) JSON_parse JSON_stringify
                   this (λ _ _ _ _ _, false) h in
       is_Some (h !! Data_Map_HashMap.internalMap this) →
       JsMap.wf raw →
       (∀ s, s ∈ raw.*1 →
             Data_Map_HashMap.serializeKey this
               (Data_Map_HashMap.deserializeKey this s) = s) →
       ∃ m' m0,
         result o = Ok m' ∧ result o0 = Ok m0
         ∧ result (Data_Map_HashMap.entries (Ev:=Ev) m0 (store o0)) = Ok []
         ∧ result (Data_Map_HashMap.entries (Ev:=Ev) m' (store o))
           = result (Data_Map_HashMap.entries (Ev:=Ev) this h)
         ∧ result (Data_Map_HashMap.entries (Ev:=Ev) this
                     (store (Data_Map_HashMap.set (Ev:=Ev) m' key v (store o))))
           = result (Data_Map_HashMap.entries (Ev:=Ev) this h)
         ∧ result (Data_Map_HashMap.entries (Ev:=Ev) m'
                     (store (Data_Map_HashMap.set (Ev:=Ev) this key v
                               (store o))))
           = result (Data_Map_HashMap.entries (Ev:=Ev) this h)).
Proof.
  split.
  - intros * Hal Hwf. unfold_lets.
    pose proof (fresh_not_allocated h _ Hal) as Hne.
    rewrite !hashmap_filter_run. unfold hashmap_built, Data_HashMap.filter_loop.
    rewrite (accepted_by_count_loop (λ _ _ _, true)),
      (accepted_by_count_loop (λ _ _ _, false)).
    cbn [app length]. rewrite accepted_by_count_all, accepted_by_count_none.
    do 2 eexists. split; [reflexivity|]. split; [reflexivity|].
    cbn [store Data_HashMap._map].
    rewrite !Data_HashMap_Facts.hashmap_set_run. cbn [store Data_HashMap._map].
    unfold Data_HashMap.entries. run_eff.
    rewrite !contents_insert_eq.
    rewrite (contents_insert_ne _ (fresh (dom h)) (Data_HashMap._map this))
      by done.
    rewrite (contents_insert_ne _ (Data_HashMap._map this) (fresh (dom h)))
      by done.
    rewrite !contents_insert_eq.
    rewrite (contents_insert_ne _ (fresh (dom h)) (Data_HashMap._map this))
      by done.
    rewrite (JsMapFacts.of_entries_NoDup (contents h (Data_HashMap._map this)))
      by exact Hwf.
    done.
  - intros * Hal Hwf Hrt. unfold_lets.
    pose proof (fresh_not_allocated h _ Hal) as Hne.
    rewrite !serialmap_filter_run.
    unfold serialmap_built, serialmap_entries, Data_Map_HashMap.filter_loop.
    rewrite (accepted_by_count_loop (λ _ _ _, true)),
      (accepted_by_count_loop (λ _ _ _, false)).
    cbn [app length]. rewrite accepted_by_count_all, accepted_by_count_none.
    do 2 eexists. split; [reflexivity|]. split; [reflexivity|].
    cbn [store Data_Map_HashMap.internalMap Data_Map_HashMap.serializeKey
           Data_Map_HashMap.deserializeKey].
    rewrite !Data_Map_HashMap_Facts.serialmap_set_run.
    cbn [store Data_Map_HashMap.internalMap Data_Map_HashMap.serializeKey
           Data_Map_HashMap.deserializeKey].
    unfold Data_Map_HashMap.entries. run_eff.
    rewrite !contents_insert_eq.
    rewrite (contents_insert_ne _ (fresh (dom h))
               (Data_Map_HashMap.internalMap this)) by done.
    rewrite (contents_insert_ne _ (Data_Map_HashMap.internalMap this)
               (fresh (dom h))) by done.
    rewrite !contents_insert_eq.
    rewrite (contents_insert_ne _ (fresh (dom h))
               (Data_Map_HashMap.internalMap this)) by done.
    rewrite (reserialized_sublist _ _
               (contents h (Data_Map_HashMap.internalMap this))) by done.
    done.
Qed.

(** Copying the map of the tests and writing to the copy and to the
    source. *)
Lemma X22_witness :
  let m1 := Data_HashMap.new_HashMap (V:=string) identity 0%nat "unknown" in
  let h1 : Store Z string := {[ 0%nat := [(1, "one"); (2, "two")] ]} in
  let m2 := Data_Map_HashMap.new_HashMap (V:=Z) 0%nat untag tag in
  let h2 : Store string Z := {[ 0%nat := [("id:a", 1); ("id:b", 2)] ]} in
  let o1 := Data_HashMap.filter (Ev:=unit) m1 (λ _ _ _ _ _, true) h1 in
  let o2 := Data_Map_HashMap.filter (Ev:=unit) JSON_parse JSON_stringify m2
              (λ _ _ _ _ _, true) h2 in
  (∃ m', result o1 = Ok m'
         ∧ result (Data_HashMap.entries (Ev:=unit) m1
                     (store (Data_HashMap.set (Ev:=unit) m' 3 "three"
                               (store o1))))
           = Ok [(1, "one"); (2, "two")])
  ∧ (∃ m', result o2 = Ok m'
           ∧ result (Data_Map_HashMap.entries (Ev:=unit) m'
                       (store (Data_Map_HashMap.set (Ev:=unit) m2 "c" 3
                                 (store o2))))
             = Ok [("a", 1); ("b", 2)]).
Proof.
  intros m1 h1 m2 h2 o1 o2.
  destruct X22_filter_accepting_all_copies as (H1 & H2).
  split.
  - destruct (H1 Z string Z unit _ m1 3 "three" h1)
      as (m' & m0 & Hr & _ & _ & _ & Hs & _).
    { eexists. reflexivity. }
    { apply (bool_decide_unpack _). by vm_compute. }
    exists m'. split; [exact Hr | exact Hs].
  - destruct (H2 string Z unit JSON_parse JSON_stringify m2 "c" 3 h2)
      as (m' & m0 & Hr & _ & _ & _ & _ & Hs).
    { eexists. reflexivity. }
    { apply (bool_decide_unpack _). by vm_compute. }
    { intros s Hs. change (s ∈ ["id:a"; "id:b"]) in Hs.
      rewrite !elem_of_cons, elem_of_nil in Hs.
      destruct Hs as [->|[->|[]]]; reflexivity. }
    exists m'. split; [exact Hr | exact Hs].
Defined.
